(** * Dokan kernel driver: file-system control requests (sys/fscontrol.c)

    A shallow embedding of [DokanOplockRequest], [DokanUserFsRequest],
    [DokanMountVolume], [DokanInitVpb], [DokanDispatchFileSystemControl],
    [MatchDokanDCBType], [CreateSetReparsePointRequest],
    [CreateRemoveReparsePointRequest] and [SendDirectoryFsctl], and the
    properties proved about them.

    Kernel objects live in a store of typed tables indexed by address;
    a pointer is [option Z], [None] being NULL.  Reading through NULL or
    through an address that holds no object is a fault: the computation
    has no result.  Lock operations, stores the properties speak about and
    calls into routines that are not part of this file are recorded, in
    order, in a trace. *)

From Stdlib Require Import ZArith List Bool Lia.
From stdpp Require Import base option list gmap.

Local Open Scope Z_scope.

(** ** Status codes (ntstatus.h).  NTSTATUS is a signed 32-bit value. *)

Abbreviation NTSTATUS := Z (only parsing).

Definition STATUS_SUCCESS : NTSTATUS := 0.
Definition STATUS_INVALID_PARAMETER : NTSTATUS := 0xC000000D - 2 ^ 32.
Definition STATUS_INVALID_DEVICE_REQUEST : NTSTATUS := 0xC0000010 - 2 ^ 32.
Definition STATUS_BUFFER_TOO_SMALL : NTSTATUS := 0xC0000023 - 2 ^ 32.
Definition STATUS_OBJECT_NAME_INVALID : NTSTATUS := 0xC0000033 - 2 ^ 32.
Definition STATUS_DELETE_PENDING : NTSTATUS := 0xC0000056 - 2 ^ 32.
Definition STATUS_UNRECOGNIZED_VOLUME : NTSTATUS := 0xC000014F - 2 ^ 32.
Definition STATUS_NOT_A_REPARSE_POINT : NTSTATUS := 0xC0000275 - 2 ^ 32.
Definition STATUS_DEVICE_REMOVED : NTSTATUS := 0xC00002B6 - 2 ^ 32.

(** [NT_SUCCESS(Status)] is [((NTSTATUS)(Status)) >= 0]. *)
Definition NT_SUCCESS (Status : NTSTATUS) : bool := 0 <=? Status.

(** [FlagOn(_F,_SF)] is [((_F) & (_SF))], used as a condition. *)
Definition FlagOn (F SF : Z) : bool := negb (Z.land F SF =? 0).

(** [SetLongFlag] and [ClearLongFlag] on a 32-bit flag word. *)
Definition SetLongFlag (F SF : Z) : Z := Z.lor F SF.
Definition ClearLongFlag (F SF : Z) : Z := Z.land F (Z.lnot SF mod 2 ^ 32).

(** ** File-system control codes

    [FsControlCode] is a ULONG compared against named constants only.
    The constants are kept by name; [FSCTL_OTHER] is any value that is
    none of them. *)

Inductive FSCTL_CODE : Type :=
  | FSCTL_ACTIVATE_KEEPALIVE
  | FSCTL_NOTIFY_PATH
  | FSCTL_REQUEST_OPLOCK_LEVEL_1
  | FSCTL_REQUEST_OPLOCK_LEVEL_2
  | FSCTL_REQUEST_BATCH_OPLOCK
  | FSCTL_OPLOCK_BREAK_ACKNOWLEDGE
  | FSCTL_OPBATCH_ACK_CLOSE_PENDING
  | FSCTL_OPLOCK_BREAK_NOTIFY
  | FSCTL_OPLOCK_BREAK_ACK_NO_2
  | FSCTL_REQUEST_FILTER_OPLOCK
  | FSCTL_REQUEST_OPLOCK
  | FSCTL_LOCK_VOLUME
  | FSCTL_UNLOCK_VOLUME
  | FSCTL_IS_VOLUME_MOUNTED
  | FSCTL_GET_REPARSE_POINT
  | FSCTL_OTHER (code : Z).

#[global] Instance FSCTL_CODE_eq_dec : EqDecision FSCTL_CODE.
Proof. solve_decision. Defined.

(** [a == b] on control codes. *)
Definition code_is (a b : FSCTL_CODE) : bool := bool_decide (a = b).

(** Minor function codes of IRP_MJ_FILE_SYSTEM_CONTROL (wdm.h). *)
Definition IRP_MN_USER_FS_REQUEST : Z := 0.
Definition IRP_MN_MOUNT_VOLUME : Z := 1.

(** REQUEST_OPLOCK_INPUT_BUFFER flags and oplock levels (ntifs.h). *)
Definition REQUEST_OPLOCK_INPUT_FLAG_REQUEST : Z := 1.
Definition REQUEST_OPLOCK_INPUT_FLAG_ACK : Z := 2.
Definition OPLOCK_LEVEL_CACHE_READ : Z := 1.
Definition OPLOCK_LEVEL_CACHE_HANDLE : Z := 2.
Definition OPLOCK_LEVEL_CACHE_WRITE : Z := 4.

(** [sizeof(REQUEST_OPLOCK_OUTPUT_BUFFER)]: two USHORT, four ULONG, one
    USHORT, padded to a multiple of four. *)
Definition sizeof_REQUEST_OPLOCK_OUTPUT_BUFFER : Z := 24.

(** Device object flags (wdm.h). *)
Definition DO_DIRECT_IO : Z := 0x10.
Definition DO_DEVICE_INITIALIZING : Z := 0x80.

Definition FILE_DEVICE_NETWORK_FILE_SYSTEM : Z := 0x14.

(** ** Kernel objects *)

(** [FSD_IDENTIFIER_TYPE], the tag every Dokan object starts with. *)
Inductive FSD_IDENTIFIER_TYPE : Type := DGL | DCB | VCB | FCB | CCB | FREED_FCB.

#[global] Instance FSD_IDENTIFIER_TYPE_eq_dec : EqDecision FSD_IDENTIFIER_TYPE.
Proof. solve_decision. Defined.

(** Objects owned by the kernel's lock packages, known here only by
    the handle the driver passes around. *)
Inductive FILE_LOCK : Type := FileLockHandle (h : Z).
Inductive OPLOCK : Type := OplockHandle (h : Z).

Record REQUEST_OPLOCK_INPUT_BUFFER : Type := mkOplockInput {
  StructureVersion : Z;
  StructureLength : Z;
  RequestedOplockLevel : Z;
  Flags : Z
}.

Record DOKAN_NOTIFY_PATH_INTERMEDIATE : Type := mkNotifyPath {
  CompletionFilter : Z;
  Action : Z;
  Length : Z;
  Buffer : list Z
}.

Record UNICODE_STRING : Type := mkUnicodeString {
  us_Length : Z;
  us_MaximumLength : Z;
  us_Buffer : list Z
}.

Inductive SYSTEM_BUFFER : Type :=
  | OplockInputBuffer (b : REQUEST_OPLOCK_INPUT_BUFFER)
  | NotifyPathBuffer (b : DOKAN_NOTIFY_PATH_INTERMEDIATE)
  | RawBuffer (bytes : list Z).

Record FILE_OBJECT : Type := mkFileObject {
  FsContext2 : option Z
}.

(** The current stack location: the Parameters union is flattened. *)
Record IO_STACK_LOCATION : Type := mkIrpSp {
  MinorFunction : Z;
  FsControlCode : FSCTL_CODE;
  InputBufferLength : Z;
  OutputBufferLength : Z;
  FileObject : option FILE_OBJECT;
  MountVolume_DeviceObject : option Z;
  MountVolume_Vpb : option Z
}.

Record IRP : Type := mkIrp {
  IoGetCurrentIrpStackLocation : IO_STACK_LOCATION;
  SystemBuffer : option SYSTEM_BUFFER;
  RequestorProcessId : Z
}.

Record DEVICE_OBJECT : Type := mkDevice {
  DriverObject : Z;
  dev_Flags : Z;
  DeviceExtension : option Z
}.

Record VPB : Type := mkVpb {
  vpb_DeviceObject : option Z;
  VolumeLabelLength : Z;
  VolumeLabel : list Z;
  SerialNumber : Z
}.

Record DokanDCB : Type := mkDCB {
  dcb_Identifier : FSD_IDENTIFIER_TYPE;
  dcb_DeviceObject : option Z;
  dcb_Vcb : option Z;
  MountOptions : Z;
  VolumeDeviceType : Z;
  DeviceCharacteristics : Z;
  DiskDeviceName : list Z;
  UNCName : list Z;
  MountPoint : list Z;
  SessionId : Z;
  UseMountManager : bool;
  FcbGarbageCollectionIntervalMs : Z
}.

Record DokanVCB : Type := mkVCB {
  vcb_Identifier : FSD_IDENTIFIER_TYPE;
  vcb_Size : Z;
  vcb_DeviceObject : option Z;
  vcb_Dcb : option Z;
  vcb_Flags : Z;
  ValidFcbMask : Z;
  IsKeepaliveActive : bool
}.

Record DokanFCB : Type := mkFCB {
  fcb_Identifier : FSD_IDENTIFIER_TYPE;
  fcb_Vcb : option Z;
  fcb_Flags : Z;
  FileCount : Z;
  IsKeepalive : bool;
  FileLock : FILE_LOCK;
  AllocationSize : Z;
  Oplock : OPLOCK
}.

Record DokanCCB : Type := mkCCB {
  ccb_Identifier : FSD_IDENTIFIER_TYPE;
  ccb_Fcb : option Z;
  ccb_IsKeepaliveActive : bool
}.

(** [DOKAN_CONTROL], the key [FindMountEntry] searches with. *)
Record DOKAN_CONTROL : Type := mkControl {
  ctl_DeviceName : list Z;
  ctl_UNCName : list Z;
  ctl_SessionId : Z;
  ctl_VolumeDeviceObject : option Z;
  ctl_MountOptions : Z
}.

Record MOUNT_ENTRY : Type := mkMountEntry {
  MountControl : DOKAN_CONTROL
}.

(** ** Trace of observable steps *)

Inductive Event : Type :=
  | DokanVCBLockRO (vcb : Z)
  | DokanVCBUnlock (vcb : Z)
  | DokanFCBLockRW (fcb : Z)
  | DokanFCBLockRO (fcb : Z)
  | DokanFCBUnlock (fcb : Z)
  | Call_FsRtlOplockFsctrl (oplock : OPLOCK) (irp : IRP) (oplockCount : Z)
  | Store_ccb_IsKeepaliveActive (ccb : Z)
  | Store_vcb_IsKeepaliveActive (vcb : Z)
  | Call_DokanNotifyReportChange0 (fcb : Z) (path : UNICODE_STRING)
      (filter action : Z)
  | Call_DokanCleanupAllChangeNotificationWaiters (vcb : option Z)
  | Call_IoCreateDevice (secure : bool) (status : NTSTATUS)
  | Call_DokanStartFcbGarbageCollector (vcb : Z)
  | Call_ObReferenceObject (dev : Z)
  | ExAcquireResourceExclusiveLite_dcb (dcb : Z)
  | ExReleaseResourceLite_dcb (dcb : Z)
  | ExAcquireResourceExclusiveLite_MountManagerLock
  | ExReleaseResourceLite_MountManagerLock
  | Call_DokanUpdateTimeout (dcb : Z)
  | Call_DokanStartCheckThread (dcb : Z)
  | Call_DokanSendAutoMount (enable : bool)
  | Call_DokanSendVolumeArrivalNotification (name : list Z)
  | Call_DokanCreateMountPoint (dcb : Z)
  | Call_DokanRegisterUncProvider (dcb : Z)
  | Call_DokanCompleteIrpRequest (irp : option IRP) (status : NTSTATUS).

(** ** The store *)

Record State : Type := mkState {
  devices : gmap Z DEVICE_OBJECT;
  dcbs : gmap Z DokanDCB;
  vcbs : gmap Z DokanVCB;
  fcbs : gmap Z DokanFCB;
  ccbs : gmap Z DokanCCB;
  vpbs : gmap Z VPB;
  MountEntryList : list MOUNT_ENTRY;
  trace : list Event
}.

Definition set_trace (t : list Event) (s : State) : State :=
  mkState (devices s) (dcbs s) (vcbs s) (fcbs s) (ccbs s) (vpbs s)
          (MountEntryList s) t.
Definition set_ccbs (m : gmap Z DokanCCB) (s : State) : State :=
  mkState (devices s) (dcbs s) (vcbs s) (fcbs s) m (vpbs s)
          (MountEntryList s) (trace s).
Definition set_vcbs (m : gmap Z DokanVCB) (s : State) : State :=
  mkState (devices s) (dcbs s) m (fcbs s) (ccbs s) (vpbs s)
          (MountEntryList s) (trace s).
Definition set_dcbs (m : gmap Z DokanDCB) (s : State) : State :=
  mkState (devices s) m (vcbs s) (fcbs s) (ccbs s) (vpbs s)
          (MountEntryList s) (trace s).
Definition set_devices (m : gmap Z DEVICE_OBJECT) (s : State) : State :=
  mkState m (dcbs s) (vcbs s) (fcbs s) (ccbs s) (vpbs s)
          (MountEntryList s) (trace s).
Definition set_vpbs (m : gmap Z VPB) (s : State) : State :=
  mkState (devices s) (dcbs s) (vcbs s) (fcbs s) (ccbs s) m
          (MountEntryList s) (trace s).
Definition set_MountEntryList (l : list MOUNT_ENTRY) (s : State) : State :=
  mkState (devices s) (dcbs s) (vcbs s) (fcbs s) (ccbs s) (vpbs s)
          l (trace s).

(** ** Computations: state passing with faults *)

Definition M (A : Type) : Type := State -> option (A * State).

Definition ret {A : Type} (a : A) : M A := fun s => Some (a, s).

Definition bind {A B : Type} (m : M A) (k : A -> M B) : M B :=
  fun s => match m s with
           | Some (a, s') => k a s'
           | None => None
           end.

Definition fault {A : Type} : M A := fun _ => None.

Notation "'let*' x ':=' m 'in' k" := (bind m (fun x => k))
  (at level 10, x pattern, m at level 100, k at level 200).
Notation "m '>>' k" := (bind m (fun _ => k))
  (at level 100, k at level 200, right associativity).

Definition emit (e : Event) : M unit :=
  fun s => Some (tt, set_trace (trace s ++ [e]) s).

Definition when_ (b : bool) (m : M unit) : M unit := if b then m else ret tt.

Definition gets {A : Type} (f : State -> A) : M A := fun s => Some (f s, s).

Definition modify (f : State -> State) : M unit := fun s => Some (tt, f s).

(** [p->...] for a pointer held in a local variable: NULL faults. *)
Definition deref {A : Type} (p : option A) : M A :=
  match p with
  | Some a => ret a
  | None => fault
  end.

Definition load {A : Type} (tbl : State -> gmap Z A) (a : Z) : M A :=
  fun s => match tbl s !! a with
           | Some x => Some (x, s)
           | None => None
           end.

(** A pointer to a tagged object, tested as [p == NULL ||
    p->Identifier.Type != T]: [None] when the test holds, the object
    otherwise. *)
Definition checked {A : Type} (tbl : State -> gmap Z A)
    (tag : A -> FSD_IDENTIFIER_TYPE) (T : FSD_IDENTIFIER_TYPE)
    (p : option Z) : M (option (Z * A)) :=
  match p with
  | None => ret None
  | Some a =>
      let* x := load tbl a in
      if bool_decide (tag x = T) then ret (Some (a, x)) else ret None
  end.

(** ** What the file takes from elsewhere

    Constants and macros of dokan.h, public.h, util/fcb.h and
    util/irp_buffer_helper.h, and the kernel and driver routines
    sys/fscontrol.c calls.  Nothing is assumed about them. *)

Class Externals : Type := {
  (* FCB flag bits and the macro that tests them *)
  DOKAN_FILE_DIRECTORY : Z;
  DOKAN_DELETE_ON_CLOSE : Z;
  DokanFCBFlagsIsSet : DokanFCB -> Z -> bool;
  (* mount option bit: byte-range locks are handled by the user-mode
     file system, not by the kernel's lock package *)
  DOKAN_EVENT_FILELOCK_USER_MODE : Z;
  VCB_MOUNTED : Z;
  VOLUME_LABEL : list Z;
  sizeof_DokanVCB : Z;
  (* the macros that fetch the request payload or return from the
     calling function with the status on the left *)
  GET_IRP_BUFFER_OR_RETURN : IRP -> NTSTATUS + REQUEST_OPLOCK_INPUT_BUFFER;
  GET_IRP_NOTIFY_PATH_INTERMEDIATE_OR_RETURN :
    IRP -> NTSTATUS + DOKAN_NOTIFY_PATH_INTERMEDIATE;
  (* the kernel's oplock and byte-range lock packages *)
  FsRtlOplockIsSharedRequest : IRP -> bool;
  DokanFsRtlCheckLockForOplockRequest : option (FILE_LOCK -> Z -> bool);
  FsRtlAreThereCurrentOrInProgressFileLocks : FILE_LOCK -> bool;
  FsRtlOplockFsctrl : OPLOCK -> IRP -> Z -> NTSTATUS;
  (* the macro of util/fcb.h that gives the oplock of an FCB *)
  DokanGetFcbOplock : DokanFCB -> OPLOCK;
  (* notification *)
  DokanNotifyReportChange0 : DokanFCB -> UNICODE_STRING -> Z -> Z -> NTSTATUS;
  (* mounting *)
  IsDeletePending : DEVICE_OBJECT -> bool;
  (* IoCreateDevice, or IoCreateDeviceSecure when the flag is set: the
     status, and the address and contents of the new device object *)
  IoCreateDevice :
    State -> bool -> Z -> DokanDCB -> NTSTATUS * (Z * DEVICE_OBJECT);
  FindMountEntry : list MOUNT_ENTRY -> DOKAN_CONTROL -> option nat;
  IsMountPointDriveLetter : list Z -> bool;
  DokanQueryAutoMount : bool -> bool;
  DokanSendVolumeArrivalNotification : list Z -> NTSTATUS
}.

(** Modelled from the spec: [DokanLogError(Logger, Status, Format, ...)]
    of the driver's logging code, which is not part of this file.  The
    specification has every path that ends in [return DokanLogError(...)]
    fail with the status named there (invalid-parameter, device-removed,
    the status of the failed device creation): the call writes a log
    record and evaluates to [Status]. *)
Definition DokanLogError (Status : NTSTATUS) : NTSTATUS := Status.

(** Modelled from the spec: [GetIdentifierType(Obj)] of dokan.h, which
    is not part of this file.  The specification speaks of the identity
    tag every object carries and must resolve to its kind: the macro
    reads the tag, as [Obj->Identifier.Type] does in
    [DokanOplockRequest]. *)
Definition GetIdentifierType (Obj : DokanDCB) : FSD_IDENTIFIER_TYPE :=
  dcb_Identifier Obj.

(** ** DokanOplockRequest *)

Section OplockRequest.
Context {ext : Externals}.

(** Lines 193-217: the count handed to the oplock package.
    [oplockCount] starts at 0. *)
Definition OplockCount (irp : IRP) (dcb : DokanDCB) (fcb : DokanFCB) : Z :=
  if negb (FlagOn (MountOptions dcb) DOKAN_EVENT_FILELOCK_USER_MODE) then
    if FsRtlOplockIsSharedRequest irp then
      if negb (DokanFCBFlagsIsSet fcb DOKAN_FILE_DIRECTORY) then
        match DokanFsRtlCheckLockForOplockRequest with
        | Some check =>
            Z.b2z (negb (check (FileLock fcb) (AllocationSize fcb)))
        | None =>
            Z.b2z (FsRtlAreThereCurrentOrInProgressFileLocks (FileLock fcb))
        end
      else 0
    else FileCount fcb
  else 0.

(** [inputBuffer->Flags] and [inputBuffer->RequestedOplockLevel].  The
    pointer is NULL unless the code is FSCTL_REQUEST_OPLOCK, and every
    read of it sits behind a test for that code. *)
Definition ib_Flags (inputBuffer : option REQUEST_OPLOCK_INPUT_BUFFER) : Z :=
  from_option Flags 0 inputBuffer.
Definition ib_Level (inputBuffer : option REQUEST_OPLOCK_INPUT_BUFFER) : Z :=
  from_option RequestedOplockLevel 0 inputBuffer.

(** Lines 180-186: the oplock requests. *)
Definition is_request_class (fsControlCode : FSCTL_CODE)
    (inputBuffer : option REQUEST_OPLOCK_INPUT_BUFFER) : bool :=
  code_is fsControlCode FSCTL_REQUEST_OPLOCK_LEVEL_1 ||
  code_is fsControlCode FSCTL_REQUEST_BATCH_OPLOCK ||
  code_is fsControlCode FSCTL_REQUEST_FILTER_OPLOCK ||
  code_is fsControlCode FSCTL_REQUEST_OPLOCK_LEVEL_2 ||
  (code_is fsControlCode FSCTL_REQUEST_OPLOCK &&
   FlagOn (ib_Flags inputBuffer) REQUEST_OPLOCK_INPUT_FLAG_REQUEST).

(** Lines 218-224: the oplock break acknowledgements. *)
Definition is_acknowledge_class (fsControlCode : FSCTL_CODE)
    (inputBuffer : option REQUEST_OPLOCK_INPUT_BUFFER) : bool :=
  code_is fsControlCode FSCTL_OPLOCK_BREAK_ACKNOWLEDGE ||
  code_is fsControlCode FSCTL_OPBATCH_ACK_CLOSE_PENDING ||
  code_is fsControlCode FSCTL_OPLOCK_BREAK_NOTIFY ||
  code_is fsControlCode FSCTL_OPLOCK_BREAK_ACK_NO_2 ||
  (code_is fsControlCode FSCTL_REQUEST_OPLOCK &&
   FlagOn (ib_Flags inputBuffer) REQUEST_OPLOCK_INPUT_FLAG_ACK).

(** Lines 243-248: batch, filter and handle oplock requests on a file
    marked for delete. *)
Definition fails_delete_pending (fsControlCode : FSCTL_CODE)
    (inputBuffer : option REQUEST_OPLOCK_INPUT_BUFFER) (fcb : DokanFCB) : bool :=
  (code_is fsControlCode FSCTL_REQUEST_FILTER_OPLOCK ||
   code_is fsControlCode FSCTL_REQUEST_BATCH_OPLOCK ||
   (code_is fsControlCode FSCTL_REQUEST_OPLOCK &&
    FlagOn (ib_Level inputBuffer) OPLOCK_LEVEL_CACHE_HANDLE)) &&
  DokanFCBFlagsIsSet fcb DOKAN_DELETE_ON_CLOSE.

(** The locals the [finally] block reads, and what the function hands
    back: [status] and the caller's [*pIrp]. *)
Record OplockLocals : Type := mkLocals {
  status : NTSTATUS;
  pIrp : option IRP;
  acquiredVcb : bool;
  acquiredFcb : bool;
  oplockCount : Z
}.

(** Lines 174-273, the body of the [try]; [__leave] ends it. *)
Definition OplockTry (irp : IRP) (fsControlCode : FSCTL_CODE)
    (inputBuffer : option REQUEST_OPLOCK_INPUT_BUFFER)
    (pfcb : Z) (fcb : DokanFCB) (pvcb : Z) (dcb : DokanDCB)
    : M OplockLocals :=
  let* l :=
    if is_request_class fsControlCode inputBuffer then
      emit (DokanVCBLockRO pvcb) >>
      emit (DokanFCBLockRW pfcb) >>
      ret (inl (mkLocals STATUS_SUCCESS (Some irp) true true
                         (OplockCount irp dcb fcb)))
    else if is_acknowledge_class fsControlCode inputBuffer then
      emit (DokanFCBLockRO pfcb) >>
      ret (inl (mkLocals STATUS_SUCCESS (Some irp) false true 0))
    else if code_is fsControlCode FSCTL_REQUEST_OPLOCK then
      ret (inr (mkLocals STATUS_INVALID_PARAMETER (Some irp) false false 0))
    else
      ret (inr (mkLocals STATUS_INVALID_PARAMETER (Some irp) false false 0))
  in
  match l with
  | inr leave => ret leave
  | inl l =>
      if fails_delete_pending fsControlCode inputBuffer fcb then
        ret (mkLocals STATUS_DELETE_PENDING (pIrp l)
                      (acquiredVcb l) (acquiredFcb l) (oplockCount l))
      else
        let oplock := DokanGetFcbOplock fcb in
        emit (Call_FsRtlOplockFsctrl oplock irp (oplockCount l)) >>
        ret (mkLocals (FsRtlOplockFsctrl oplock irp (oplockCount l))
                      None (acquiredVcb l) (acquiredFcb l) (oplockCount l))
  end.

(** Lines 274-285, the [finally] block. *)
Definition OplockFinally (pfcb pvcb : Z) (l : OplockLocals) : M unit :=
  when_ (acquiredFcb l) (emit (DokanFCBUnlock pfcb)) >>
  when_ (acquiredVcb l) (emit (DokanVCBUnlock pvcb)).

(** Lines 142-157: for FSCTL_REQUEST_OPLOCK the input buffer is fetched
    and the output buffer length checked; the status on the left is
    returned at once.  Other codes leave [inputBuffer] NULL. *)
Definition OplockBuffers (irp : IRP)
    : NTSTATUS + option REQUEST_OPLOCK_INPUT_BUFFER :=
  let irpSp := IoGetCurrentIrpStackLocation irp in
  if code_is (FsControlCode irpSp) FSCTL_REQUEST_OPLOCK then
    match GET_IRP_BUFFER_OR_RETURN irp with
    | inl st => inl st
    | inr b =>
        if OutputBufferLength irpSp <? sizeof_REQUEST_OPLOCK_OUTPUT_BUFFER
        then inl STATUS_BUFFER_TOO_SMALL
        else inr (Some b)
    end
  else inr None.

(** Lines 163-165: an oplock request on a directory must be for a Read
    or Read-Handle oplock. *)
Definition directory_mismatch (irp : IRP) (fcb : DokanFCB) : bool :=
  DokanFCBFlagsIsSet fcb DOKAN_FILE_DIRECTORY &&
  (negb (code_is (FsControlCode (IoGetCurrentIrpStackLocation irp))
           FSCTL_REQUEST_OPLOCK) ||
   negb (FsRtlOplockIsSharedRequest irp)).

(** Lines 142-287: buffers, the directory rule, then the [try] and its
    [finally]. *)
Definition OplockChecked (irp : IRP) (pfcb : Z) (fcb : DokanFCB)
    (pvcb : Z) (dcb : DokanDCB) : M (NTSTATUS * option IRP) :=
  let fsControlCode := FsControlCode (IoGetCurrentIrpStackLocation irp) in
  match OplockBuffers irp with
  | inl st => ret (st, Some irp)
  | inr inputBuffer =>
      if directory_mismatch irp fcb
      then ret (STATUS_INVALID_PARAMETER, Some irp)
      else
        let* l := OplockTry irp fsControlCode inputBuffer pfcb fcb pvcb dcb in
        OplockFinally pfcb pvcb l >>
        ret (status l, pIrp l)
  end.

(** Lines 89-288.  The result is the returned status and [*pIrp] as the
    caller finds it afterwards.  The logger and the OplockDebugRecord
    calls write diagnostics only and are left out. *)
Definition DokanOplockRequest (irp : IRP) : M (NTSTATUS * option IRP) :=
  let irpSp := IoGetCurrentIrpStackLocation irp in
  let* fileObject := deref (FileObject irpSp) in
  let* ccb := checked ccbs ccb_Identifier CCB (FsContext2 fileObject) in
  match ccb with
  | None => ret (STATUS_INVALID_PARAMETER, Some irp)
  | Some (_, ccb) =>
      let* fcb := checked fcbs fcb_Identifier FCB (ccb_Fcb ccb) in
      match fcb with
      | None => ret (STATUS_INVALID_PARAMETER, Some irp)
      | Some (pfcb, fcb) =>
          let* vcb := checked vcbs vcb_Identifier VCB (fcb_Vcb fcb) in
          match vcb with
          | None => ret (STATUS_INVALID_PARAMETER, Some irp)
          | Some (pvcb, vcb) =>
              let* dcb := checked dcbs dcb_Identifier DCB (vcb_Dcb vcb) in
              match dcb with
              | None => ret (STATUS_INVALID_PARAMETER, Some irp)
              | Some (_, dcb) => OplockChecked irp pfcb fcb pvcb dcb
              end
          end
      end
  end.

End OplockRequest.

(** ** DokanUserFsRequest *)

Section UserFsRequest.
Context {ext : Externals}.

(** [ccb->IsKeepaliveActive = v] *)
Definition store_ccb_IsKeepaliveActive (p : Z) (v : bool) : M unit :=
  let* c := load ccbs p in
  modify (fun s => set_ccbs
    (<[p := mkCCB (ccb_Identifier c) (ccb_Fcb c) v]> (ccbs s)) s) >>
  emit (Store_ccb_IsKeepaliveActive p).

(** [vcb->IsKeepaliveActive = v] *)
Definition store_vcb_IsKeepaliveActive (p : Z) (v : bool) : M unit :=
  let* c := load vcbs p in
  modify (fun s => set_vcbs
    (<[p := mkVCB (vcb_Identifier c) (vcb_Size c) (vcb_DeviceObject c)
                  (vcb_Dcb c) (vcb_Flags c) (ValidFcbMask c) v]> (vcbs s)) s) >>
  emit (Store_vcb_IsKeepaliveActive p).

(** Lines 304-351, [case FSCTL_ACTIVATE_KEEPALIVE]. *)
Definition ActivateKeepalive (irp : IRP) : M (NTSTATUS * option IRP) :=
  let irpSp := IoGetCurrentIrpStackLocation irp in
  match FileObject irpSp with
  | None => ret (DokanLogError STATUS_INVALID_PARAMETER, Some irp)
  | Some fileObject =>
      let* ccb := checked ccbs ccb_Identifier CCB (FsContext2 fileObject) in
      match ccb with
      | None => ret (DokanLogError STATUS_INVALID_PARAMETER, Some irp)
      | Some (pccb, ccb) =>
          let* fcb := checked fcbs fcb_Identifier FCB (ccb_Fcb ccb) in
          match fcb with
          | None => ret (DokanLogError STATUS_INVALID_PARAMETER, Some irp)
          | Some (pfcb, fcb) =>
              if negb (IsKeepalive fcb) then
                ret (DokanLogError STATUS_INVALID_PARAMETER, Some irp)
              else
                let* pvcb := deref (fcb_Vcb fcb) in
                let* vcb := load vcbs pvcb in
                if IsKeepaliveActive vcb && negb (ccb_IsKeepaliveActive ccb)
                then ret (DokanLogError STATUS_INVALID_PARAMETER, Some irp)
                else
                  emit (DokanFCBLockRW pfcb) >>
                  store_ccb_IsKeepaliveActive pccb true >>
                  store_vcb_IsKeepaliveActive pvcb true >>
                  emit (DokanFCBUnlock pfcb) >>
                  ret (STATUS_SUCCESS, Some irp)
          end
      end
  end.

(** Lines 353-397, [case FSCTL_NOTIFY_PATH]. *)
Definition NotifyPath (irp : IRP) : M (NTSTATUS * option IRP) :=
  match GET_IRP_NOTIFY_PATH_INTERMEDIATE_OR_RETURN irp with
  | inl st => ret (st, Some irp)
  | inr pNotifyPath =>
      let irpSp := IoGetCurrentIrpStackLocation irp in
      match FileObject irpSp with
      | None => ret (DokanLogError STATUS_INVALID_PARAMETER, Some irp)
      | Some fileObject =>
          let* ccb := checked ccbs ccb_Identifier CCB (FsContext2 fileObject) in
          match ccb with
          | None => ret (DokanLogError STATUS_INVALID_PARAMETER, Some irp)
          | Some (_, ccb) =>
              let* fcb := checked fcbs fcb_Identifier FCB (ccb_Fcb ccb) in
              match fcb with
              | None => ret (DokanLogError STATUS_INVALID_PARAMETER, Some irp)
              | Some (pfcb, fcb) =>
                  let receivedBuffer :=
                    mkUnicodeString (Length pNotifyPath) (Length pNotifyPath)
                                    (Buffer pNotifyPath) in
                  emit (DokanFCBLockRO pfcb) >>
                  emit (Call_DokanNotifyReportChange0 pfcb receivedBuffer
                          (CompletionFilter pNotifyPath) (Action pNotifyPath)) >>
                  let st :=
                    DokanNotifyReportChange0 fcb receivedBuffer
                      (CompletionFilter pNotifyPath) (Action pNotifyPath) in
                  emit (DokanFCBUnlock pfcb) >>
                  when_ (st =? STATUS_OBJECT_NAME_INVALID)
                    (emit (Call_DokanCleanupAllChangeNotificationWaiters
                             (fcb_Vcb fcb))) >>
                  ret (st, Some irp)
              end
          end
      end
  end.

(** Lines 290-450.  [status] starts as STATUS_INVALID_DEVICE_REQUEST and
    the [default] label of the switch only logs.  [DeviceObject] is used
    for the logger only. *)
Definition DokanUserFsRequest (DeviceObject : Z) (irp : IRP)
    : M (NTSTATUS * option IRP) :=
  let irpSp := IoGetCurrentIrpStackLocation irp in
  match FsControlCode irpSp with
  | FSCTL_ACTIVATE_KEEPALIVE => ActivateKeepalive irp
  | FSCTL_NOTIFY_PATH => NotifyPath irp
  | FSCTL_REQUEST_OPLOCK_LEVEL_1 => DokanOplockRequest irp
  | FSCTL_REQUEST_OPLOCK_LEVEL_2 => DokanOplockRequest irp
  | FSCTL_REQUEST_BATCH_OPLOCK => DokanOplockRequest irp
  | FSCTL_OPLOCK_BREAK_ACKNOWLEDGE => DokanOplockRequest irp
  | FSCTL_OPBATCH_ACK_CLOSE_PENDING => DokanOplockRequest irp
  | FSCTL_OPLOCK_BREAK_NOTIFY => DokanOplockRequest irp
  | FSCTL_OPLOCK_BREAK_ACK_NO_2 => DokanOplockRequest irp
  | FSCTL_REQUEST_FILTER_OPLOCK => DokanOplockRequest irp
  | FSCTL_REQUEST_OPLOCK => DokanOplockRequest irp
  | FSCTL_LOCK_VOLUME
  | FSCTL_UNLOCK_VOLUME
  | FSCTL_IS_VOLUME_MOUNTED => ret (STATUS_SUCCESS, Some irp)
  | FSCTL_GET_REPARSE_POINT => ret (STATUS_NOT_A_REPARSE_POINT, Some irp)
  | FSCTL_OTHER _ => ret (STATUS_INVALID_DEVICE_REQUEST, Some irp)
  end.

End UserFsRequest.

(** ** DokanMountVolume, DokanInitVpb, DokanDispatchFileSystemControl *)

Section MountVolume.
Context {ext : Externals}.

(** Lines 761-769.  The label is copied with RtlStringCchCopyW into the
    32 wide characters of [Vpb->VolumeLabel], the last one kept for the
    terminator; the length field is a USHORT. *)
Definition DokanInitVpb (Vpb : option Z) (VolumeDevice : option Z) : M unit :=
  match Vpb with
  | None => ret tt
  | Some p =>
      let* _ := load vpbs p in
      modify (fun s => set_vpbs
        (<[p := mkVpb VolumeDevice
                      (((Z.of_nat (length VOLUME_LABEL) mod 2 ^ 16) * 2)
                         mod 2 ^ 16)
                      (take 31 VOLUME_LABEL)
                      0x19831116]> (vpbs s)) s)
  end.

(** [volDeviceObject->Flags = f (volDeviceObject->Flags)] *)
Definition update_dev_Flags (p : Z) (f : Z -> Z) : M unit :=
  let* d := load devices p in
  modify (fun s => set_devices
    (<[p := mkDevice (DriverObject d) (f (dev_Flags d)) (DeviceExtension d)]>
       (devices s)) s).

(** [vcb->Flags = f (vcb->Flags)] *)
Definition update_vcb_Flags (p : Z) (f : Z -> Z) : M unit :=
  let* c := load vcbs p in
  modify (fun s => set_vcbs
    (<[p := mkVCB (vcb_Identifier c) (vcb_Size c) (vcb_DeviceObject c)
                  (vcb_Dcb c) (f (vcb_Flags c)) (ValidFcbMask c)
                  (IsKeepaliveActive c)]> (vcbs s)) s).

(** [dcb->Vcb = vcb] *)
Definition store_dcb_Vcb (p : Z) (vcb : option Z) : M unit :=
  let* d := load dcbs p in
  modify (fun s => set_dcbs
    (<[p := mkDCB (dcb_Identifier d) (dcb_DeviceObject d) vcb
                  (MountOptions d) (VolumeDeviceType d)
                  (DeviceCharacteristics d) (DiskDeviceName d) (UNCName d)
                  (MountPoint d) (SessionId d) (UseMountManager d)
                  (FcbGarbageCollectionIntervalMs d)]> (dcbs s)) s).

(** Lines 645-653: the device extension of the new device, zeroed by
    the kernel, gets its identifier and back pointers. *)
Definition init_vcb (pvcb volDeviceObject pdcb : Z) : M unit :=
  modify (fun s => set_vcbs
    (<[pvcb := mkVCB VCB sizeof_DokanVCB (Some volDeviceObject) (Some pdcb)
                     0 0xffffffffffffffff false]> (vcbs s)) s).

(** Lines 697-699: the found entry takes the volume device and the
    mount options. *)
Definition attach_mount_entry (i : nat) (volDeviceObject : Z)
    (options : Z) : M unit :=
  let* entries := gets MountEntryList in
  let* e := deref (entries !! i) in
  let c := MountControl e in
  modify (set_MountEntryList
    (<[i := mkMountEntry
              (mkControl (ctl_DeviceName c) (ctl_UNCName c)
                         (ctl_SessionId c) (Some volDeviceObject)
                         options)]> entries)).

(** Lines 708-758: everything after the mount entry was found. *)
Definition MountPublish (pdcb : Z) (dcb : DokanDCB)
    (isNetworkFileSystem : bool) : M NTSTATUS :=
  emit (ExAcquireResourceExclusiveLite_dcb pdcb) >>
  emit (Call_DokanUpdateTimeout pdcb) >>
  emit (ExReleaseResourceLite_dcb pdcb) >>
  emit (Call_DokanStartCheckThread pdcb) >>
  let isDriveLetter := IsMountPointDriveLetter (MountPoint dcb) in
  when_ (UseMountManager dcb)
    (let autoMountStateBackup :=
       if negb isDriveLetter then DokanQueryAutoMount true else true in
     when_ (negb isDriveLetter)
       (emit ExAcquireResourceExclusiveLite_MountManagerLock >>
        when_ autoMountStateBackup (emit (Call_DokanSendAutoMount false))) >>
     emit (Call_DokanSendVolumeArrivalNotification (DiskDeviceName dcb)) >>
     when_ (negb isDriveLetter)
       (when_ autoMountStateBackup (emit (Call_DokanSendAutoMount true)) >>
        emit ExReleaseResourceLite_MountManagerLock)) >>
  when_ isDriveLetter (emit (Call_DokanCreateMountPoint pdcb)) >>
  when_ isNetworkFileSystem (emit (Call_DokanRegisterUncProvider pdcb)) >>
  ret STATUS_SUCCESS.

(** Lines 645-685: the new volume device is set up and marked
    mounted.  The list heads, the notify sync and the FCB header mutex
    initialised there are not part of the store. *)
Definition MountInitVolume (irp : IRP) (volDeviceObject : Z)
    (dev : DEVICE_OBJECT) (pdcb : Z) (dcb : DokanDCB) : M Z :=
  let irpSp := IoGetCurrentIrpStackLocation irp in
  modify (fun s => set_devices (<[volDeviceObject := dev]> (devices s)) s) >>
  let* pvcb := deref (DeviceExtension dev) in
  init_vcb pvcb volDeviceObject pdcb >>
  store_dcb_Vcb pdcb (Some pvcb) >>
  when_ (negb (FcbGarbageCollectionIntervalMs dcb =? 0))
    (emit (Call_DokanStartFcbGarbageCollector pvcb)) >>
  DokanInitVpb (MountVolume_Vpb irpSp) (Some volDeviceObject) >>
  update_dev_Flags volDeviceObject (fun f => SetLongFlag f DO_DIRECT_IO) >>
  update_dev_Flags volDeviceObject
    (fun f => ClearLongFlag f DO_DEVICE_INITIALIZING) >>
  update_vcb_Flags pvcb (fun f => SetLongFlag f VCB_MOUNTED) >>
  emit (Call_ObReferenceObject volDeviceObject) >>
  ret pvcb.

(** Lines 684-706: under the resource of the Dcb, the mount entry of
    the device is looked up and, when there is one, given the volume
    device and the mount options. *)
Definition MountAttach (volDeviceObject pdcb : Z) (dcb : DokanDCB)
    (isNetworkFileSystem : bool) : M NTSTATUS :=
  emit (ExAcquireResourceExclusiveLite_dcb pdcb) >>
  let dokanControl :=
    mkControl (DiskDeviceName dcb) (UNCName dcb) (SessionId dcb) None 0 in
  let* entries := gets MountEntryList in
  match FindMountEntry entries dokanControl with
  | Some mountEntry =>
      attach_mount_entry mountEntry volDeviceObject (MountOptions dcb) >>
      emit (ExReleaseResourceLite_dcb pdcb) >>
      MountPublish pdcb dcb isNetworkFileSystem
  | None =>
      emit (ExReleaseResourceLite_dcb pdcb) >>
      ret (DokanLogError STATUS_DEVICE_REMOVED)
  end.

(** Lines 613-706: device creation up to the mount table. *)
Definition MountCreate (driverObject : Z) (irp : IRP) (pdcb : Z)
    (dcb : DokanDCB) : M NTSTATUS :=
  let isNetworkFileSystem :=
    VolumeDeviceType dcb =? FILE_DEVICE_NETWORK_FILE_SYSTEM in
  let* created :=
    gets (fun s => IoCreateDevice s isNetworkFileSystem driverObject dcb) in
  let '(status, (volDeviceObject, dev)) := created in
  emit (Call_IoCreateDevice isNetworkFileSystem status) >>
  if negb (NT_SUCCESS status) then ret (DokanLogError status)
  else
    MountInitVolume irp volDeviceObject dev pdcb dcb >>
    MountAttach volDeviceObject pdcb dcb isNetworkFileSystem.

(** Lines 582-759. *)
Definition DokanMountVolume (DiskDevice : Z) (irp : IRP) : M NTSTATUS :=
  let irpSp := IoGetCurrentIrpStackLocation irp in
  let* diskDevice := load devices DiskDevice in
  let driverObject := DriverObject diskDevice in
  let* pdev := deref (MountVolume_DeviceObject irpSp) in
  let* dev := load devices pdev in
  match DeviceExtension dev with
  | None => ret STATUS_UNRECOGNIZED_VOLUME
  | Some pdcb =>
      let* dcb := load dcbs pdcb in
      if negb (bool_decide (GetIdentifierType dcb = DCB)) then
        ret STATUS_UNRECOGNIZED_VOLUME
      else
        let* pdo := deref (dcb_DeviceObject dcb) in
        let* deviceObject := load devices pdo in
        if IsDeletePending deviceObject then
          ret (DokanLogError STATUS_DEVICE_REMOVED)
        else MountCreate driverObject irp pdcb dcb
  end.

(** Lines 771-798.  [DokanCompleteIrpRequest] receives [Irp] as
    [DokanUserFsRequest] left it. *)
Definition DokanDispatchFileSystemControl (DeviceObject : Z) (irp : IRP)
    : M NTSTATUS :=
  let irpSp := IoGetCurrentIrpStackLocation irp in
  let* r :=
    if MinorFunction irpSp =? IRP_MN_MOUNT_VOLUME then
      let* st := DokanMountVolume DeviceObject irp in
      ret (st, Some irp)
    else if MinorFunction irpSp =? IRP_MN_USER_FS_REQUEST then
      DokanUserFsRequest DeviceObject irp
    else ret (STATUS_INVALID_DEVICE_REQUEST, Some irp) in
  emit (Call_DokanCompleteIrpRequest (snd r) (fst r)) >>
  ret (fst r).

End MountVolume.

(** ** MatchDokanDCBType *)

(** Lines 453-473.  [Irp] and [Logger] serve the log lines only, which
    are left out as in the other functions; [LogFailures] decides
    whether they are written. *)
Definition MatchDokanDCBType (Dcb : option Z) (LogFailures : bool) : M bool :=
  match Dcb with
  | None => ret false
  | Some p =>
      let* dcb := load dcbs p in
      if negb (bool_decide (GetIdentifierType dcb = DCB)) then ret false
      else ret true
  end.

(** ** CreateSetReparsePointRequest, CreateRemoveReparsePointRequest

    The two functions fill a block of memory obtained from
    [DokanAllocZero].  A block is the list of its bytes; a write or a
    read that does not lie inside the block has no result. *)

(** [n] bytes of [v], least significant first, and the value of such a
    sequence. *)
Fixpoint le_bytes (n : nat) (v : Z) : list Z :=
  match n with
  | O => []
  | S n' => v mod 256 :: le_bytes n' (v / 256)
  end.

Fixpoint le_value (bytes : list Z) : Z :=
  match bytes with
  | [] => 0
  | b :: bytes' => b + 256 * le_value bytes'
  end.

Definition poke (off : Z) (bytes mem : list Z) : option (list Z) :=
  if (0 <=? off) && (off + Z.of_nat (length bytes) <=? Z.of_nat (length mem))
  then Some (take (Z.to_nat off) mem ++ bytes ++
             drop (Z.to_nat off + length bytes) mem)
  else None.

Definition peek (off : Z) (n : nat) (mem : list Z) : option (list Z) :=
  if (0 <=? off) && (off + Z.of_nat n <=? Z.of_nat (length mem))
  then Some (take n (drop (Z.to_nat off) mem))
  else None.

(** The bytes of a sequence of WCHARs. *)
Definition WCHAR_bytes (ws : list Z) : list Z :=
  concat (map (le_bytes 2) ws).

Definition sizeof_WCHAR : Z := 2.

(** REPARSE_DATA_BUFFER (ntifs.h): ULONG ReparseTag, USHORT
    ReparseDataLength, USHORT Reserved, then, for a mount point, the
    USHORTs SubstituteNameOffset, SubstituteNameLength, PrintNameOffset
    and PrintNameLength and the WCHARs of PathBuffer.  The union that
    follows the header is 16 bytes long. *)
Definition IO_REPARSE_TAG_MOUNT_POINT : Z := 0xA0000003.
Definition offsetof_ReparseTag : Z := 0.
Definition offsetof_ReparseDataLength : Z := 4.
Definition offsetof_SubstituteNameOffset : Z := 8.
Definition offsetof_SubstituteNameLength : Z := 10.
Definition offsetof_PrintNameOffset : Z := 12.
Definition offsetof_PrintNameLength : Z := 14.
Definition offsetof_PathBuffer : Z := 16.
Definition REPARSE_DATA_BUFFER_HEADER_SIZE : Z := 8.
Definition sizeof_REPARSE_DATA_BUFFER : Z := 24.

(** REPARSE_GUID_DATA_BUFFER: the same header followed by a GUID. *)
Definition REPARSE_GUID_DATA_BUFFER_HEADER_SIZE : Z := 24.

Section ReparsePointRequests.

(** [DokanAllocZero(size)] of the driver's pool helpers: NULL, or the
    block it hands out. *)
Variable DokanAllocZero : Z -> option (list Z).

(** Lines 475-508.  The result is the returned pointer and [*Length].
    [mountPointReparsePathLength] is a USHORT, [*Length] a ULONG, the
    fields of the header USHORTs; the index of the last store is
    computed in size_t. *)
Definition CreateSetReparsePointRequest (SymbolicLinkName : UNICODE_STRING)
    : option (option (list Z) * Z) :=
  let mountPointReparsePathLength :=
    (us_Length SymbolicLinkName + sizeof_WCHAR) mod 2 ^ 16 in
  let Length :=
    (offsetof_PathBuffer + mountPointReparsePathLength + sizeof_WCHAR +
     sizeof_WCHAR) mod 2 ^ 32 in
  match DokanAllocZero Length with
  | None => Some (None, 0)
  | Some reparseData =>
      m ← poke offsetof_ReparseTag
             (le_bytes 4 IO_REPARSE_TAG_MOUNT_POINT) reparseData;
      m ← poke offsetof_ReparseDataLength
             (le_bytes 2 ((Length mod 2 ^ 16 - REPARSE_DATA_BUFFER_HEADER_SIZE)
                            mod 2 ^ 16)) m;
      m ← poke offsetof_SubstituteNameOffset (le_bytes 2 0) m;
      m ← poke offsetof_SubstituteNameLength
             (le_bytes 2 mountPointReparsePathLength) m;
      substituteNameLength ← peek offsetof_SubstituteNameLength 2 m;
      m ← poke offsetof_PrintNameOffset
             (le_bytes 2 ((le_value substituteNameLength + sizeof_WCHAR)
                            mod 2 ^ 16)) m;
      m ← poke offsetof_PrintNameLength (le_bytes 2 0) m;
      name ← peek 0 (Z.to_nat (us_Length SymbolicLinkName))
                (WCHAR_bytes (us_Buffer SymbolicLinkName));
      m ← poke offsetof_PathBuffer name m;
      m ← poke (offsetof_PathBuffer +
                sizeof_WCHAR *
                  ((mountPointReparsePathLength / sizeof_WCHAR - 1) mod 2 ^ 64))
             (le_bytes 2 0x5C) m;
      Some (Some m, Length)
  end.

(** Lines 510-522. *)
Definition CreateRemoveReparsePointRequest : option (option (list Z) * Z) :=
  let Length := REPARSE_GUID_DATA_BUFFER_HEADER_SIZE in
  match DokanAllocZero sizeof_REPARSE_DATA_BUFFER with
  | None => Some (None, 0)
  | Some reparseData =>
      m ← poke offsetof_ReparseTag
             (le_bytes 4 IO_REPARSE_TAG_MOUNT_POINT) reparseData;
      Some (Some m, Length)
  end.

End ReparsePointRequests.

(** ** SendDirectoryFsctl *)

(** The calls the function makes, with what they gave back. *)
Inductive DirectoryEvent : Type :=
  | Call_ChangePrefix (Path : UNICODE_STRING) (result : option UNICODE_STRING)
  | Call_ZwOpenFile (name : UNICODE_STRING) (status : NTSTATUS) (handle : Z)
  | Call_ZwFsControlFile (handle Code : Z) (Input : option (list Z))
      (InputLength : Z) (status : NTSTATUS)
  | Call_DokanFreeUnicodeString (str : UNICODE_STRING)
  | Call_ZwClose (handle : Z).

#[global] Instance UNICODE_STRING_eq_dec : EqDecision UNICODE_STRING.
Proof. solve_decision. Defined.

Section DirectoryFsctl.

(** [ChangePrefix(Path, &g_DosDevicesPrefix, TRUE, &g_ObjectManagerPrefix)]
    of util/str.h: NULL, or the new string.  [ZwOpenFile] gives its
    status and what it left in [handle], which starts as 0. *)
Variable ChangePrefix : UNICODE_STRING -> option UNICODE_STRING.
Variable ZwOpenFile : UNICODE_STRING -> NTSTATUS * Z.
Variable ZwFsControlFile : Z -> Z -> option (list Z) -> Z -> NTSTATUS.

(** What the [finally] block reads, and how the [try] block was left:
    by a [return] with a status, or by running to its end. *)
Record DirectoryLocals : Type := mkDirectoryLocals {
  returned : option NTSTATUS;
  directoryStr : option UNICODE_STRING;
  handle : Z
}.

(** Lines 532-566, the body of the [try]. *)
Definition SendDirectoryTry (Path : UNICODE_STRING) (Code : Z)
    (Input : option (list Z)) (InputLength : Z)
    : DirectoryLocals * list DirectoryEvent :=
  let directoryStr := ChangePrefix Path in
  let t := [Call_ChangePrefix Path directoryStr] in
  match directoryStr with
  | None =>
      (mkDirectoryLocals (Some (DokanLogError STATUS_INVALID_PARAMETER)) None 0,
       t)
  | Some str =>
      let '(result, handle) := ZwOpenFile str in
      let t := t ++ [Call_ZwOpenFile str result handle] in
      if negb (NT_SUCCESS result) then
        (mkDirectoryLocals (Some (DokanLogError result)) directoryStr handle, t)
      else
        let result := ZwFsControlFile handle Code Input InputLength in
        let t := t ++ [Call_ZwFsControlFile handle Code Input InputLength
                         result] in
        if negb (NT_SUCCESS result) then
          (mkDirectoryLocals (Some (DokanLogError result)) directoryStr handle,
           t)
        else (mkDirectoryLocals None directoryStr handle, t)
  end.

(** Lines 567-574, the [finally] block. *)
Definition SendDirectoryFinally (l : DirectoryLocals) : list DirectoryEvent :=
  match directoryStr l with
  | Some str => [Call_DokanFreeUnicodeString str]
  | None => []
  end ++
  (if negb (handle l =? 0) then [Call_ZwClose (handle l)] else []).

(** Lines 524-578.  [Irp] is unreferenced and [DeviceObject] serves the
    logger only. *)
Definition SendDirectoryFsctl (Path : UNICODE_STRING) (Code : Z)
    (Input : option (list Z)) (InputLength : Z)
    : NTSTATUS * list DirectoryEvent :=
  let '(l, t) := SendDirectoryTry Path Code Input InputLength in
  (match returned l with
   | Some status => status
   | None => STATUS_SUCCESS
   end,
   t ++ SendDirectoryFinally l).

End DirectoryFsctl.

(** * Vocabulary of the properties *)

(** A state with [delta] appended to its trace. *)
Definition after (delta : list Event) (s : State) : State :=
  set_trace (trace s ++ delta) s.

(** ** The identity chain of a request

    File object, CCB, FCB, VCB and DCB, each reached from the one before
    and carrying its own tag. *)

Record Chain : Type := mkChain {
  c_fileObject : FILE_OBJECT;
  c_pccb : Z; c_ccb : DokanCCB;
  c_pfcb : Z; c_fcb : DokanFCB;
  c_pvcb : Z; c_vcb : DokanVCB;
  c_pdcb : Z; c_dcb : DokanDCB
}.

Definition IdentityChain (s : State) (irp : IRP) (c : Chain) : Prop :=
  FileObject (IoGetCurrentIrpStackLocation irp) = Some (c_fileObject c) /\
  FsContext2 (c_fileObject c) = Some (c_pccb c) /\
  ccbs s !! c_pccb c = Some (c_ccb c) /\
  ccb_Identifier (c_ccb c) = CCB /\
  ccb_Fcb (c_ccb c) = Some (c_pfcb c) /\
  fcbs s !! c_pfcb c = Some (c_fcb c) /\
  fcb_Identifier (c_fcb c) = FCB /\
  fcb_Vcb (c_fcb c) = Some (c_pvcb c) /\
  vcbs s !! c_pvcb c = Some (c_vcb c) /\
  vcb_Identifier (c_vcb c) = VCB /\
  vcb_Dcb (c_vcb c) = Some (c_pdcb c) /\
  dcbs s !! c_pdcb c = Some (c_dcb c) /\
  dcb_Identifier (c_dcb c) = DCB.

(** ** What a computation may do to the state

    [Emits P R m]: whenever [m] returns, its result satisfies [R] and
    the trace has grown by events that all satisfy [P]. *)

Definition Emits {A : Type} (P : Event -> Prop) (R : A -> Prop) (m : M A)
    : Prop :=
  forall s a s', m s = Some (a, s') ->
    R a /\ exists delta, trace s' = trace s ++ delta /\ Forall P delta.

Definition any {A : Type} : A -> Prop := fun _ => True.

(** [OnlyEmits m]: [m] changes nothing but the trace. *)
Definition OnlyEmits {A : Type} (m : M A) : Prop :=
  forall s a s', m s = Some (a, s') -> exists delta, s' = after delta s.

(** [Keeps f m]: [m] leaves the component [f] of the state alone. *)
Definition Keeps {A B : Type} (f : State -> B) (m : M A) : Prop :=
  forall s a s', m s = Some (a, s') -> f s' = f s.

(** Events other than a call of the oplock package. *)
Definition not_oplock_call (e : Event) : Prop :=
  match e with
  | Call_FsRtlOplockFsctrl _ _ _ => False
  | _ => True
  end.

(** The locks a thread holds, most recent first. *)
Inductive Lock : Type :=
  | VcbShared (vcb : Z)
  | FcbExclusive (fcb : Z)
  | FcbShared (fcb : Z).

(** Runs the lock events of a trace against the locks held: an unlock
    must release the lock taken last, anything else is an error. *)
Fixpoint lock_stack (held : list Lock) (t : list Event) : option (list Lock) :=
  match t with
  | [] => Some held
  | DokanVCBLockRO v :: t' => lock_stack (VcbShared v :: held) t'
  | DokanFCBLockRW f :: t' => lock_stack (FcbExclusive f :: held) t'
  | DokanFCBLockRO f :: t' => lock_stack (FcbShared f :: held) t'
  | DokanFCBUnlock f :: t' =>
      match held with
      | FcbExclusive f' :: held' | FcbShared f' :: held' =>
          if f =? f' then lock_stack held' t' else None
      | _ => None
      end
  | DokanVCBUnlock v :: t' =>
      match held with
      | VcbShared v' :: held' => if v =? v' then lock_stack held' t' else None
      | _ => None
      end
  | _ :: t' => lock_stack held t'
  end.

Definition is_lock_event (e : Event) : bool :=
  match e with
  | DokanVCBLockRO _ | DokanVCBUnlock _ | DokanFCBLockRW _
  | DokanFCBLockRO _ | DokanFCBUnlock _ => true
  | _ => false
  end.

Definition lock_events (t : list Event) : list Event :=
  List.filter is_lock_event t.

Definition is_oplock_call (e : Event) : bool :=
  match e with
  | Call_FsRtlOplockFsctrl _ _ _ => true
  | _ => false
  end.

(** The objects the keepalive case walks: file object, CCB and FCB with
    their tags, and the Vcb the FCB points to. *)
Record Handle : Type := mkHandle {
  h_fileObject : FILE_OBJECT;
  h_pccb : Z; h_ccb : DokanCCB;
  h_pfcb : Z; h_fcb : DokanFCB;
  h_pvcb : Z; h_vcb : DokanVCB
}.

Definition KeepaliveChain (s : State) (irp : IRP) (h : Handle) : Prop :=
  FileObject (IoGetCurrentIrpStackLocation irp) = Some (h_fileObject h) /\
  FsContext2 (h_fileObject h) = Some (h_pccb h) /\
  ccbs s !! h_pccb h = Some (h_ccb h) /\
  ccb_Identifier (h_ccb h) = CCB /\
  ccb_Fcb (h_ccb h) = Some (h_pfcb h) /\
  fcbs s !! h_pfcb h = Some (h_fcb h) /\
  fcb_Identifier (h_fcb h) = FCB /\
  fcb_Vcb (h_fcb h) = Some (h_pvcb h) /\
  vcbs s !! h_pvcb h = Some (h_vcb h).

Definition ccb_activated (c : DokanCCB) : DokanCCB :=
  mkCCB (ccb_Identifier c) (ccb_Fcb c) true.

Definition vcb_activated (v : DokanVCB) : DokanVCB :=
  mkVCB (vcb_Identifier v) (vcb_Size v) (vcb_DeviceObject v) (vcb_Dcb v)
        (vcb_Flags v) (ValidFcbMask v) true.

(** The state a successful activation through [h] leaves. *)
Definition keepalive_activated (s : State) (h : Handle) : State :=
  mkState (devices s) (dcbs s)
          (<[h_pvcb h := vcb_activated (h_vcb h)]> (vcbs s))
          (fcbs s)
          (<[h_pccb h := ccb_activated (h_ccb h)]> (ccbs s))
          (vpbs s) (MountEntryList s)
          (trace s ++ [DokanFCBLockRW (h_pfcb h);
                       Store_ccb_IsKeepaliveActive (h_pccb h);
                       Store_vcb_IsKeepaliveActive (h_pvcb h);
                       DokanFCBUnlock (h_pfcb h)]).

(** The handle at [pccb] has its keepalive flag set. *)
Definition holds_keepalive (s : State) (pccb : Z) : Prop :=
  exists ccb, ccbs s !! pccb = Some ccb /\ ccb_IsKeepaliveActive ccb = true.

(** The volume a handle belongs to, through its FCB. *)
Definition volume_of (s : State) (pccb : Z) : option Z :=
  match ccbs s !! pccb with
  | Some ccb =>
      match ccb_Fcb ccb with
      | Some pfcb =>
          match fcbs s !! pfcb with
          | Some fcb => fcb_Vcb fcb
          | None => None
          end
      | None => None
      end
  | None => None
  end.

Definition one_keepalive_per_volume (s : State) : Prop :=
  forall p1 p2 v,
    holds_keepalive s p1 -> holds_keepalive s p2 ->
    volume_of s p1 = Some v -> volume_of s p2 = Some v -> p1 = p2.

(** A handle that holds keepalive sits on a volume whose flag is set. *)
Definition holders_on_active_volumes (s : State) : Prop :=
  forall p, holds_keepalive s p ->
    exists v vcb, volume_of s p = Some v /\ vcbs s !! v = Some vcb /\
                  IsKeepaliveActive vcb = true.

(** The objects [DokanMountVolume] starts from: the disk device it is
    called on, the device of the request with the Dcb as its extension,
    and the device object of the Dcb. *)
Record MountTarget : Type := mkMountTarget {
  m_diskDevice : DEVICE_OBJECT;
  m_pdev : Z; m_dev : DEVICE_OBJECT;
  m_pdcb : Z; m_dcb : DokanDCB;
  m_pdo : Z; m_deviceObject : DEVICE_OBJECT
}.

Definition MountChain (s : State) (DiskDevice : Z) (irp : IRP)
    (m : MountTarget) : Prop :=
  devices s !! DiskDevice = Some (m_diskDevice m) /\
  MountVolume_DeviceObject (IoGetCurrentIrpStackLocation irp) = Some (m_pdev m) /\
  devices s !! m_pdev m = Some (m_dev m) /\
  DeviceExtension (m_dev m) = Some (m_pdcb m) /\
  dcbs s !! m_pdcb m = Some (m_dcb m) /\
  dcb_Identifier (m_dcb m) = DCB /\
  dcb_DeviceObject (m_dcb m) = Some (m_pdo m) /\
  devices s !! m_pdo m = Some (m_deviceObject m).

(** The key the mount entry of a device is looked up with. *)
Definition mount_key (dcb : DokanDCB) : DOKAN_CONTROL :=
  mkControl (DiskDeviceName dcb) (UNCName dcb) (SessionId dcb) None 0.

Section PropertyVocabulary.
Context {ext : Externals}.

(** The requests lines 243-247 single out: filter, batch, or
    FSCTL_REQUEST_OPLOCK asking for handle caching. *)
Definition wants_handle_class (fsControlCode : FSCTL_CODE)
    (inputBuffer : option REQUEST_OPLOCK_INPUT_BUFFER) : Prop :=
  fsControlCode = FSCTL_REQUEST_FILTER_OPLOCK \/
  fsControlCode = FSCTL_REQUEST_BATCH_OPLOCK \/
  (fsControlCode = FSCTL_REQUEST_OPLOCK /\
   FlagOn (ib_Level inputBuffer) OPLOCK_LEVEL_CACHE_HANDLE = true /\
   (FlagOn (ib_Flags inputBuffer) REQUEST_OPLOCK_INPUT_FLAG_REQUEST = true \/
    FlagOn (ib_Flags inputBuffer) REQUEST_OPLOCK_INPUT_FLAG_ACK = true)).

(** Host-native locking: byte-range locks of the volume are kept by the
    kernel's own lock package, the one [FsRtlCheckLockForOplockRequest]
    and [FsRtlAreThereCurrentOrInProgressFileLocks] consult.  That is
    the case when the mount options do not carry
    DOKAN_EVENT_FILELOCK_USER_MODE, the bit that hands lock requests to
    the user-mode file system. *)
Definition host_native_locking (dcb : DokanDCB) : bool :=
  negb (FlagOn (MountOptions dcb) DOKAN_EVENT_FILELOCK_USER_MODE).

(** Lines 205-210: the byte-range lock state of the node denies the
    oplock. *)
Definition locks_block_oplock (fcb : DokanFCB) : bool :=
  match DokanFsRtlCheckLockForOplockRequest with
  | Some check => negb (check (FileLock fcb) (AllocationSize fcb))
  | None => FsRtlAreThereCurrentOrInProgressFileLocks (FileLock fcb)
  end.

(** The hint in the words of the specification: computed when the
    volume is not configured for host-native locking, 0 when it is. *)
Definition hint_as_specified (irp : IRP) (dcb : DokanDCB) (fcb : DokanFCB)
    : Z :=
  if host_native_locking dcb then 0
  else if FsRtlOplockIsSharedRequest irp &&
          negb (DokanFCBFlagsIsSet fcb DOKAN_FILE_DIRECTORY)
       then Z.b2z (locks_block_oplock fcb)
       else FileCount fcb.

(** The hint of the code: computed under host-native locking, 0 when
    locks are left to the user-mode file system. *)
Definition hint_of_code (irp : IRP) (dcb : DokanDCB) (fcb : DokanFCB) : Z :=
  if host_native_locking dcb then
    if FsRtlOplockIsSharedRequest irp then
      if DokanFCBFlagsIsSet fcb DOKAN_FILE_DIRECTORY then 0
      else Z.b2z (locks_block_oplock fcb)
    else FileCount fcb
  else 0.

(** The ways a call of [DokanOplockRequest] ends: result and events. *)
Inductive OplockOutcome (s : State) (irp : IRP)
    : NTSTATUS * option IRP -> list Event -> Prop :=
  | Outcome_refused st :
      OplockOutcome s irp (st, Some irp) []
  | Outcome_request_left c inputBuffer :
      IdentityChain s irp c ->
      OplockBuffers irp = inr inputBuffer ->
      is_request_class (FsControlCode (IoGetCurrentIrpStackLocation irp))
                       inputBuffer = true ->
      OplockOutcome s irp (STATUS_DELETE_PENDING, Some irp)
        [DokanVCBLockRO (c_pvcb c); DokanFCBLockRW (c_pfcb c);
         DokanFCBUnlock (c_pfcb c); DokanVCBUnlock (c_pvcb c)]
  | Outcome_request_delegated c inputBuffer n :
      IdentityChain s irp c ->
      OplockBuffers irp = inr inputBuffer ->
      is_request_class (FsControlCode (IoGetCurrentIrpStackLocation irp))
                       inputBuffer = true ->
      OplockOutcome s irp
        (FsRtlOplockFsctrl (DokanGetFcbOplock (c_fcb c)) irp n, None)
        [DokanVCBLockRO (c_pvcb c); DokanFCBLockRW (c_pfcb c);
         Call_FsRtlOplockFsctrl (DokanGetFcbOplock (c_fcb c)) irp n;
         DokanFCBUnlock (c_pfcb c); DokanVCBUnlock (c_pvcb c)]
  | Outcome_acknowledge_left c inputBuffer :
      IdentityChain s irp c ->
      OplockBuffers irp = inr inputBuffer ->
      is_request_class (FsControlCode (IoGetCurrentIrpStackLocation irp))
                       inputBuffer = false ->
      is_acknowledge_class (FsControlCode (IoGetCurrentIrpStackLocation irp))
                           inputBuffer = true ->
      OplockOutcome s irp (STATUS_DELETE_PENDING, Some irp)
        [DokanFCBLockRO (c_pfcb c); DokanFCBUnlock (c_pfcb c)]
  | Outcome_acknowledge_delegated c inputBuffer :
      IdentityChain s irp c ->
      OplockBuffers irp = inr inputBuffer ->
      is_request_class (FsControlCode (IoGetCurrentIrpStackLocation irp))
                       inputBuffer = false ->
      is_acknowledge_class (FsControlCode (IoGetCurrentIrpStackLocation irp))
                           inputBuffer = true ->
      OplockOutcome s irp
        (FsRtlOplockFsctrl (DokanGetFcbOplock (c_fcb c)) irp 0, None)
        [DokanFCBLockRO (c_pfcb c);
         Call_FsRtlOplockFsctrl (DokanGetFcbOplock (c_fcb c)) irp 0;
         DokanFCBUnlock (c_pfcb c)].

(** The states control requests lead to when they run one after the
    other, each call returning before the next one starts, from a store
    in which no handle holds keepalive.  Calls that overlap are the
    subject of [run_schedule] below. *)
Inductive reachable_in_turn : State -> Prop :=
  | reachable_start s :
      (forall p, ~ holds_keepalive s p) -> reachable_in_turn s
  | reachable_request s DeviceObject irp r s' :
      reachable_in_turn s ->
      DokanUserFsRequest DeviceObject irp s = Some (r, s') ->
      reachable_in_turn s'.

(** The Vcb as lines 645-680 leave it. *)
Definition mounted_vcb (pvol pdcb : Z) : DokanVCB :=
  mkVCB VCB sizeof_DokanVCB (Some pvol) (Some pdcb)
        (SetLongFlag 0 VCB_MOUNTED) 0xffffffffffffffff false.

(** The volume device as lines 678-679 leave it. *)
Definition mounted_device (dev : DEVICE_OBJECT) : DEVICE_OBJECT :=
  mkDevice (DriverObject dev)
           (ClearLongFlag (SetLongFlag (dev_Flags dev) DO_DIRECT_IO)
                          DO_DEVICE_INITIALIZING)
           (DeviceExtension dev).

(** The Vpb of the request is NULL or points to a Vpb. *)
Definition vpb_resolves (s : State) (irp : IRP) : Prop :=
  match MountVolume_Vpb (IoGetCurrentIrpStackLocation irp) with
  | Some p => is_Some (vpbs s !! p)
  | None => True
  end.

End PropertyVocabulary.

(** ** Keepalive activations that overlap

    A dispatch routine runs on the thread that brings the request, so
    two calls of [DokanUserFsRequest] can be under way at once.  The
    case FSCTL_ACTIVATE_KEEPALIVE is cut where the source takes the
    lock: lines 305-341 only read the store, lines 343-350 write it
    with the Fcb locked.  A thread can be preempted between the two. *)

(** Lines 305-341: the status the call returns with, or the addresses
    of the Ccb, the Fcb and the Vcb it goes on with. *)
Definition KeepaliveGuard (irp : IRP) : M (NTSTATUS + Z * Z * Z) :=
  let irpSp := IoGetCurrentIrpStackLocation irp in
  match FileObject irpSp with
  | None => ret (inl (DokanLogError STATUS_INVALID_PARAMETER))
  | Some fileObject =>
      let* ccb := checked ccbs ccb_Identifier CCB (FsContext2 fileObject) in
      match ccb with
      | None => ret (inl (DokanLogError STATUS_INVALID_PARAMETER))
      | Some (pccb, ccb) =>
          let* fcb := checked fcbs fcb_Identifier FCB (ccb_Fcb ccb) in
          match fcb with
          | None => ret (inl (DokanLogError STATUS_INVALID_PARAMETER))
          | Some (pfcb, fcb) =>
              if negb (IsKeepalive fcb) then
                ret (inl (DokanLogError STATUS_INVALID_PARAMETER))
              else
                let* pvcb := deref (fcb_Vcb fcb) in
                let* vcb := load vcbs pvcb in
                if IsKeepaliveActive vcb && negb (ccb_IsKeepaliveActive ccb)
                then ret (inl (DokanLogError STATUS_INVALID_PARAMETER))
                else ret (inr (pccb, pfcb, pvcb))
          end
      end
  end.

(** Lines 343-350: the two stores between [DokanFCBLockRW] and
    [DokanFCBUnlock].  The lock keeps other threads out, so the part is
    one step. *)
Definition KeepaliveLocked (pccb pfcb pvcb : Z) : M NTSTATUS :=
  emit (DokanFCBLockRW pfcb) >>
  store_ccb_IsKeepaliveActive pccb true >>
  store_vcb_IsKeepaliveActive pvcb true >>
  emit (DokanFCBUnlock pfcb) >>
  ret STATUS_SUCCESS.

(** Where a thread stands in its call: at line 305, before the lock of
    line 346, or back from the call with a status. *)
Inductive Activation : Type :=
  | Entered (irp : IRP)
  | BeforeLock (irp : IRP) (pccb pfcb pvcb : Z)
  | Returned (irp : IRP) (status : NTSTATUS).

Definition activation_step (a : Activation) : M Activation :=
  match a with
  | Entered irp =>
      let* g := KeepaliveGuard irp in
      match g with
      | inl status => ret (Returned irp status)
      | inr (pccb, pfcb, pvcb) => ret (BeforeLock irp pccb pfcb pvcb)
      end
  | BeforeLock irp pccb pfcb pvcb =>
      let* status := KeepaliveLocked pccb pfcb pvcb in
      ret (Returned irp status)
  | Returned irp status => ret (Returned irp status)
  end.

(** The threads take their steps in the order [schedule] names them. *)
Fixpoint run_schedule (schedule : list nat) (threads : list Activation)
    : M (list Activation) :=
  match schedule with
  | [] => ret threads
  | i :: schedule' =>
      match threads !! i with
      | Some a =>
          let* a' := activation_step a in
          run_schedule schedule' (<[i := a']> threads)
      | None => run_schedule schedule' threads
      end
  end.

(** * A concrete system

    One instance of the external routines and one store, used to run the
    driver code on explicit requests. *)

Module Sample.

(** The oplock package's test for a shared request: a level 2 request,
    or FSCTL_REQUEST_OPLOCK asking for Read or Read-Handle. *)
Definition shared_request (irp : IRP) : bool :=
  let code := FsControlCode (IoGetCurrentIrpStackLocation irp) in
  code_is code FSCTL_REQUEST_OPLOCK_LEVEL_2 ||
  (code_is code FSCTL_REQUEST_OPLOCK &&
   match SystemBuffer irp with
   | Some (OplockInputBuffer b) =>
       (RequestedOplockLevel b =? OPLOCK_LEVEL_CACHE_READ) ||
       (RequestedOplockLevel b =?
          Z.lor OPLOCK_LEVEL_CACHE_READ OPLOCK_LEVEL_CACHE_HANDLE)
   | _ => false
   end).

(** The input buffer is handed out when the request carries the twelve
    bytes of a REQUEST_OPLOCK_INPUT_BUFFER. *)
Definition get_irp_buffer (irp : IRP)
    : NTSTATUS + REQUEST_OPLOCK_INPUT_BUFFER :=
  match SystemBuffer irp with
  | Some (OplockInputBuffer b) =>
      if 12 <=? InputBufferLength (IoGetCurrentIrpStackLocation irp)
      then inr b else inl STATUS_BUFFER_TOO_SMALL
  | _ => inl STATUS_BUFFER_TOO_SMALL
  end.

Definition get_notify_path (irp : IRP)
    : NTSTATUS + DOKAN_NOTIFY_PATH_INTERMEDIATE :=
  match SystemBuffer irp with
  | Some (NotifyPathBuffer b) => inr b
  | _ => inl STATUS_BUFFER_TOO_SMALL
  end.

(** A lock table is empty when its handle is 0. *)
Definition has_locks (l : FILE_LOCK) : bool :=
  match l with FileLockHandle h => negb (h =? 0) end.

Definition STATUS_PENDING : NTSTATUS := 0x103.
Definition STATUS_OPLOCK_NOT_GRANTED : NTSTATUS := 0xC00000E2 - 2 ^ 32.

Definition same_key (c : DOKAN_CONTROL) (e : MOUNT_ENTRY) : bool :=
  bool_decide (ctl_DeviceName (MountControl e) = ctl_DeviceName c) &&
  (ctl_SessionId (MountControl e) =? ctl_SessionId c).

Fixpoint find_index {A : Type} (f : A -> bool) (l : list A) : option nat :=
  match l with
  | [] => None
  | x :: l' => if f x then Some O else option_map S (find_index f l')
  end.

Definition externals : Externals := {|
  DOKAN_FILE_DIRECTORY := 1;
  DOKAN_DELETE_ON_CLOSE := 16;
  DokanFCBFlagsIsSet := fun fcb bit => FlagOn (fcb_Flags fcb) bit;
  DOKAN_EVENT_FILELOCK_USER_MODE := 32;
  VCB_MOUNTED := 1;
  VOLUME_LABEL := [68; 79; 75; 65; 78];
  sizeof_DokanVCB := 1024;
  GET_IRP_BUFFER_OR_RETURN := get_irp_buffer;
  GET_IRP_NOTIFY_PATH_INTERMEDIATE_OR_RETURN := get_notify_path;
  FsRtlOplockIsSharedRequest := shared_request;
  DokanFsRtlCheckLockForOplockRequest := Some (fun l _ => negb (has_locks l));
  FsRtlAreThereCurrentOrInProgressFileLocks := has_locks;
  FsRtlOplockFsctrl := fun _ _ count =>
    if count =? 0 then STATUS_PENDING else STATUS_OPLOCK_NOT_GRANTED;
  DokanGetFcbOplock := Oplock;
  DokanNotifyReportChange0 := fun _ _ _ _ => STATUS_SUCCESS;
  IsDeletePending := fun dev => FlagOn (dev_Flags dev) 0x40000000;
  IoCreateDevice := fun _ _ drv _ =>
    (STATUS_SUCCESS, (100, mkDevice drv DO_DEVICE_INITIALIZING (Some 200)));
  FindMountEntry := fun entries c => find_index (same_key c) entries;
  IsMountPointDriveLetter := fun mp => bool_decide (length mp = 2%nat);
  DokanQueryAutoMount := fun b => b;
  DokanSendVolumeArrivalNotification := fun _ => STATUS_SUCCESS
|}.

(** Two mount devices: 1 leaves byte-range locks to the kernel, 2 hands
    them to the user-mode file system. *)
Definition dcb1 : DokanDCB :=
  mkDCB DCB (Some 1) (Some 1) 0 8 0 [100; 49] [] [77; 58] 1 true 0.
Definition dcb2 : DokanDCB :=
  mkDCB DCB (Some 2) (Some 2) 32 8 0 [100; 50] [] [78; 58] 1 true 0.
Definition dcb3 : DokanDCB :=
  mkDCB DCB (Some 3) None 0 FILE_DEVICE_NETWORK_FILE_SYSTEM 0 [100; 51] []
        [79; 58] 1 false 0.

Definition vcb1 : DokanVCB :=
  mkVCB VCB 1024 (Some 11) (Some 1) 1 (2 ^ 64 - 1) false.
Definition vcb2 : DokanVCB :=
  mkVCB VCB 1024 (Some 12) (Some 2) 1 (2 ^ 64 - 1) false.

Definition file (vcb flags count lock : Z) : DokanFCB :=
  mkFCB FCB (Some vcb) flags count false (FileLockHandle lock) 4096
        (OplockHandle 0).

Definition fcb_file : DokanFCB := file 1 0 3 0.
Definition fcb_dir : DokanFCB := file 1 1 1 0.
Definition fcb_doomed : DokanFCB := file 1 16 1 0.
Definition fcb_doomed_dir : DokanFCB := file 1 17 1 0.
Definition fcb_keepalive : DokanFCB :=
  mkFCB FCB (Some 1) 0 1 true (FileLockHandle 0) 0 (OplockHandle 0).
Definition fcb_user_locks : DokanFCB := file 2 0 3 0.
Definition fcb_unopened : DokanFCB := file 1 0 0 0.

Definition handle (fcb : Z) : DokanCCB := mkCCB CCB (Some fcb) false.

Definition state : State := {|
  devices := {[ 1 := mkDevice 7 0 (Some 1); 2 := mkDevice 7 0 (Some 2);
                3 := mkDevice 7 0 (Some 3);
                4 := mkDevice 7 0x40000000 (Some 4);
                11 := mkDevice 7 DO_DIRECT_IO (Some 1);
                12 := mkDevice 7 DO_DIRECT_IO (Some 2) ]};
  dcbs := {[ 1 := dcb1; 2 := dcb2; 3 := dcb3;
             4 := mkDCB DCB (Some 4) None 0 8 0 [100; 52] [] [80; 58] 1 true 0 ]};
  vcbs := {[ 1 := vcb1; 2 := vcb2 ]};
  fcbs := {[ 1 := fcb_file; 2 := fcb_dir; 3 := fcb_doomed;
             4 := fcb_doomed_dir; 5 := fcb_keepalive; 6 := fcb_user_locks;
             7 := fcb_unopened ]};
  ccbs := {[ 1 := handle 1; 2 := handle 2; 3 := handle 3; 4 := handle 4;
             5 := handle 5; 6 := handle 6; 7 := handle 7; 15 := handle 5 ]};
  vpbs := {[ 1 := mkVpb None 0 [] 0 ]};
  MountEntryList :=
    [ mkMountEntry (mkControl [100; 49] [] 1 (Some 11) 0);
      mkMountEntry (mkControl [100; 50] [] 1 (Some 12) 32) ];
  trace := []
|}.

(** A request with control code [code] on handle [ccb]. *)
Definition request (code : FSCTL_CODE) (ccb : Z)
    (payload : option SYSTEM_BUFFER) (inLen outLen : Z) : IRP :=
  mkIrp (mkIrpSp IRP_MN_USER_FS_REQUEST code inLen outLen
                 (Some (mkFileObject (Some ccb))) None None)
        payload 4242.

(** The level of an exclusive request: Read and Write caching. *)
Definition read_write : Z :=
  Z.lor OPLOCK_LEVEL_CACHE_READ OPLOCK_LEVEL_CACHE_WRITE.


Definition generic (ccb level flags outLen : Z) : IRP :=
  request FSCTL_REQUEST_OPLOCK ccb
    (Some (OplockInputBuffer (mkOplockInput 1 12 level flags))) 12 outLen.

(** The identity chain of handle [ccb] on node [fcb] of volume 1. *)
Definition chain (ccb : Z) (fcb : DokanFCB) : Chain :=
  mkChain (mkFileObject (Some ccb)) ccb (handle ccb) ccb fcb 1 vcb1 1 dcb1.

End Sample.

Module SampleKeepalive.

(** The sample store after handle 5 activated keepalive on volume 1. *)
Definition first : Handle :=
  mkHandle (mkFileObject (Some 5)) 5 (Sample.handle 5) 5 Sample.fcb_keepalive
           1 Sample.vcb1.

Definition kept : State := keepalive_activated Sample.state first.

(** Handle 15, a second handle on the keepalive file. *)
Definition second : Handle :=
  mkHandle (mkFileObject (Some 15)) 15 (Sample.handle 5) 5 Sample.fcb_keepalive
           1 (vcb_activated Sample.vcb1).

(** The activation requests of the two handles. *)
Definition request5 : IRP :=
  Sample.request FSCTL_ACTIVATE_KEEPALIVE 5 None 0 0.
Definition request15 : IRP :=
  Sample.request FSCTL_ACTIVATE_KEEPALIVE 15 None 0 0.

End SampleKeepalive.

Module SampleMount.

(** A mount request for device [dev], with the Vpb at address 1. *)
Definition mount_request (dev : Z) : IRP :=
  mkIrp (mkIrpSp IRP_MN_MOUNT_VOLUME (FSCTL_OTHER 0) 0 0 None (Some dev) (Some 1))
        None 4.

(** Device 3: a network file system, not in the mount entry list. *)
Definition target3 : MountTarget :=
  mkMountTarget (mkDevice 7 0 (Some 3)) 3 (mkDevice 7 0 (Some 3)) 3
                Sample.dcb3 3 (mkDevice 7 0 (Some 3)).

(** The sample routines, but the creation of the volume device fails
    with [status] and leaves no device. *)
Definition creation_fails (status : NTSTATUS) : Externals := {|
  DOKAN_FILE_DIRECTORY := @DOKAN_FILE_DIRECTORY Sample.externals;
  DOKAN_DELETE_ON_CLOSE := @DOKAN_DELETE_ON_CLOSE Sample.externals;
  DokanFCBFlagsIsSet := @DokanFCBFlagsIsSet Sample.externals;
  DOKAN_EVENT_FILELOCK_USER_MODE :=
    @DOKAN_EVENT_FILELOCK_USER_MODE Sample.externals;
  VCB_MOUNTED := @VCB_MOUNTED Sample.externals;
  VOLUME_LABEL := @VOLUME_LABEL Sample.externals;
  sizeof_DokanVCB := @sizeof_DokanVCB Sample.externals;
  GET_IRP_BUFFER_OR_RETURN := @GET_IRP_BUFFER_OR_RETURN Sample.externals;
  GET_IRP_NOTIFY_PATH_INTERMEDIATE_OR_RETURN :=
    @GET_IRP_NOTIFY_PATH_INTERMEDIATE_OR_RETURN Sample.externals;
  FsRtlOplockIsSharedRequest := @FsRtlOplockIsSharedRequest Sample.externals;
  DokanFsRtlCheckLockForOplockRequest :=
    @DokanFsRtlCheckLockForOplockRequest Sample.externals;
  FsRtlAreThereCurrentOrInProgressFileLocks :=
    @FsRtlAreThereCurrentOrInProgressFileLocks Sample.externals;
  FsRtlOplockFsctrl := @FsRtlOplockFsctrl Sample.externals;
  DokanGetFcbOplock := @DokanGetFcbOplock Sample.externals;
  DokanNotifyReportChange0 := @DokanNotifyReportChange0 Sample.externals;
  IsDeletePending := @IsDeletePending Sample.externals;
  IoCreateDevice := fun _ _ drv _ => (status, (0, mkDevice drv 0 None));
  FindMountEntry := @FindMountEntry Sample.externals;
  IsMountPointDriveLetter := @IsMountPointDriveLetter Sample.externals;
  DokanQueryAutoMount := @DokanQueryAutoMount Sample.externals;
  DokanSendVolumeArrivalNotification :=
    @DokanSendVolumeArrivalNotification Sample.externals
|}.

End SampleMount.

(** * Vocabulary of the further properties *)

(** ** Validation of the objects behind a request *)

(** The test [p == NULL || p->Identifier.Type != T] holds of a pointer
    that is NULL or leads to an object with another tag; it fails on a
    pointer to an object tagged [T]. *)
Definition rejected {A : Type} (tbl : gmap Z A)
    (tag : A -> FSD_IDENTIFIER_TYPE) (T : FSD_IDENTIFIER_TYPE)
    (p : option Z) : Prop :=
  p = None \/ exists a x, p = Some a /\ tbl !! a = Some x /\ tag x <> T.

Definition resolves {A : Type} (tbl : gmap Z A)
    (tag : A -> FSD_IDENTIFIER_TYPE) (T : FSD_IDENTIFIER_TYPE)
    (p : option Z) (a : Z) (x : A) : Prop :=
  p = Some a /\ tbl !! a = Some x /\ tag x = T.

(** File object, CCB and FCB of a request, as the keepalive and the
    notify case walk them. *)
Definition HandleResolves (s : State) (fileObject : FILE_OBJECT)
    (pccb : Z) (ccb : DokanCCB) (pfcb : Z) (fcb : DokanFCB) : Prop :=
  resolves (ccbs s) ccb_Identifier CCB (FsContext2 fileObject) pccb ccb /\
  resolves (fcbs s) fcb_Identifier FCB (ccb_Fcb ccb) pfcb fcb.

(** The CCB or the FCB behind a file object fails its test. *)
Inductive BrokenHandle (s : State) (fileObject : FILE_OBJECT) : Prop :=
  | Broken_ccb :
      rejected (ccbs s) ccb_Identifier CCB (FsContext2 fileObject) ->
      BrokenHandle s fileObject
  | Broken_fcb pccb ccb :
      resolves (ccbs s) ccb_Identifier CCB (FsContext2 fileObject) pccb ccb ->
      rejected (fcbs s) fcb_Identifier FCB (ccb_Fcb ccb) ->
      BrokenHandle s fileObject.

(** Some link of the chain CCB, FCB, VCB, DCB fails its test, the links
    before it holding. *)
Inductive BrokenChain (s : State) (fileObject : FILE_OBJECT) : Prop :=
  | Broken_handle :
      BrokenHandle s fileObject -> BrokenChain s fileObject
  | Broken_vcb pccb ccb pfcb fcb :
      HandleResolves s fileObject pccb ccb pfcb fcb ->
      rejected (vcbs s) vcb_Identifier VCB (fcb_Vcb fcb) ->
      BrokenChain s fileObject
  | Broken_dcb pccb ccb pfcb fcb pvcb vcb :
      HandleResolves s fileObject pccb ccb pfcb fcb ->
      resolves (vcbs s) vcb_Identifier VCB (fcb_Vcb fcb) pvcb vcb ->
      rejected (dcbs s) dcb_Identifier DCB (vcb_Dcb vcb) ->
      BrokenChain s fileObject.

(** The nine codes [DokanUserFsRequest] hands to [DokanOplockRequest]. *)
Definition oplock_code (code : FSCTL_CODE) : bool :=
  match code with
  | FSCTL_REQUEST_OPLOCK_LEVEL_1 | FSCTL_REQUEST_OPLOCK_LEVEL_2
  | FSCTL_REQUEST_BATCH_OPLOCK | FSCTL_OPLOCK_BREAK_ACKNOWLEDGE
  | FSCTL_OPBATCH_ACK_CLOSE_PENDING | FSCTL_OPLOCK_BREAK_NOTIFY
  | FSCTL_OPLOCK_BREAK_ACK_NO_2 | FSCTL_REQUEST_FILTER_OPLOCK
  | FSCTL_REQUEST_OPLOCK => true
  | _ => false
  end.

(** The four codes that acknowledge an oplock break. *)
Definition break_acknowledgement (code : FSCTL_CODE) : bool :=
  match code with
  | FSCTL_OPLOCK_BREAK_ACKNOWLEDGE | FSCTL_OPBATCH_ACK_CLOSE_PENDING
  | FSCTL_OPLOCK_BREAK_NOTIFY | FSCTL_OPLOCK_BREAK_ACK_NO_2 => true
  | _ => false
  end.

(** ** Completion of requests *)

Definition is_completion (e : Event) : bool :=
  match e with
  | Call_DokanCompleteIrpRequest _ _ => true
  | _ => false
  end.

Definition not_completion (e : Event) : Prop := is_completion e = false.

(** ** Resources taken while mounting *)

Inductive Resource : Type :=
  | DcbResource (dcb : Z)
  | MountManagerLock.

(** Runs the acquire and release events of a trace against the
    resources held, most recent first: a release must give back the
    resource acquired last. *)
Fixpoint resource_stack (held : list Resource) (t : list Event)
    : option (list Resource) :=
  match t with
  | [] => Some held
  | ExAcquireResourceExclusiveLite_dcb d :: t' =>
      resource_stack (DcbResource d :: held) t'
  | ExAcquireResourceExclusiveLite_MountManagerLock :: t' =>
      resource_stack (MountManagerLock :: held) t'
  | ExReleaseResourceLite_dcb d :: t' =>
      match held with
      | DcbResource d' :: held' =>
          if d =? d' then resource_stack held' t' else None
      | _ => None
      end
  | ExReleaseResourceLite_MountManagerLock :: t' =>
      match held with
      | MountManagerLock :: held' => resource_stack held' t'
      | _ => None
      end
  | _ :: t' => resource_stack held t'
  end.

Definition is_resource_event (e : Event) : bool :=
  match e with
  | ExAcquireResourceExclusiveLite_dcb _ | ExReleaseResourceLite_dcb _
  | ExAcquireResourceExclusiveLite_MountManagerLock
  | ExReleaseResourceLite_MountManagerLock => true
  | _ => false
  end.

(** The arguments of the calls of [DokanSendAutoMount], in order. *)
Definition automount_calls (t : list Event) : list bool :=
  omap (fun e => match e with
                 | Call_DokanSendAutoMount b => Some b
                 | _ => None
                 end) t.

(** The events of lines 645-682, where the volume device is set up:
    the start of the garbage collector and the reference taken on the
    device. *)
Definition mount_setup_event (e : Event) : Prop :=
  match e with
  | Call_DokanStartFcbGarbageCollector _ | Call_ObReferenceObject _ => True
  | _ => False
  end.

(** ** Flag words *)

(** Bit numbers of DO_DIRECT_IO and DO_DEVICE_INITIALIZING. *)
Definition bit_DO_DIRECT_IO : Z := 4.
Definition bit_DO_DEVICE_INITIALIZING : Z := 7.

(** ** The Vpb and the mount entry after a mount *)

Section MountVocabulary.
Context {ext : Externals}.

Definition initialised_vpb (VolumeDevice : option Z) : VPB :=
  mkVpb VolumeDevice
        (((Z.of_nat (length VOLUME_LABEL) mod 2 ^ 16) * 2) mod 2 ^ 16)
        (take 31 VOLUME_LABEL) 0x19831116.

(** The mount entry at index [i] as lines 697-699 leave it. *)
Definition attached_entry (e : MOUNT_ENTRY) (volDeviceObject : Z)
    (dcb : DokanDCB) : MOUNT_ENTRY :=
  mkMountEntry
    (mkControl (ctl_DeviceName (MountControl e)) (ctl_UNCName (MountControl e))
               (ctl_SessionId (MountControl e)) (Some volDeviceObject)
               (MountOptions dcb)).

End MountVocabulary.

(** ** Reparse data as a reader finds it *)

(** A block of [n] zero bytes. *)
Definition zero_block (n : Z) : list Z := replicate (Z.to_nat n) 0.

(** The USHORT at offset [off]. *)
Definition reparse_field (off : Z) (buf : list Z) : option Z :=
  le_value <$> peek off 2 buf.

(** The two names of a mount point buffer: [PathBuffer] from the offset
    field on, as many bytes as the length field says. *)
Definition SubstituteName (buf : list Z) : option (list Z) :=
  o ← reparse_field offsetof_SubstituteNameOffset buf;
  n ← reparse_field offsetof_SubstituteNameLength buf;
  peek (offsetof_PathBuffer + o) (Z.to_nat n) buf.

Definition PrintName (buf : list Z) : option (list Z) :=
  o ← reparse_field offsetof_PrintNameOffset buf;
  n ← reparse_field offsetof_PrintNameLength buf;
  peek (offsetof_PathBuffer + o) (Z.to_nat n) buf.

(** The allocator hands out blocks of the size asked for. *)
Definition sized (DokanAllocZero : Z -> option (list Z)) : Prop :=
  forall n mem, DokanAllocZero n = Some mem -> length mem = Z.to_nat n.

(** ** Strings and handles of SendDirectoryFsctl *)

Record DirectoryResources : Type := mkDirectoryResources {
  live_strings : list UNICODE_STRING;
  open_handles : list Z
}.

(** Removes the first occurrence of [x]. *)
Fixpoint remove_first {A : Type} `{EqDecision A} (x : A) (l : list A)
    : list A :=
  match l with
  | [] => []
  | y :: l' => if decide (x = y) then l' else y :: remove_first x l'
  end.

(** Runs a trace of [SendDirectoryFsctl] against the strings allocated
    and the handles opened: a string is used and freed only while it is
    live, a handle is used and closed only while it is open, and
    [ZwOpenFile] opens a handle when, and only when, it succeeds. *)
Fixpoint directory_resources (r : DirectoryResources)
    (t : list DirectoryEvent) : option DirectoryResources :=
  match t with
  | [] => Some r
  | Call_ChangePrefix _ (Some str) :: t' =>
      directory_resources
        (mkDirectoryResources (str :: live_strings r) (open_handles r)) t'
  | Call_ChangePrefix _ None :: t' => directory_resources r t'
  | Call_ZwOpenFile name status h :: t' =>
      if bool_decide (name ∈ live_strings r) then
        directory_resources
          (mkDirectoryResources (live_strings r)
             (if NT_SUCCESS status then h :: open_handles r
              else open_handles r)) t'
      else None
  | Call_ZwFsControlFile h _ _ _ _ :: t' =>
      if bool_decide (h ∈ open_handles r) then directory_resources r t'
      else None
  | Call_DokanFreeUnicodeString str :: t' =>
      if bool_decide (str ∈ live_strings r) then
        directory_resources
          (mkDirectoryResources (remove_first str (live_strings r))
                                (open_handles r)) t'
      else None
  | Call_ZwClose h :: t' =>
      if bool_decide (h ∈ open_handles r) then
        directory_resources
          (mkDirectoryResources (live_strings r)
                                (remove_first h (open_handles r))) t'
      else None
  end.

(** The control calls and the closes of a trace. *)
Definition control_calls (t : list DirectoryEvent)
    : list (Z * Z * option (list Z) * Z * NTSTATUS) :=
  omap (fun e => match e with
                 | Call_ZwFsControlFile h c i l r => Some (h, c, i, l, r)
                 | _ => None
                 end) t.

Definition closed_handles (t : list DirectoryEvent) : list Z :=
  omap (fun e => match e with
                 | Call_ZwClose h => Some h
                 | _ => None
                 end) t.

(** ** Further sample data *)

Module SampleRequests.

(** A file object with no context, and requests that carry it or no
    file object at all. *)
Definition bare_request (code : FSCTL_CODE) (fo : option FILE_OBJECT) : IRP :=
  mkIrp (mkIrpSp IRP_MN_USER_FS_REQUEST code 0 0 fo None None) None 4242.

(** A change notification for the path "a". *)
Definition notify_payload : DOKAN_NOTIFY_PATH_INTERMEDIATE :=
  mkNotifyPath 1 3 2 [97].

Definition notify_request (ccb : Z) : IRP :=
  Sample.request FSCTL_NOTIFY_PATH ccb (Some (NotifyPathBuffer notify_payload))
                 0 0.

(** A request with a minor function the dispatcher does not know. *)
Definition odd_minor : IRP :=
  mkIrp (mkIrpSp 2 (FSCTL_OTHER 0) 0 0 None None None) None 4.

(** Device 1 of the sample store, with its mount entry at index 0. *)
Definition target1 : MountTarget :=
  mkMountTarget (mkDevice 7 0 (Some 1)) 1 (mkDevice 7 0 (Some 1)) 1
                Sample.dcb1 1 (mkDevice 7 0 (Some 1)).

End SampleRequests.

Module SampleReparse.

(** An allocator that never fails. *)
Definition alloc (n : Z) : option (list Z) := Some (zero_block n).

(** The name "\??\V", five characters in a buffer of six. *)
Definition link : UNICODE_STRING :=
  mkUnicodeString 10 12 [92; 63; 63; 92; 86; 0].

(** A name of 65534 bytes, the longest a counted string can hold. *)
Definition longest : UNICODE_STRING :=
  mkUnicodeString 65534 65534 (replicate (Z.to_nat 32767) 65).

End SampleReparse.

Module SampleDirectory.

(** Two short strings stand for the mount point under "\DosDevices" and
    under "\??"; the directory opens under handle 0x40 and accepts
    every control code but 0. *)
Definition dos_path : UNICODE_STRING := mkUnicodeString 4 4 [68; 77].
Definition nt_path : UNICODE_STRING := mkUnicodeString 4 4 [63; 77].

Definition change_prefix (p : UNICODE_STRING) : option UNICODE_STRING :=
  if bool_decide (p = dos_path) then Some nt_path else None.

Definition open_file (p : UNICODE_STRING) : NTSTATUS * Z :=
  if bool_decide (p = nt_path) then (STATUS_SUCCESS, 0x40)
  else (STATUS_OBJECT_NAME_INVALID, 0).

Definition fs_control (h code : Z) (input : option (list Z)) (len : Z)
    : NTSTATUS :=
  if code =? 0 then STATUS_INVALID_PARAMETER else Sample.STATUS_PENDING.

(** An open that fails and yet leaves a value in [handle]. *)
Definition open_file_leaving (p : UNICODE_STRING) : NTSTATUS * Z :=
  (STATUS_OBJECT_NAME_INVALID, 0x40).

End SampleDirectory.

(** * Properties *)

(** ** Running computations *)

Lemma bind_Some {A B : Type} (m : M A) (k : A -> M B) s a s1 :
  m s = Some (a, s1) -> bind m k s = k a s1.
Proof. intros E. unfold bind. now rewrite E. Qed.

Lemma bind_inv {A B : Type} (m : M A) (k : A -> M B) s b s' :
  bind m k s = Some (b, s') ->
  exists a s1, m s = Some (a, s1) /\ k a s1 = Some (b, s').
Proof.
  unfold bind. destruct (m s) as [[a s1]|] eqn:E; [|discriminate].
  intros K. now exists a, s1.
Qed.

Lemma load_Some {A : Type} (tbl : State -> gmap Z A) a x s :
  tbl s !! a = Some x -> load tbl a s = Some (x, s).
Proof. intros E. unfold load. now rewrite E. Qed.

Lemma load_inv {A : Type} (tbl : State -> gmap Z A) a x s s' :
  load tbl a s = Some (x, s') -> tbl s !! a = Some x /\ s' = s.
Proof.
  unfold load. destruct (tbl s !! a); [|discriminate].
  intros [= -> ->]. now split.
Qed.

Lemma checked_Some {A : Type} (tbl : State -> gmap Z A) tag T a x s :
  tbl s !! a = Some x -> tag x = T ->
  checked tbl tag T (Some a) s = Some (Some (a, x), s).
Proof.
  intros E Et. unfold checked. rewrite (bind_Some _ _ _ _ _ (load_Some _ _ _ _ E)).
  now rewrite bool_decide_true.
Qed.

Lemma checked_inv {A : Type} (tbl : State -> gmap Z A) tag T p r s s' :
  checked tbl tag T p s = Some (r, s') ->
  s' = s /\
  (r = None \/
   exists a x, p = Some a /\ tbl s !! a = Some x /\ tag x = T /\ r = Some (a, x)).
Proof.
  unfold checked. destruct p as [a|].
  - intros K. apply bind_inv in K as (x & s1 & L & K).
    apply load_inv in L as [L ->].
    destruct (bool_decide (tag x = T)) eqn:D; injection K as <- <-.
    + apply bool_decide_eq_true in D. split; [easy|]. right. now exists a, x.
    + split; [easy|]. now left.
  - intros [= <- <-]. split; [easy|]. now left.
Qed.

Lemma set_trace_id s : set_trace (trace s) s = s.
Proof. now destruct s. Qed.

Lemma after_nil s : after [] s = s.
Proof. unfold after. rewrite app_nil_r. apply set_trace_id. Qed.

Lemma after_after d1 d2 s : after d2 (after d1 s) = after (d1 ++ d2) s.
Proof. unfold after. simpl. now rewrite app_assoc. Qed.

Lemma emit_after e s : emit e s = Some (tt, after [e] s).
Proof. reflexivity. Qed.

Lemma trace_after d s : trace (after d s) = trace s ++ d.
Proof. reflexivity. Qed.

Section OplockFacts.
Context {ext : Externals}.

Lemma DokanOplockRequest_chain s irp c :
  IdentityChain s irp c ->
  DokanOplockRequest irp s =
  OplockChecked irp (c_pfcb c) (c_fcb c) (c_pvcb c) (c_dcb c) s.
Proof.
  intros (Hfo & Hctx & Hccb & Tccb & Hf & Hfcb & Tfcb & Hv & Hvcb & Tvcb &
          Hd & Hdcb & Tdcb).
  unfold DokanOplockRequest. rewrite Hfo. simpl deref.
  unfold bind at 1. unfold ret at 1.
  rewrite Hctx, (bind_Some _ _ _ _ _ (checked_Some _ _ _ _ _ _ Hccb Tccb)).
  rewrite Hf, (bind_Some _ _ _ _ _ (checked_Some _ _ _ _ _ _ Hfcb Tfcb)).
  rewrite Hv, (bind_Some _ _ _ _ _ (checked_Some _ _ _ _ _ _ Hvcb Tvcb)).
  rewrite Hd, (bind_Some _ _ _ _ _ (checked_Some _ _ _ _ _ _ Hdcb Tdcb)).
  reflexivity.
Qed.

(** Whatever the store holds, a call that returns either rejected the
    identity chain, leaving everything as it was, or found a chain and
    went on with it. *)
Lemma DokanOplockRequest_inv s irp r s' :
  DokanOplockRequest irp s = Some (r, s') ->
  (r = (STATUS_INVALID_PARAMETER, Some irp) /\ s' = s) \/
  exists c, IdentityChain s irp c /\
    OplockChecked irp (c_pfcb c) (c_fcb c) (c_pvcb c) (c_dcb c) s = Some (r, s').
Proof.
  unfold DokanOplockRequest. intros K.
  apply bind_inv in K as (fo & s0 & Hfo & K).
  destruct (FileObject (IoGetCurrentIrpStackLocation irp)) as [fo'|] eqn:Efo;
    [|discriminate]. injection Hfo as <- <-.
  apply bind_inv in K as (occb & s1 & C1 & K).
  apply checked_inv in C1 as [-> [->|(pccb & ccb & Hctx & Hccb & Tccb & ->)]];
    [injection K as <- <-; now left|].
  apply bind_inv in K as (ofcb & s2 & C2 & K).
  apply checked_inv in C2 as [-> [->|(pfcb & fcb & Hf & Hfcb & Tfcb & ->)]];
    [injection K as <- <-; now left|].
  apply bind_inv in K as (ovcb & s3 & C3 & K).
  apply checked_inv in C3 as [-> [->|(pvcb & vcb & Hv & Hvcb & Tvcb & ->)]];
    [injection K as <- <-; now left|].
  apply bind_inv in K as (odcb & s4 & C4 & K).
  apply checked_inv in C4 as [-> [->|(pdcb & dcb & Hd & Hdcb & Tdcb & ->)]];
    [injection K as <- <-; now left|].
  right. exists (mkChain fo' pccb ccb pfcb fcb pvcb vcb pdcb dcb).
  split; [|exact K]. now repeat split.
Qed.

End OplockFacts.

Lemma bind_emit {B : Type} e (k : unit -> M B) s :
  bind (emit e) k s = k tt (after [e] s).
Proof. reflexivity. Qed.

Lemma bind_ret {A B : Type} (a : A) (k : A -> M B) s : bind (ret a) k s = k a s.
Proof. reflexivity. Qed.

Lemma ret_run {A : Type} (a : A) s : ret a s = Some (a, s).
Proof. reflexivity. Qed.

Lemma bind_modify {B : Type} f (k : unit -> M B) s :
  bind (modify f) k s = k tt (f s).
Proof. reflexivity. Qed.

Lemma bind_gets {A B : Type} (f : State -> A) (k : A -> M B) s :
  bind (gets f) k s = k (f s) s.
Proof. reflexivity. Qed.

Lemma bind_load_Some {A B : Type} (tbl : State -> gmap Z A) a x (k : A -> M B) s :
  tbl s !! a = Some x -> bind (load tbl a) k s = k x s.
Proof. intros E. apply bind_Some. now apply load_Some. Qed.

Lemma bind_assoc {A B C : Type} (m : M A) (k : A -> M B) (h : B -> M C) s :
  bind (bind m k) h s = bind m (fun a => bind (k a) h) s.
Proof. unfold bind. destruct (m s) as [[a s1]|]; reflexivity. Qed.

Ltac run :=
  unfold when_;
  repeat first
    [ rewrite bind_assoc | rewrite bind_emit | rewrite bind_ret
    | rewrite emit_after | rewrite ret_run | rewrite after_after
    | progress cbn [app status pIrp acquiredVcb acquiredFcb oplockCount fst snd] ].

Section OplockRuns.
Context {ext : Externals}.

Variables (irp : IRP) (fsControlCode : FSCTL_CODE)
  (inputBuffer : option REQUEST_OPLOCK_INPUT_BUFFER)
  (pfcb : Z) (fcb : DokanFCB) (pvcb : Z) (dcb : DokanDCB).

Lemma OplockTry_request s :
  is_request_class fsControlCode inputBuffer = true ->
  OplockTry irp fsControlCode inputBuffer pfcb fcb pvcb dcb s =
  if fails_delete_pending fsControlCode inputBuffer fcb then
    Some (mkLocals STATUS_DELETE_PENDING (Some irp) true true
                   (OplockCount irp dcb fcb),
          after [DokanVCBLockRO pvcb; DokanFCBLockRW pfcb] s)
  else
    let n := OplockCount irp dcb fcb in
    Some (mkLocals (FsRtlOplockFsctrl (DokanGetFcbOplock fcb) irp n)
                   None true true n,
          after [DokanVCBLockRO pvcb; DokanFCBLockRW pfcb;
                 Call_FsRtlOplockFsctrl (DokanGetFcbOplock fcb) irp n] s).
Proof.
  intros R. unfold OplockTry. rewrite R.
  destruct (fails_delete_pending _ _ _); run; reflexivity.
Qed.

Lemma OplockTry_acknowledge s :
  is_request_class fsControlCode inputBuffer = false ->
  is_acknowledge_class fsControlCode inputBuffer = true ->
  OplockTry irp fsControlCode inputBuffer pfcb fcb pvcb dcb s =
  if fails_delete_pending fsControlCode inputBuffer fcb then
    Some (mkLocals STATUS_DELETE_PENDING (Some irp) false true 0,
          after [DokanFCBLockRO pfcb] s)
  else
    Some (mkLocals (FsRtlOplockFsctrl (DokanGetFcbOplock fcb) irp 0)
                   None false true 0,
          after [DokanFCBLockRO pfcb;
                 Call_FsRtlOplockFsctrl (DokanGetFcbOplock fcb) irp 0] s).
Proof.
  intros R A. unfold OplockTry. rewrite R, A.
  destruct (fails_delete_pending _ _ _); run; reflexivity.
Qed.

Lemma OplockTry_malformed s :
  is_request_class fsControlCode inputBuffer = false ->
  is_acknowledge_class fsControlCode inputBuffer = false ->
  OplockTry irp fsControlCode inputBuffer pfcb fcb pvcb dcb s =
  Some (mkLocals STATUS_INVALID_PARAMETER (Some irp) false false 0, s).
Proof.
  intros R A. unfold OplockTry. rewrite R, A.
  destruct (code_is _ _); run; reflexivity.
Qed.

End OplockRuns.

Section OplockCheckedRuns.
Context {ext : Externals}.

Variables (irp : IRP) (pfcb : Z) (fcb : DokanFCB) (pvcb : Z) (dcb : DokanDCB).

Let fsControlCode := FsControlCode (IoGetCurrentIrpStackLocation irp).

Lemma OplockChecked_buffers st s :
  OplockBuffers irp = inl st ->
  OplockChecked irp pfcb fcb pvcb dcb s = Some ((st, Some irp), s).
Proof. intros B. unfold OplockChecked. now rewrite B. Qed.

Lemma OplockChecked_directory inputBuffer s :
  OplockBuffers irp = inr inputBuffer ->
  directory_mismatch irp fcb = true ->
  OplockChecked irp pfcb fcb pvcb dcb s =
  Some ((STATUS_INVALID_PARAMETER, Some irp), s).
Proof. intros B D. unfold OplockChecked. now rewrite B, D. Qed.

Lemma OplockChecked_request inputBuffer s :
  OplockBuffers irp = inr inputBuffer ->
  directory_mismatch irp fcb = false ->
  is_request_class fsControlCode inputBuffer = true ->
  OplockChecked irp pfcb fcb pvcb dcb s =
  if fails_delete_pending fsControlCode inputBuffer fcb then
    Some ((STATUS_DELETE_PENDING, Some irp),
          after [DokanVCBLockRO pvcb; DokanFCBLockRW pfcb;
                 DokanFCBUnlock pfcb; DokanVCBUnlock pvcb] s)
  else
    let n := OplockCount irp dcb fcb in
    Some ((FsRtlOplockFsctrl (DokanGetFcbOplock fcb) irp n, None),
          after [DokanVCBLockRO pvcb; DokanFCBLockRW pfcb;
                 Call_FsRtlOplockFsctrl (DokanGetFcbOplock fcb) irp n;
                 DokanFCBUnlock pfcb; DokanVCBUnlock pvcb] s).
Proof.
  intros B D R. unfold OplockChecked. rewrite B, D.
  unfold bind at 1. fold fsControlCode. rewrite (OplockTry_request _ _ _ _ _ _ _ _ R).
  destruct (fails_delete_pending _ _ _); unfold OplockFinally; run; reflexivity.
Qed.

Lemma OplockChecked_acknowledge inputBuffer s :
  OplockBuffers irp = inr inputBuffer ->
  directory_mismatch irp fcb = false ->
  is_request_class fsControlCode inputBuffer = false ->
  is_acknowledge_class fsControlCode inputBuffer = true ->
  OplockChecked irp pfcb fcb pvcb dcb s =
  if fails_delete_pending fsControlCode inputBuffer fcb then
    Some ((STATUS_DELETE_PENDING, Some irp),
          after [DokanFCBLockRO pfcb; DokanFCBUnlock pfcb] s)
  else
    Some ((FsRtlOplockFsctrl (DokanGetFcbOplock fcb) irp 0, None),
          after [DokanFCBLockRO pfcb;
                 Call_FsRtlOplockFsctrl (DokanGetFcbOplock fcb) irp 0;
                 DokanFCBUnlock pfcb] s).
Proof.
  intros B D R A. unfold OplockChecked. rewrite B, D.
  unfold bind at 1. fold fsControlCode.
  rewrite (OplockTry_acknowledge _ _ _ _ _ _ _ _ R A).
  destruct (fails_delete_pending _ _ _); unfold OplockFinally; run; reflexivity.
Qed.

Lemma OplockChecked_malformed inputBuffer s :
  OplockBuffers irp = inr inputBuffer ->
  directory_mismatch irp fcb = false ->
  is_request_class fsControlCode inputBuffer = false ->
  is_acknowledge_class fsControlCode inputBuffer = false ->
  OplockChecked irp pfcb fcb pvcb dcb s =
  Some ((STATUS_INVALID_PARAMETER, Some irp), s).
Proof.
  intros B D R A. unfold OplockChecked. rewrite B, D.
  unfold bind at 1. fold fsControlCode.
  rewrite (OplockTry_malformed _ _ _ _ _ _ _ _ R A).
  unfold OplockFinally; run. reflexivity.
Qed.

End OplockCheckedRuns.

Section EmitsRules.
Context {P : Event -> Prop}.

Lemma Emits_ret {A : Type} (R : A -> Prop) a : R a -> Emits P R (ret a).
Proof.
  intros Ra s b s' [= <- <-]. split; [exact Ra|].
  exists []. now rewrite app_nil_r.
Qed.

Lemma Emits_fault {A : Type} (R : A -> Prop) : Emits P R (@fault A).
Proof. intros s a s' K. discriminate K. Qed.

Lemma Emits_bind {A B : Type} (R : B -> Prop) (m : M A) (k : A -> M B) :
  Emits P any m -> (forall a, Emits P R (k a)) -> Emits P R (bind m k).
Proof.
  intros Hm Hk s b s' K. apply bind_inv in K as (a & s1 & E1 & E2).
  apply Hm in E1 as (_ & d1 & T1 & F1).
  apply Hk in E2 as (Rb & d2 & T2 & F2).
  split; [exact Rb|]. exists (d1 ++ d2). split.
  - now rewrite T2, T1, app_assoc.
  - now apply Forall_app.
Qed.

Lemma Emits_emit e : P e -> Emits P any (emit e).
Proof.
  intros Pe s a s' [= <- <-]. split; [exact I|].
  exists [e]. split; [reflexivity|]. now constructor.
Qed.

Lemma Emits_gets {A : Type} (f : State -> A) : Emits P any (gets f).
Proof.
  intros s a s' [= <- <-]. split; [exact I|]. exists []. now rewrite app_nil_r.
Qed.

Lemma Emits_modify f : (forall s, trace (f s) = trace s) -> Emits P any (modify f).
Proof.
  intros Hf s a s' [= <- <-]. split; [exact I|].
  exists []. now rewrite app_nil_r, Hf.
Qed.

Lemma Emits_load {A : Type} (tbl : State -> gmap Z A) a : Emits P any (load tbl a).
Proof.
  intros s x s' K. apply load_inv in K as [_ ->]. split; [exact I|].
  exists []. now rewrite app_nil_r.
Qed.

Lemma Emits_deref {A : Type} (p : option A) : Emits P any (deref p).
Proof. destruct p; [now apply Emits_ret | apply Emits_fault]. Qed.

Lemma Emits_checked {A : Type} (tbl : State -> gmap Z A) tag T p :
  Emits P any (checked tbl tag T p).
Proof.
  intros s x s' K. apply checked_inv in K as [-> _]. split; [exact I|].
  exists []. now rewrite app_nil_r.
Qed.

Lemma Emits_when b m : Emits P any m -> Emits P any (when_ b m).
Proof. destruct b; [easy|]. intros _. now apply Emits_ret. Qed.

End EmitsRules.

(** Goal-directed use of the rules: one step per constructor of the
    computation, modifications discharged by computing the trace. *)
Ltac emits_step :=
  match goal with
  | |- Emits _ _ (bind _ _) => apply Emits_bind; [|intros ?]
  | |- Emits _ _ (ret _) => apply Emits_ret
  | |- Emits _ _ (emit _) => apply Emits_emit
  | |- Emits _ _ (when_ _ _) => apply Emits_when
  | |- Emits _ _ (gets _) => apply Emits_gets
  | |- Emits _ _ (modify _) => apply Emits_modify; intros ?; reflexivity
  | |- Emits _ _ (load _ _) => apply Emits_load
  | |- Emits _ _ (deref _) => apply Emits_deref
  | |- Emits _ _ (checked _ _ _ _) => apply Emits_checked
  | |- Emits _ _ fault => apply Emits_fault
  | |- Emits _ _ (match ?x with _ => _ end) => destruct x
  | |- Emits _ _ (let (_, _) := ?x in _) => destruct x
  end.

Section OtherPaths.
Context {ext : Externals}.

Lemma ActivateKeepalive_emits irp :
  Emits not_oplock_call (fun r => snd r = Some irp) (ActivateKeepalive irp).
Proof.
  unfold ActivateKeepalive, store_ccb_IsKeepaliveActive, store_vcb_IsKeepaliveActive.
  repeat emits_step; try exact I; reflexivity.
Qed.

Lemma NotifyPath_emits irp :
  Emits not_oplock_call (fun r => snd r = Some irp) (NotifyPath irp).
Proof.
  unfold NotifyPath. repeat emits_step; try exact I; reflexivity.
Qed.

Lemma DokanMountVolume_emits dev irp :
  Emits not_oplock_call any (DokanMountVolume dev irp).
Proof.
  unfold DokanMountVolume, MountCreate, MountAttach, MountInitVolume,
    MountPublish, DokanInitVpb, update_dev_Flags, update_vcb_Flags,
    store_dcb_Vcb, init_vcb, attach_mount_entry.
  repeat emits_step; exact I.
Qed.

End OtherPaths.

Ltac by_computation := repeat split; vm_compute; reflexivity.

(** ** The directory rule *)

Section DirectoryRule.
Context {ext : Externals}.

Lemma directory_mismatch_true irp fcb :
  DokanFCBFlagsIsSet fcb DOKAN_FILE_DIRECTORY = true ->
  ~ (FsControlCode (IoGetCurrentIrpStackLocation irp) = FSCTL_REQUEST_OPLOCK /\
     FsRtlOplockIsSharedRequest irp = true) ->
  directory_mismatch irp fcb = true.
Proof.
  intros Hdir N. unfold directory_mismatch. rewrite Hdir. simpl. unfold code_is.
  destruct (decide (FsControlCode (IoGetCurrentIrpStackLocation irp) =
                    FSCTL_REQUEST_OPLOCK)) as [E|E].
  - rewrite bool_decide_true by exact E. simpl.
    destruct (FsRtlOplockIsSharedRequest irp); [|reflexivity].
    exfalso. apply N. now split.
  - now rewrite bool_decide_false by exact E.
Qed.

Lemma OplockBuffers_other irp :
  FsControlCode (IoGetCurrentIrpStackLocation irp) <> FSCTL_REQUEST_OPLOCK ->
  OplockBuffers irp = inr None.
Proof.
  intros N. unfold OplockBuffers, code_is. now rewrite bool_decide_false by exact N.
Qed.

Lemma OplockBuffers_short irp b :
  FsControlCode (IoGetCurrentIrpStackLocation irp) = FSCTL_REQUEST_OPLOCK ->
  GET_IRP_BUFFER_OR_RETURN irp = inr b ->
  OutputBufferLength (IoGetCurrentIrpStackLocation irp) <
    sizeof_REQUEST_OPLOCK_OUTPUT_BUFFER ->
  OplockBuffers irp = inl STATUS_BUFFER_TOO_SMALL.
Proof.
  intros E G L. unfold OplockBuffers, code_is.
  rewrite bool_decide_true by exact E. rewrite G.
  apply Z.ltb_lt in L. now rewrite L.
Qed.

(** C2, as the code has it.  On a node flagged as a directory, an oplock
    request that is not a generic shared request never reaches the
    oplock package: the store and the trace stay as they were and the
    caller keeps the request.  Every code other than FSCTL_REQUEST_OPLOCK
    (level 1, level 2, batch, filter, the acknowledgements) returns
    STATUS_INVALID_PARAMETER.  FSCTL_REQUEST_OPLOCK for a request that is
    not shared returns STATUS_INVALID_PARAMETER once its buffers have
    passed the size checks of lines 145-157; a request that fails those
    returns their status, STATUS_BUFFER_TOO_SMALL when the output buffer
    is shorter than a REQUEST_OPLOCK_OUTPUT_BUFFER. *)
Theorem directory_request_refused s irp c :
  IdentityChain s irp c ->
  DokanFCBFlagsIsSet (c_fcb c) DOKAN_FILE_DIRECTORY = true ->
  let code := FsControlCode (IoGetCurrentIrpStackLocation irp) in
  (code <> FSCTL_REQUEST_OPLOCK ->
   DokanOplockRequest irp s = Some ((STATUS_INVALID_PARAMETER, Some irp), s)) /\
  (forall inputBuffer,
   code = FSCTL_REQUEST_OPLOCK ->
   FsRtlOplockIsSharedRequest irp = false ->
   OplockBuffers irp = inr inputBuffer ->
   DokanOplockRequest irp s = Some ((STATUS_INVALID_PARAMETER, Some irp), s)) /\
  (forall st,
   code = FSCTL_REQUEST_OPLOCK ->
   OplockBuffers irp = inl st ->
   DokanOplockRequest irp s = Some ((st, Some irp), s)) /\
  (forall b,
   code = FSCTL_REQUEST_OPLOCK ->
   GET_IRP_BUFFER_OR_RETURN irp = inr b ->
   OutputBufferLength (IoGetCurrentIrpStackLocation irp) <
     sizeof_REQUEST_OPLOCK_OUTPUT_BUFFER ->
   DokanOplockRequest irp s = Some ((STATUS_BUFFER_TOO_SMALL, Some irp), s)) /\
  (~ (code = FSCTL_REQUEST_OPLOCK /\ FsRtlOplockIsSharedRequest irp = true) ->
   exists st, DokanOplockRequest irp s = Some ((st, Some irp), s)).
Proof.
  intros Hc Hdir code. rewrite (DokanOplockRequest_chain _ _ _ Hc).
  pose proof (directory_mismatch_true irp _ Hdir) as Hmis. fold code in Hmis.
  split; [|split; [|split; [|split]]].
  - intros Ncode.
    apply (OplockChecked_directory _ _ _ _ _ _ _ (OplockBuffers_other _ Ncode)).
    apply Hmis. now intros [E _].
  - intros ib Ecode Hsh B.
    apply (OplockChecked_directory _ _ _ _ _ _ _ B). apply Hmis.
    intros [_ E]. congruence.
  - intros st _ B. now apply OplockChecked_buffers.
  - intros b E G L. apply OplockChecked_buffers.
    now apply (OplockBuffers_short irp b).
  - intros N. destruct (OplockBuffers irp) as [st|ib] eqn:B.
    + exists st. now apply OplockChecked_buffers.
    + exists STATUS_INVALID_PARAMETER.
      apply (OplockChecked_directory _ _ _ _ _ _ _ B). now apply Hmis.
Qed.

End DirectoryRule.

(** A batch oplock request on the directory of the sample store. *)
Lemma directory_request_refused_witness :
  DokanOplockRequest (ext := Sample.externals)
    (Sample.request FSCTL_REQUEST_BATCH_OPLOCK 2 None 0 0) Sample.state =
  Some ((STATUS_INVALID_PARAMETER,
         Some (Sample.request FSCTL_REQUEST_BATCH_OPLOCK 2 None 0 0)),
        Sample.state).
Proof.
  apply (proj1 (directory_request_refused (ext := Sample.externals) Sample.state
                  (Sample.request FSCTL_REQUEST_BATCH_OPLOCK 2 None 0 0)
                  (Sample.chain 2 Sample.fcb_dir)
                  ltac:(by_computation) ltac:(by_computation))).
  vm_compute. discriminate.
Defined.

(** C2 as stated fails: an exclusive (Read-Write) generic request on the
    directory, with its request flag set and an output buffer of 8
    bytes, is a request on a directory that is not a generic shared
    request, and it returns STATUS_BUFFER_TOO_SMALL. *)
Lemma directory_request_counterexample :
  let irp := Sample.generic 2 Sample.read_write REQUEST_OPLOCK_INPUT_FLAG_REQUEST 8 in
  IdentityChain Sample.state irp (Sample.chain 2 Sample.fcb_dir) /\
  DokanFCBFlagsIsSet (Externals := Sample.externals) Sample.fcb_dir
    (DOKAN_FILE_DIRECTORY (Externals := Sample.externals)) = true /\
  FsControlCode (IoGetCurrentIrpStackLocation irp) = FSCTL_REQUEST_OPLOCK /\
  FsRtlOplockIsSharedRequest (Externals := Sample.externals) irp = false /\
  DokanOplockRequest (ext := Sample.externals) irp Sample.state =
    Some ((STATUS_BUFFER_TOO_SMALL, Some irp), Sample.state) /\
  STATUS_BUFFER_TOO_SMALL <> STATUS_INVALID_PARAMETER.
Proof.
  cbv zeta. split; [by_computation|].
  repeat split; try (vm_compute; reflexivity). vm_compute. discriminate.
Qed.

(** ** Classification of the request *)

Section Classification.
Context {ext : Externals}.

Lemma code_is_refl c : code_is c c = true.
Proof. unfold code_is. now apply bool_decide_eq_true. Qed.

Lemma generic_request_class b :
  is_request_class FSCTL_REQUEST_OPLOCK (Some b) =
  FlagOn (Flags b) REQUEST_OPLOCK_INPUT_FLAG_REQUEST.
Proof. reflexivity. Qed.

Lemma generic_acknowledge_class b :
  is_acknowledge_class FSCTL_REQUEST_OPLOCK (Some b) =
  FlagOn (Flags b) REQUEST_OPLOCK_INPUT_FLAG_ACK.
Proof. reflexivity. Qed.

(** C3, as the code has it.  A generic oplock request whose buffers have
    passed the size checks and whose input flags set neither the request
    flag nor the acknowledge flag returns STATUS_INVALID_PARAMETER: the
    store and the trace are as before, so no lock was taken, and the
    [try] block ends with [acquiredVcb] and [acquiredFcb] both false.
    A generic request that fails the size checks returns their status
    instead, STATUS_BUFFER_TOO_SMALL when the output buffer is shorter
    than a REQUEST_OPLOCK_OUTPUT_BUFFER, with nothing acquired either. *)
Theorem generic_without_flags_refused s irp c :
  IdentityChain s irp c ->
  FsControlCode (IoGetCurrentIrpStackLocation irp) = FSCTL_REQUEST_OPLOCK ->
  (forall b,
   OplockBuffers irp = inr (Some b) ->
   FlagOn (Flags b) REQUEST_OPLOCK_INPUT_FLAG_REQUEST = false ->
   FlagOn (Flags b) REQUEST_OPLOCK_INPUT_FLAG_ACK = false ->
   DokanOplockRequest irp s = Some ((STATUS_INVALID_PARAMETER, Some irp), s) /\
   exists l,
     OplockTry irp FSCTL_REQUEST_OPLOCK (Some b) (c_pfcb c) (c_fcb c)
               (c_pvcb c) (c_dcb c) s = Some (l, s) /\
     status l = STATUS_INVALID_PARAMETER /\
     acquiredVcb l = false /\ acquiredFcb l = false) /\
  (forall st,
   OplockBuffers irp = inl st ->
   DokanOplockRequest irp s = Some ((st, Some irp), s)) /\
  (forall b,
   GET_IRP_BUFFER_OR_RETURN irp = inr b ->
   OutputBufferLength (IoGetCurrentIrpStackLocation irp) <
     sizeof_REQUEST_OPLOCK_OUTPUT_BUFFER ->
   DokanOplockRequest irp s = Some ((STATUS_BUFFER_TOO_SMALL, Some irp), s)).
Proof.
  intros Hc Ecode. rewrite (DokanOplockRequest_chain _ _ _ Hc).
  split; [|split].
  - intros b B Rq Ak.
    assert (R : is_request_class FSCTL_REQUEST_OPLOCK (Some b) = false)
      by now rewrite generic_request_class.
    assert (A : is_acknowledge_class FSCTL_REQUEST_OPLOCK (Some b) = false)
      by now rewrite generic_acknowledge_class.
    split.
    + destruct (directory_mismatch irp (c_fcb c)) eqn:D.
      * now apply (OplockChecked_directory _ _ _ _ _ _ _ B).
      * apply (OplockChecked_malformed _ _ _ _ _ _ _ B D); now rewrite Ecode.
    + eexists. split; [now apply OplockTry_malformed|]. now repeat split.
  - intros st B. now apply OplockChecked_buffers.
  - intros b G L. apply OplockChecked_buffers.
    now apply (OplockBuffers_short irp b).
Qed.


End Classification.

(** A Read request with neither flag, on the open file of the sample
    store, with buffers of the right size. *)
Lemma generic_without_flags_refused_witness :
  let irp := Sample.generic 1 OPLOCK_LEVEL_CACHE_READ 0 24 in
  DokanOplockRequest (ext := Sample.externals) irp Sample.state =
  Some ((STATUS_INVALID_PARAMETER, Some irp), Sample.state).
Proof.
  cbv zeta.
  apply (proj1 (proj1 (generic_without_flags_refused (ext := Sample.externals)
                         Sample.state
                         (Sample.generic 1 OPLOCK_LEVEL_CACHE_READ 0 24)
                         (Sample.chain 1 Sample.fcb_file)
                         ltac:(by_computation) ltac:(by_computation))
                 (mkOplockInput 1 12 OPLOCK_LEVEL_CACHE_READ 0)
                 ltac:(by_computation) ltac:(by_computation)
                 ltac:(by_computation))).
Defined.

(** C3 as stated fails: the same request with an output buffer of 8
    bytes is a generic request whose flags set neither bit, and it
    returns STATUS_BUFFER_TOO_SMALL. *)
Lemma generic_without_flags_counterexample :
  let irp := Sample.generic 1 OPLOCK_LEVEL_CACHE_READ 0 8 in
  IdentityChain Sample.state irp (Sample.chain 1 Sample.fcb_file) /\
  FsControlCode (IoGetCurrentIrpStackLocation irp) = FSCTL_REQUEST_OPLOCK /\
  (exists b, GET_IRP_BUFFER_OR_RETURN (Externals := Sample.externals) irp = inr b /\
     FlagOn (Flags b) REQUEST_OPLOCK_INPUT_FLAG_REQUEST = false /\
     FlagOn (Flags b) REQUEST_OPLOCK_INPUT_FLAG_ACK = false) /\
  DokanOplockRequest (ext := Sample.externals) irp Sample.state =
    Some ((STATUS_BUFFER_TOO_SMALL, Some irp), Sample.state) /\
  STATUS_BUFFER_TOO_SMALL <> STATUS_INVALID_PARAMETER.
Proof.
  cbv zeta. split; [by_computation|]. split; [reflexivity|]. split.
  - exists (mkOplockInput 1 12 OPLOCK_LEVEL_CACHE_READ 0). by_computation.
  - split; [vm_compute; reflexivity | vm_compute; discriminate].
Qed.


(** ** Nodes marked for delete *)

Section DeletePending.
Context {ext : Externals}.

Lemma wants_handle_class_fails code ib fcb :
  wants_handle_class code ib ->
  DokanFCBFlagsIsSet fcb DOKAN_DELETE_ON_CLOSE = true ->
  fails_delete_pending code ib fcb = true.
Proof.
  unfold fails_delete_pending. intros [->|[->|(-> & L & _)]] ->.
  - reflexivity.
  - reflexivity.
  - rewrite code_is_refl, L. reflexivity.
Qed.

Lemma wants_handle_class_classified code ib :
  wants_handle_class code ib ->
  is_request_class code ib = true \/
  (is_request_class code ib = false /\ is_acknowledge_class code ib = true).
Proof.
  intros [->|[->|(-> & _ & F)]]; [now left|now left|].
  unfold is_request_class, is_acknowledge_class. rewrite code_is_refl. simpl.
  destruct (FlagOn (ib_Flags ib) REQUEST_OPLOCK_INPUT_FLAG_REQUEST);
    [now left|right]. destruct F as [F|F]; [discriminate|]. now split.
Qed.

(** C4, as the code has it.  A batch request, a filter request, or a
    generic request that asks for handle caching with its request or
    acknowledge flag set, once past the buffer checks and the directory
    rule (the node is not a directory, or the request is a generic
    shared one), on a node marked for delete: the call returns
    STATUS_DELETE_PENDING, the caller keeps the request, the oplock
    package is not called, and the locks taken (Vcb shared and Fcb
    exclusive for a request, Fcb shared for an acknowledgement) are
    released. *)
Theorem delete_pending_refused s irp c inputBuffer :
  IdentityChain s irp c ->
  OplockBuffers irp = inr inputBuffer ->
  directory_mismatch irp (c_fcb c) = false ->
  wants_handle_class (FsControlCode (IoGetCurrentIrpStackLocation irp))
                     inputBuffer ->
  DokanFCBFlagsIsSet (c_fcb c) DOKAN_DELETE_ON_CLOSE = true ->
  exists delta,
    DokanOplockRequest irp s =
      Some ((STATUS_DELETE_PENDING, Some irp), after delta s) /\
    (delta = [DokanVCBLockRO (c_pvcb c); DokanFCBLockRW (c_pfcb c);
              DokanFCBUnlock (c_pfcb c); DokanVCBUnlock (c_pvcb c)] \/
     delta = [DokanFCBLockRO (c_pfcb c); DokanFCBUnlock (c_pfcb c)]).
Proof.
  intros Hc B D W Del. rewrite (DokanOplockRequest_chain _ _ _ Hc).
  pose proof (wants_handle_class_fails _ _ _ W Del) as F.
  destruct (wants_handle_class_classified _ _ W) as [R|[R A]].
  - rewrite (OplockChecked_request _ _ _ _ _ _ _ B D R), F.
    eexists. split; [reflexivity|]. now left.
  - rewrite (OplockChecked_acknowledge _ _ _ _ _ _ _ B D R A), F.
    eexists. split; [reflexivity|]. now right.
Qed.

End DeletePending.

(** Scenario B on the sample store: a generic request for handle
    caching, request flag set, on the file marked for delete. *)
Lemma delete_pending_refused_witness :
  let irp := Sample.generic 3 OPLOCK_LEVEL_CACHE_HANDLE
                            REQUEST_OPLOCK_INPUT_FLAG_REQUEST 24 in
  exists delta,
    DokanOplockRequest (ext := Sample.externals) irp Sample.state =
      Some ((STATUS_DELETE_PENDING, Some irp), after delta Sample.state) /\
    (delta = [DokanVCBLockRO 1; DokanFCBLockRW 3;
              DokanFCBUnlock 3; DokanVCBUnlock 1] \/
     delta = [DokanFCBLockRO 3; DokanFCBUnlock 3]).
Proof.
  cbv zeta.
  apply (delete_pending_refused (ext := Sample.externals) Sample.state
           (Sample.generic 3 OPLOCK_LEVEL_CACHE_HANDLE
                           REQUEST_OPLOCK_INPUT_FLAG_REQUEST 24)
           (Sample.chain 3 Sample.fcb_doomed)
           (Some (mkOplockInput 1 12 OPLOCK_LEVEL_CACHE_HANDLE
                                REQUEST_OPLOCK_INPUT_FLAG_REQUEST))).
  - by_computation.
  - by_computation.
  - by_computation.
  - right. right. split; [reflexivity|]. split; [|left]; vm_compute; reflexivity.
  - by_computation.
Defined.

(** C4 as stated fails: a batch request on a directory that is marked
    for delete returns STATUS_INVALID_PARAMETER, from the directory rule
    of lines 163-169, which comes first; and the generic request for
    handle caching of scenario B, sent with an output buffer of 8 bytes,
    returns STATUS_BUFFER_TOO_SMALL on the file marked for delete. *)
Lemma delete_pending_counterexample :
  let batch := Sample.request FSCTL_REQUEST_BATCH_OPLOCK 4 None 0 0 in
  let short := Sample.generic 3 OPLOCK_LEVEL_CACHE_HANDLE
                              REQUEST_OPLOCK_INPUT_FLAG_REQUEST 8 in
  (IdentityChain Sample.state batch (Sample.chain 4 Sample.fcb_doomed_dir) /\
   DokanFCBFlagsIsSet (Externals := Sample.externals) Sample.fcb_doomed_dir
     (DOKAN_DELETE_ON_CLOSE (Externals := Sample.externals)) = true /\
   DokanOplockRequest (ext := Sample.externals) batch Sample.state =
     Some ((STATUS_INVALID_PARAMETER, Some batch), Sample.state) /\
   STATUS_INVALID_PARAMETER <> STATUS_DELETE_PENDING) /\
  (IdentityChain Sample.state short (Sample.chain 3 Sample.fcb_doomed) /\
   DokanFCBFlagsIsSet (Externals := Sample.externals) Sample.fcb_doomed
     (DOKAN_DELETE_ON_CLOSE (Externals := Sample.externals)) = true /\
   DokanOplockRequest (ext := Sample.externals) short Sample.state =
     Some ((STATUS_BUFFER_TOO_SMALL, Some short), Sample.state) /\
   STATUS_BUFFER_TOO_SMALL <> STATUS_DELETE_PENDING).
Proof.
  cbv zeta. split.
  - split; [by_computation|].
    repeat split; try (vm_compute; reflexivity). vm_compute. discriminate.
  - split; [by_computation|].
    repeat split; try (vm_compute; reflexivity). vm_compute. discriminate.
Qed.

(** ** The count handed to the oplock package *)

Section ConflictHint.
Context {ext : Externals}.

Lemma OplockCount_hint irp dcb fcb :
  OplockCount irp dcb fcb = hint_of_code irp dcb fcb.
Proof.
  unfold OplockCount, hint_of_code, host_native_locking, locks_block_oplock.
  destruct (FlagOn (MountOptions dcb) DOKAN_EVENT_FILELOCK_USER_MODE);
    [reflexivity|]. simpl.
  destruct (FsRtlOplockIsSharedRequest irp); [|reflexivity].
  destruct (DokanFCBFlagsIsSet fcb DOKAN_FILE_DIRECTORY); [reflexivity|].
  simpl. now destruct DokanFsRtlCheckLockForOplockRequest.
Qed.

(** C1, as the code has it.  A request-class oplock request that is
    handed to the oplock package carries this count: when the volume
    uses host-native locking (DOKAN_EVENT_FILELOCK_USER_MODE clear), 1
    or 0 for a shared request on a node that is not a directory,
    according to whether the byte-range lock state of the node denies
    the oplock, 0 for a shared request on a directory, and the node's
    FileCount for every other request; 0 when byte-range locks are left
    to the user-mode file system.  A level 1 request on a node that is
    not a directory, with FileCount 0 and no blocking byte-range lock,
    is handed over with count 0 under either setting. *)
Theorem conflict_hint_delegated s irp c :
  IdentityChain s irp c ->
  let code := FsControlCode (IoGetCurrentIrpStackLocation irp) in
  let pfcb := c_pfcb c in
  let pvcb := c_pvcb c in
  let fcb := c_fcb c in
  let delegated n :=
    Some ((FsRtlOplockFsctrl (DokanGetFcbOplock fcb) irp n, None),
          after [DokanVCBLockRO pvcb; DokanFCBLockRW pfcb;
                 Call_FsRtlOplockFsctrl (DokanGetFcbOplock fcb) irp n;
                 DokanFCBUnlock pfcb; DokanVCBUnlock pvcb] s) in
  (forall inputBuffer,
   OplockBuffers irp = inr inputBuffer ->
   directory_mismatch irp fcb = false ->
   is_request_class code inputBuffer = true ->
   fails_delete_pending code inputBuffer fcb = false ->
   DokanOplockRequest irp s = delegated (hint_of_code irp (c_dcb c) fcb)) /\
  (code = FSCTL_REQUEST_OPLOCK_LEVEL_1 ->
   DokanFCBFlagsIsSet fcb DOKAN_FILE_DIRECTORY = false ->
   FileCount fcb = 0 ->
   locks_block_oplock fcb = false ->
   DokanOplockRequest irp s = delegated 0).
Proof.
  intros Hc code pfcb pvcb fcb delegated.
  assert (G : forall inputBuffer,
             OplockBuffers irp = inr inputBuffer ->
             directory_mismatch irp fcb = false ->
             is_request_class code inputBuffer = true ->
             fails_delete_pending code inputBuffer fcb = false ->
             DokanOplockRequest irp s =
             delegated (hint_of_code irp (c_dcb c) fcb)).
  { intros ib B D R F. rewrite (DokanOplockRequest_chain _ _ _ Hc).
    rewrite (OplockChecked_request _ _ _ _ _ _ _ B D R).
    fold code. fold fcb. rewrite F, OplockCount_hint. reflexivity. }
  split; [exact G|].
  intros Ecode Ndir Cnt Nlock.
  assert (Z0 : hint_of_code irp (c_dcb c) fcb = 0).
  { unfold hint_of_code. rewrite Ndir, Cnt, Nlock.
    destruct (host_native_locking _), (FsRtlOplockIsSharedRequest irp);
      reflexivity. }
  rewrite <- Z0. apply (G None).
  - apply OplockBuffers_other. fold code. now rewrite Ecode.
  - unfold directory_mismatch. fold fcb. now rewrite Ndir.
  - now rewrite Ecode.
  - unfold fails_delete_pending. now rewrite Ecode.
Qed.

End ConflictHint.

(** Scenario A on the sample store: level 1 on the file nobody has
    open. *)
Lemma conflict_hint_delegated_witness :
  let irp := Sample.request FSCTL_REQUEST_OPLOCK_LEVEL_1 7 None 0 0 in
  DokanOplockRequest (ext := Sample.externals) irp Sample.state =
  Some ((Sample.STATUS_PENDING, None),
        after [DokanVCBLockRO 1; DokanFCBLockRW 7;
               Call_FsRtlOplockFsctrl (OplockHandle 0) irp 0;
               DokanFCBUnlock 7; DokanVCBUnlock 1] Sample.state).
Proof.
  cbv zeta.
  exact (proj2 (conflict_hint_delegated (ext := Sample.externals) Sample.state
                  (Sample.request FSCTL_REQUEST_OPLOCK_LEVEL_1 7 None 0 0)
                  (Sample.chain 7 Sample.fcb_unopened) ltac:(by_computation))
               ltac:(by_computation) ltac:(by_computation)
               ltac:(by_computation) ltac:(by_computation)).
Defined.

(** C1 as stated fails.  On the volume whose byte-range locks are left
    to the user-mode file system (not host-native), a batch request on a
    file with three open handles is handed over with count 0, where the
    specification's wording gives the FileCount, 3.  On the volume with
    host-native locking the same request is handed over with count 3,
    where the wording gives 0. *)
Lemma conflict_hint_counterexample :
  let user := Sample.request FSCTL_REQUEST_BATCH_OPLOCK 6 None 0 0 in
  let native := Sample.request FSCTL_REQUEST_BATCH_OPLOCK 1 None 0 0 in
  (host_native_locking (ext := Sample.externals) Sample.dcb2 = false /\
   hint_as_specified (ext := Sample.externals) user Sample.dcb2
     Sample.fcb_user_locks = 3 /\
   DokanOplockRequest (ext := Sample.externals) user Sample.state =
     Some ((Sample.STATUS_PENDING, None),
           after [DokanVCBLockRO 2; DokanFCBLockRW 6;
                  Call_FsRtlOplockFsctrl (OplockHandle 0) user 0;
                  DokanFCBUnlock 6; DokanVCBUnlock 2] Sample.state)) /\
  (host_native_locking (ext := Sample.externals) Sample.dcb1 = true /\
   hint_as_specified (ext := Sample.externals) native Sample.dcb1
     Sample.fcb_file = 0 /\
   DokanOplockRequest (ext := Sample.externals) native Sample.state =
     Some ((Sample.STATUS_OPLOCK_NOT_GRANTED, None),
           after [DokanVCBLockRO 1; DokanFCBLockRW 1;
                  Call_FsRtlOplockFsctrl (OplockHandle 0) native 3;
                  DokanFCBUnlock 1; DokanVCBUnlock 1] Sample.state)).
Proof. cbv zeta. repeat split; vm_compute; reflexivity. Qed.

(** ** Locks and ownership of the request on every exit path *)

Section ExitPaths.
Context {ext : Externals}.

Lemma DokanOplockRequest_outcome s irp r s' :
  DokanOplockRequest irp s = Some (r, s') ->
  exists delta, s' = after delta s /\ OplockOutcome s irp r delta.
Proof.
  intros K. apply DokanOplockRequest_inv in K as [[-> ->]|(c & Hc & K)].
  { exists []. rewrite after_nil. split; [reflexivity|constructor]. }
  destruct (OplockBuffers irp) as [st|ib] eqn:B.
  { rewrite (OplockChecked_buffers _ _ _ _ _ _ _ B) in K. injection K as <- <-.
    exists []. rewrite after_nil. split; [reflexivity|constructor]. }
  destruct (directory_mismatch irp (c_fcb c)) eqn:D.
  { rewrite (OplockChecked_directory _ _ _ _ _ _ _ B D) in K. injection K as <- <-.
    exists []. rewrite after_nil. split; [reflexivity|constructor]. }
  destruct (is_request_class (FsControlCode (IoGetCurrentIrpStackLocation irp)) ib)
    eqn:R.
  { rewrite (OplockChecked_request _ _ _ _ _ _ _ B D R) in K.
    destruct (fails_delete_pending _ _ _); injection K as <- <-;
      eexists; (split; [reflexivity|]); econstructor; eauto. }
  destruct (is_acknowledge_class
              (FsControlCode (IoGetCurrentIrpStackLocation irp)) ib) eqn:A.
  { rewrite (OplockChecked_acknowledge _ _ _ _ _ _ _ B D R A) in K.
    destruct (fails_delete_pending _ _ _); injection K as <- <-;
      eexists; (split; [reflexivity|]); econstructor; eauto. }
  rewrite (OplockChecked_malformed _ _ _ _ _ _ _ B D R A) in K.
  injection K as <- <-.
  exists []. rewrite after_nil. split; [reflexivity|constructor].
Qed.

(** With a valid identity chain the call returns. *)
Lemma DokanOplockRequest_returns s irp c :
  IdentityChain s irp c -> exists r s', DokanOplockRequest irp s = Some (r, s').
Proof.
  intros Hc. rewrite (DokanOplockRequest_chain _ _ _ Hc).
  destruct (OplockBuffers irp) as [st|ib] eqn:B.
  { rewrite (OplockChecked_buffers _ _ _ _ _ _ _ B). eauto. }
  destruct (directory_mismatch irp (c_fcb c)) eqn:D.
  { rewrite (OplockChecked_directory _ _ _ _ _ _ _ B D). eauto. }
  destruct (is_request_class (FsControlCode (IoGetCurrentIrpStackLocation irp)) ib)
    eqn:R.
  { rewrite (OplockChecked_request _ _ _ _ _ _ _ B D R).
    destruct (fails_delete_pending _ _ _); eauto. }
  destruct (is_acknowledge_class
              (FsControlCode (IoGetCurrentIrpStackLocation irp)) ib) eqn:A.
  { rewrite (OplockChecked_acknowledge _ _ _ _ _ _ _ B D R A).
    destruct (fails_delete_pending _ _ _); eauto. }
  rewrite (OplockChecked_malformed _ _ _ _ _ _ _ B D R A). eauto.
Qed.

End ExitPaths.

Section ExitPathTheorems.
Context {ext : Externals}.

Lemma OplockOutcome_locks s irp r delta :
  OplockOutcome s irp r delta -> lock_stack [] delta = Some [].
Proof.
  intros O. destruct O; simpl; rewrite ?Z.eqb_refl; reflexivity.
Qed.

(** C5.  Every call of [DokanOplockRequest] that returns has left the
    store as it was and added to the trace a sequence in which each lock
    taken is released once, last taken first, and nothing is released
    that was not taken: no lock event at all, or Vcb shared, Fcb
    exclusive, Fcb unlock, Vcb unlock for a request, or Fcb shared, Fcb
    unlock for an acknowledgement, whatever status the oplock package
    reported in between.  With a valid identity chain the call does
    return. *)
Theorem oplock_locks_balanced s irp :
  (forall c, IdentityChain s irp c ->
     exists r s', DokanOplockRequest irp s = Some (r, s')) /\
  (forall r s', DokanOplockRequest irp s = Some (r, s') ->
     exists delta,
       s' = after delta s /\
       lock_stack [] delta = Some [] /\
       (lock_events delta = [] \/
        exists c inputBuffer,
          IdentityChain s irp c /\ OplockBuffers irp = inr inputBuffer /\
          let code := FsControlCode (IoGetCurrentIrpStackLocation irp) in
          ((is_request_class code inputBuffer = true /\
            lock_events delta =
              [DokanVCBLockRO (c_pvcb c); DokanFCBLockRW (c_pfcb c);
               DokanFCBUnlock (c_pfcb c); DokanVCBUnlock (c_pvcb c)]) \/
           (is_request_class code inputBuffer = false /\
            is_acknowledge_class code inputBuffer = true /\
            lock_events delta =
              [DokanFCBLockRO (c_pfcb c); DokanFCBUnlock (c_pfcb c)])))).
Proof.
  split; [apply DokanOplockRequest_returns|].
  intros r s' K. apply DokanOplockRequest_outcome in K as (delta & -> & O).
  exists delta. split; [reflexivity|]. split; [eapply OplockOutcome_locks; eauto|].
  destruct O as [st|c ib Hc B R|c ib n Hc B R|c ib Hc B R A|c ib Hc B R A].
  - now left.
  - right. exists c, ib. split; [exact Hc|]. split; [exact B|]. left. now split.
  - right. exists c, ib. split; [exact Hc|]. split; [exact B|]. left. now split.
  - right. exists c, ib. split; [exact Hc|]. split; [exact B|]. right. now split.
  - right. exists c, ib. split; [exact Hc|]. split; [exact B|]. right. now split.
Qed.

Lemma Forall_not_oplock_call delta :
  Forall not_oplock_call delta -> existsb is_oplock_call delta = false.
Proof.
  induction 1 as [|e l Pe _ IH]; [reflexivity|].
  simpl. rewrite IH. now destruct e.
Qed.

Lemma DokanOplockRequest_pointer s irp st p s' :
  DokanOplockRequest irp s = Some ((st, p), s') ->
  exists delta,
    s' = after delta s /\
    ((exists oplock n,
        In (Call_FsRtlOplockFsctrl oplock irp n) delta /\
        existsb is_oplock_call delta = true /\
        st = FsRtlOplockFsctrl oplock irp n /\ p = None) \/
     (existsb is_oplock_call delta = false /\ p = Some irp)).
Proof.
  intros K. apply DokanOplockRequest_outcome in K as (delta & -> & O).
  exists delta. split; [reflexivity|].
  inversion O; subst; try (right; now split); left; eexists _, _;
    (split; [simpl; tauto|]); now repeat split.
Qed.

Lemma DokanUserFsRequest_pointer dev s irp st p s' :
  DokanUserFsRequest dev irp s = Some ((st, p), s') ->
  exists delta,
    trace s' = trace s ++ delta /\
    ((existsb is_oplock_call delta = true /\ p = None) \/
     (existsb is_oplock_call delta = false /\ p = Some irp)).
Proof.
  assert (ViaOplock : DokanOplockRequest irp s = Some ((st, p), s') ->
    exists delta, trace s' = trace s ++ delta /\
      ((existsb is_oplock_call delta = true /\ p = None) \/
       (existsb is_oplock_call delta = false /\ p = Some irp))).
  { intros K. apply DokanOplockRequest_pointer in K as (delta & -> & C).
    exists delta. split; [reflexivity|].
    destruct C as [(o & n & _ & E & _ & ->)|[E ->]]; [now left|now right]. }
  assert (Other : forall m : M (NTSTATUS * option IRP),
    Emits not_oplock_call (fun r => snd r = Some irp) m ->
    m s = Some ((st, p), s') ->
    exists delta, trace s' = trace s ++ delta /\
      ((existsb is_oplock_call delta = true /\ p = None) \/
       (existsb is_oplock_call delta = false /\ p = Some irp))).
  { intros m Hm K. apply Hm in K as (Rp & delta & T & F). simpl in Rp.
    exists delta. split; [exact T|]. right.
    split; [now apply Forall_not_oplock_call|exact Rp]. }
  unfold DokanUserFsRequest.
  destruct (FsControlCode (IoGetCurrentIrpStackLocation irp)); try exact ViaOplock.
  - apply Other, ActivateKeepalive_emits.
  - apply Other, NotifyPath_emits.
  - apply Other. now apply Emits_ret.
  - apply Other. now apply Emits_ret.
  - apply Other. now apply Emits_ret.
  - apply Other. now apply Emits_ret.
  - apply Other. now apply Emits_ret.
Qed.

(** C8.  A call of [DokanOplockRequest] that hands the request to the
    oplock package returns with the caller's pointer set to NULL,
    whatever status the package reported, and that status is the one
    returned; a call that returns without reaching the package leaves
    the pointer on the request.  In [DokanDispatchFileSystemControl]
    the completion routine is therefore given NULL, not the request,
    whenever the oplock package was called.  With a valid identity
    chain [DokanOplockRequest] does return. *)
Theorem delegated_request_not_completed s irp :
  (forall st p s', DokanOplockRequest irp s = Some ((st, p), s') ->
     exists delta,
       s' = after delta s /\
       ((exists oplock n,
           In (Call_FsRtlOplockFsctrl oplock irp n) delta /\
           existsb is_oplock_call delta = true /\
           st = FsRtlOplockFsctrl oplock irp n /\ p = None) \/
        (existsb is_oplock_call delta = false /\ p = Some irp))) /\
  (forall dev st s', DokanDispatchFileSystemControl dev irp s = Some (st, s') ->
     exists delta p,
       trace s' = trace s ++ delta ++ [Call_DokanCompleteIrpRequest p st] /\
       ((existsb is_oplock_call delta = true /\ p = None) \/
        (existsb is_oplock_call delta = false /\ p = Some irp))) /\
  (forall c, IdentityChain s irp c ->
     exists r s', DokanOplockRequest irp s = Some (r, s')).
Proof.
  split; [apply DokanOplockRequest_pointer|]. split;
    [|apply DokanOplockRequest_returns].
  intros dev st s' K. unfold DokanDispatchFileSystemControl in K.
  apply bind_inv in K as ([st1 p] & s1 & K1 & K2).
  rewrite bind_emit, ret_run in K2. cbn [fst snd] in K2. injection K2 as <- <-.
  assert (G : exists delta, trace s1 = trace s ++ delta /\
    ((existsb is_oplock_call delta = true /\ p = None) \/
     (existsb is_oplock_call delta = false /\ p = Some irp))).
  { destruct (MinorFunction (IoGetCurrentIrpStackLocation irp) =?
              IRP_MN_MOUNT_VOLUME).
    - apply bind_inv in K1 as (st2 & s2 & M1 & M2). injection M2 as <- <- <-.
      apply DokanMountVolume_emits in M1 as (_ & delta & T & F).
      exists delta. split; [exact T|]. right.
      split; [now apply Forall_not_oplock_call|reflexivity].
    - destruct (MinorFunction (IoGetCurrentIrpStackLocation irp) =?
                IRP_MN_USER_FS_REQUEST).
      + now apply DokanUserFsRequest_pointer in K1.
      + injection K1 as <- <- <-. exists []. rewrite app_nil_r.
        split; [reflexivity|]. now right. }
  destruct G as (delta & T & C). exists delta, p. split; [|exact C].
  rewrite trace_after, T. now rewrite app_assoc.
Qed.

End ExitPathTheorems.

(** The level 1 request of scenario A: both locks taken and released
    around the call of the oplock package. *)
Lemma oplock_locks_balanced_witness :
  let irp := Sample.request FSCTL_REQUEST_OPLOCK_LEVEL_1 7 None 0 0 in
  exists delta,
    after [DokanVCBLockRO 1; DokanFCBLockRW 7;
           Call_FsRtlOplockFsctrl (OplockHandle 0) irp 0;
           DokanFCBUnlock 7; DokanVCBUnlock 1] Sample.state =
      after delta Sample.state /\
    lock_stack [] delta = Some [].
Proof.
  cbv zeta.
  destruct (proj2 (oplock_locks_balanced (ext := Sample.externals) Sample.state
                     (Sample.request FSCTL_REQUEST_OPLOCK_LEVEL_1 7 None 0 0))
                  (Sample.STATUS_PENDING, None)
                  (after [DokanVCBLockRO 1; DokanFCBLockRW 7;
                          Call_FsRtlOplockFsctrl (OplockHandle 0)
                            (Sample.request FSCTL_REQUEST_OPLOCK_LEVEL_1 7 None 0 0) 0;
                          DokanFCBUnlock 7; DokanVCBUnlock 1] Sample.state)
                  ltac:(vm_compute; reflexivity))
    as (delta & E & L & _).
  exists delta. split; [exact E | exact L].
Defined.

(** The same request, seen from the caller: the pointer comes back
    NULL. *)
Lemma delegated_request_not_completed_witness :
  let irp := Sample.request FSCTL_REQUEST_OPLOCK_LEVEL_1 7 None 0 0 in
  let s' := after [DokanVCBLockRO 1; DokanFCBLockRW 7;
                   Call_FsRtlOplockFsctrl (OplockHandle 0) irp 0;
                   DokanFCBUnlock 7; DokanVCBUnlock 1] Sample.state in
  exists delta,
    s' = after delta Sample.state /\
    ((exists oplock n,
        In (Call_FsRtlOplockFsctrl oplock irp n) delta /\
        existsb is_oplock_call delta = true /\
        Sample.STATUS_PENDING =
          FsRtlOplockFsctrl (Externals := Sample.externals) oplock irp n /\
        @None IRP = None) \/
     (existsb is_oplock_call delta = false /\ None = Some irp)).
Proof.
  cbv zeta.
  apply (proj1 (delegated_request_not_completed (ext := Sample.externals)
                  Sample.state
                  (Sample.request FSCTL_REQUEST_OPLOCK_LEVEL_1 7 None 0 0))).
  vm_compute. reflexivity.
Defined.

(** ** Routing of the simple control codes *)

Section Routing.
Context {ext : Externals}.

(** C9.  [DokanUserFsRequest] answers FSCTL_LOCK_VOLUME,
    FSCTL_UNLOCK_VOLUME and FSCTL_IS_VOLUME_MOUNTED with STATUS_SUCCESS,
    FSCTL_GET_REPARSE_POINT with STATUS_NOT_A_REPARSE_POINT, and any
    code that is none of the named ones with
    STATUS_INVALID_DEVICE_REQUEST; in each case it returns, the store
    and the trace are as before and the caller keeps the request. *)
Theorem simple_codes_routed DeviceObject irp s :
  let code := FsControlCode (IoGetCurrentIrpStackLocation irp) in
  (code = FSCTL_LOCK_VOLUME \/ code = FSCTL_UNLOCK_VOLUME \/
   code = FSCTL_IS_VOLUME_MOUNTED ->
   DokanUserFsRequest DeviceObject irp s = Some ((STATUS_SUCCESS, Some irp), s)) /\
  (code = FSCTL_GET_REPARSE_POINT ->
   DokanUserFsRequest DeviceObject irp s =
     Some ((STATUS_NOT_A_REPARSE_POINT, Some irp), s)) /\
  (forall raw, code = FSCTL_OTHER raw ->
   DokanUserFsRequest DeviceObject irp s =
     Some ((STATUS_INVALID_DEVICE_REQUEST, Some irp), s)).
Proof.
  intros code. unfold DokanUserFsRequest. fold code. split; [|split].
  - intros [E|[E|E]]; rewrite E; reflexivity.
  - intros E. rewrite E. reflexivity.
  - intros raw E. rewrite E. reflexivity.
Qed.

End Routing.

(** A control code the driver does not know, 0x90020. *)
Lemma simple_codes_routed_witness :
  let irp := Sample.request (FSCTL_OTHER 0x90020) 1 None 0 0 in
  DokanUserFsRequest (ext := Sample.externals) 11 irp Sample.state =
  Some ((STATUS_INVALID_DEVICE_REQUEST, Some irp), Sample.state).
Proof.
  cbv zeta.
  exact (proj2 (proj2 (simple_codes_routed (ext := Sample.externals) 11
                         (Sample.request (FSCTL_OTHER 0x90020) 1 None 0 0)
                         Sample.state))
               0x90020 ltac:(reflexivity)).
Defined.

(** ** Keepalive activation *)

Section Keepalive.
Context {ext : Externals}.

Lemma ActivateKeepalive_run s irp h :
  KeepaliveChain s irp h ->
  ActivateKeepalive irp s =
  if negb (IsKeepalive (h_fcb h)) then
    Some ((STATUS_INVALID_PARAMETER, Some irp), s)
  else if IsKeepaliveActive (h_vcb h) && negb (ccb_IsKeepaliveActive (h_ccb h))
  then Some ((STATUS_INVALID_PARAMETER, Some irp), s)
  else Some ((STATUS_SUCCESS, Some irp), keepalive_activated s h).
Proof.
  intros (Hfo & Hctx & Hccb & Tccb & Hf & Hfcb & Tfcb & Hv & Hvcb).
  unfold ActivateKeepalive. rewrite Hfo, Hctx.
  rewrite (bind_Some _ _ _ _ _ (checked_Some _ _ _ _ _ _ Hccb Tccb)).
  rewrite Hf, (bind_Some _ _ _ _ _ (checked_Some _ _ _ _ _ _ Hfcb Tfcb)).
  destruct (IsKeepalive (h_fcb h)); [|reflexivity]. cbn [negb].
  rewrite Hv. cbn [deref]. rewrite bind_ret.
  rewrite (bind_Some _ _ _ _ _ (load_Some _ _ _ _ Hvcb)).
  destruct (IsKeepaliveActive (h_vcb h) && negb (ccb_IsKeepaliveActive (h_ccb h)));
    [reflexivity|].
  rewrite bind_emit. unfold store_ccb_IsKeepaliveActive, store_vcb_IsKeepaliveActive.
  rewrite !bind_assoc.
  rewrite (bind_load_Some ccbs _ (h_ccb h)) by exact Hccb.
  rewrite !bind_assoc, bind_modify, bind_emit, !bind_assoc.
  rewrite (bind_load_Some vcbs _ (h_vcb h)) by exact Hvcb.
  rewrite !bind_assoc, bind_modify, !bind_emit, ret_run.
  unfold keepalive_activated, after, set_trace, set_vcbs, set_ccbs.
  cbn [trace devices dcbs vcbs fcbs ccbs vpbs MountEntryList].
  now rewrite <- !app_assoc.
Qed.

Lemma ActivateKeepalive_inv s irp r s' :
  ActivateKeepalive irp s = Some (r, s') ->
  (r = (STATUS_INVALID_PARAMETER, Some irp) /\ s' = s) \/
  exists h, KeepaliveChain s irp h /\ IsKeepalive (h_fcb h) = true /\
    IsKeepaliveActive (h_vcb h) && negb (ccb_IsKeepaliveActive (h_ccb h)) = false /\
    r = (STATUS_SUCCESS, Some irp) /\ s' = keepalive_activated s h.
Proof.
  intros K. pose proof K as K0. unfold ActivateKeepalive in K.
  destruct (FileObject (IoGetCurrentIrpStackLocation irp)) as [fo|] eqn:Efo;
    [|injection K as <- <-; now left].
  apply bind_inv in K as (occb & s1 & C1 & K).
  apply checked_inv in C1 as [-> [->|(pccb & ccb & Hctx & Hccb & Tccb & ->)]];
    [injection K as <- <-; now left|].
  apply bind_inv in K as (ofcb & s2 & C2 & K).
  apply checked_inv in C2 as [-> [->|(pfcb & fcb & Hf & Hfcb & Tfcb & ->)]];
    [injection K as <- <-; now left|].
  destruct (IsKeepalive fcb) eqn:Ek; [|injection K as <- <-; now left].
  cbn [negb] in K.
  apply bind_inv in K as (pvcb & s3 & D & K).
  destruct (fcb_Vcb fcb) as [pvcb'|] eqn:Hv; [|discriminate].
  injection D as <- <-.
  apply bind_inv in K as (vcb & s4 & L & _). apply load_inv in L as [Hvcb _].
  assert (Hh : KeepaliveChain s irp (mkHandle fo pccb ccb pfcb fcb pvcb' vcb))
    by now repeat split.
  rewrite (ActivateKeepalive_run _ _ _ Hh) in K0. cbn [h_fcb h_vcb h_ccb] in K0.
  rewrite Ek in K0. cbn [negb] in K0.
  destruct (IsKeepaliveActive vcb && negb (ccb_IsKeepaliveActive ccb)) eqn:Eb;
    injection K0 as <- <-; [now left|].
  right. exists (mkHandle fo pccb ccb pfcb fcb pvcb' vcb). now repeat split.
Qed.

End Keepalive.

(** ** Computations that only add to the trace *)

Lemma OnlyEmits_ret {A : Type} (a : A) : OnlyEmits (ret a).
Proof. intros s b s' [= <- <-]. exists []. now rewrite after_nil. Qed.

Lemma OnlyEmits_fault {A : Type} : OnlyEmits (@fault A).
Proof. intros s a s' K. discriminate K. Qed.

Lemma OnlyEmits_emit e : OnlyEmits (emit e).
Proof. intros s a s' [= <- <-]. now exists [e]. Qed.

Lemma OnlyEmits_bind {A B : Type} (m : M A) (k : A -> M B) :
  OnlyEmits m -> (forall a, OnlyEmits (k a)) -> OnlyEmits (bind m k).
Proof.
  intros Hm Hk s b s' K. apply bind_inv in K as (a & s1 & E1 & E2).
  apply Hm in E1 as (d1 & ->). apply Hk in E2 as (d2 & ->).
  exists (d1 ++ d2). apply after_after.
Qed.

Lemma OnlyEmits_checked {A : Type} (tbl : State -> gmap Z A) tag T p :
  OnlyEmits (checked tbl tag T p).
Proof.
  intros s x s' K. apply checked_inv in K as [-> _].
  exists []. now rewrite after_nil.
Qed.

Lemma OnlyEmits_when b m : OnlyEmits m -> OnlyEmits (when_ b m).
Proof. destruct b; [easy|]. intros _. apply OnlyEmits_ret. Qed.

Ltac only_emits_step :=
  match goal with
  | |- OnlyEmits (bind _ _) => apply OnlyEmits_bind; [|intros ?]
  | |- OnlyEmits (ret _) => apply OnlyEmits_ret
  | |- OnlyEmits (emit _) => apply OnlyEmits_emit
  | |- OnlyEmits (when_ _ _) => apply OnlyEmits_when
  | |- OnlyEmits (checked _ _ _ _) => apply OnlyEmits_checked
  | |- OnlyEmits fault => apply OnlyEmits_fault
  | |- OnlyEmits (match ?x with _ => _ end) => destruct x
  | |- OnlyEmits (let (_, _) := ?x in _) => destruct x
  end.

Section KeepaliveSteps.
Context {ext : Externals}.

Lemma NotifyPath_only_emits irp : OnlyEmits (NotifyPath irp).
Proof. unfold NotifyPath. repeat only_emits_step. Qed.

Lemma DokanUserFsRequest_step dev irp s r s' :
  DokanUserFsRequest dev irp s = Some (r, s') ->
  (exists delta, s' = after delta s) \/
  exists h, KeepaliveChain s irp h /\
    IsKeepaliveActive (h_vcb h) && negb (ccb_IsKeepaliveActive (h_ccb h)) = false /\
    s' = keepalive_activated s h.
Proof.
  assert (ViaOplock : DokanOplockRequest irp s = Some (r, s') ->
                   exists delta, s' = after delta s).
  { intros K. apply DokanOplockRequest_outcome in K as (delta & -> & _).
    now exists delta. }
  assert (Simple : forall x, ret x s = Some (r, s') ->
                   exists delta : list Event, s' = after delta s).
  { intros x K. now apply OnlyEmits_ret in K. }
  unfold DokanUserFsRequest.
  destruct (FsControlCode (IoGetCurrentIrpStackLocation irp));
    try (intros K; left; now apply ViaOplock);
    try (intros K; left; now apply Simple in K).
  - intros K. apply ActivateKeepalive_inv in K as [[_ ->]|(h & Hh & _ & Hb & _ & ->)].
    + left. exists []. now rewrite after_nil.
    + right. now exists h.
  - intros K. left. now apply NotifyPath_only_emits in K.
Qed.

End KeepaliveSteps.

Section KeepaliveInvariant.
Context {ext : Externals}.

Lemma volume_of_chain s irp h :
  KeepaliveChain s irp h -> volume_of s (h_pccb h) = Some (h_pvcb h).
Proof.
  intros (_ & _ & Hccb & _ & Hf & Hfcb & _ & Hv & _).
  unfold volume_of. now rewrite Hccb, Hf, Hfcb.
Qed.

Lemma volume_of_activated s irp h p :
  KeepaliveChain s irp h ->
  volume_of (keepalive_activated s h) p = volume_of s p.
Proof.
  intros (_ & _ & Hccb & _ & Hf & Hfcb & _ & Hv & _).
  unfold volume_of, keepalive_activated. cbn [ccbs fcbs].
  destruct (decide (h_pccb h = p)) as [<-|N].
  - rewrite lookup_insert_eq, Hccb. reflexivity.
  - now rewrite lookup_insert_ne.
Qed.

Lemma holds_keepalive_activated s h p :
  holds_keepalive (keepalive_activated s h) p ->
  p = h_pccb h \/ holds_keepalive s p.
Proof.
  intros (c & L & A). unfold keepalive_activated in L. cbn [ccbs] in L.
  destruct (decide (h_pccb h = p)) as [<-|N]; [now left|].
  rewrite lookup_insert_ne in L by exact N. right. now exists c.
Qed.

Lemma vcbs_activated s h v vcb :
  vcbs s !! v = Some vcb -> IsKeepaliveActive vcb = true ->
  exists vcb', vcbs (keepalive_activated s h) !! v = Some vcb' /\
               IsKeepaliveActive vcb' = true.
Proof.
  intros L A. unfold keepalive_activated. cbn [vcbs].
  destruct (decide (h_pvcb h = v)) as [<-|N].
  - rewrite lookup_insert_eq. now eexists.
  - rewrite lookup_insert_ne by exact N. now exists vcb.
Qed.

Lemma holders_activated s irp h :
  KeepaliveChain s irp h ->
  holders_on_active_volumes s ->
  holders_on_active_volumes (keepalive_activated s h).
Proof.
  intros Hh J p Hp. rewrite (volume_of_activated _ _ _ _ Hh).
  destruct (holds_keepalive_activated _ _ _ Hp) as [->|Hs].
  - exists (h_pvcb h), (vcb_activated (h_vcb h)).
    split; [now apply (volume_of_chain _ irp)|]. split; [|reflexivity].
    unfold keepalive_activated. cbn [vcbs]. apply lookup_insert_eq.
  - destruct (J p Hs) as (v & vcb & Ev & Lv & Av). exists v.
    destruct (vcbs_activated s h v vcb Lv Av) as (vcb' & L' & A').
    now exists vcb'.
Qed.

(** A handle other than the activating one that already holds keepalive
    on the same volume forces the volume's flag to be set, so the
    activating handle itself must hold keepalive already. *)
Lemma activating_handle_is_holder s irp h p :
  KeepaliveChain s irp h ->
  IsKeepaliveActive (h_vcb h) && negb (ccb_IsKeepaliveActive (h_ccb h)) = false ->
  holders_on_active_volumes s ->
  holds_keepalive s p -> volume_of s p = Some (h_pvcb h) ->
  holds_keepalive s (h_pccb h).
Proof.
  intros Hh Hb J Hp Ev.
  destruct (J p Hp) as (v & vcb & Ev' & Lv & Av).
  rewrite Ev in Ev'. injection Ev' as <-.
  destruct Hh as (_ & _ & Hccb & _ & _ & _ & _ & _ & Hvcb).
  rewrite Hvcb in Lv. injection Lv as <-. rewrite Av in Hb. simpl in Hb.
  exists (h_ccb h). split; [exact Hccb|].
  now destruct (ccb_IsKeepaliveActive (h_ccb h)).
Qed.

Lemma one_keepalive_activated s irp h :
  KeepaliveChain s irp h ->
  IsKeepaliveActive (h_vcb h) && negb (ccb_IsKeepaliveActive (h_ccb h)) = false ->
  holders_on_active_volumes s ->
  one_keepalive_per_volume s ->
  one_keepalive_per_volume (keepalive_activated s h).
Proof.
  intros Hh Hb J U p1 p2 v H1 H2 E1 E2.
  rewrite (volume_of_activated _ _ _ p1 Hh) in E1.
  rewrite (volume_of_activated _ _ _ p2 Hh) in E2.
  pose proof (volume_of_chain _ _ _ Hh) as Eh.
  destruct (holds_keepalive_activated _ _ _ H1) as [->|S1],
           (holds_keepalive_activated _ _ _ H2) as [->|S2].
  - reflexivity.
  - rewrite Eh in E1. injection E1 as <-.
    apply (U _ _ (h_pvcb h)); try assumption.
    now apply (activating_handle_is_holder s irp h p2).
  - rewrite Eh in E2. injection E2 as <-.
    apply (U _ _ (h_pvcb h)); try assumption.
    now apply (activating_handle_is_holder s irp h p1).
  - now apply (U _ _ v).
Qed.

Lemma reachable_in_turn_invariant s :
  reachable_in_turn s ->
  holders_on_active_volumes s /\ one_keepalive_per_volume s.
Proof.
  induction 1 as [s Hnone|s dev irp r s' _ [J U] K].
  - split.
    + intros p Hp. now destruct (Hnone p).
    + intros p1 p2 v Hp. now destruct (Hnone p1).
  - apply DokanUserFsRequest_step in K as [(delta & ->)|(h & Hh & Hb & ->)].
    + now split.
    + split; [now apply (holders_activated s irp)|].
      now apply (one_keepalive_activated s irp).
Qed.

Lemma keepalive_activated_same s h :
  ccbs s !! h_pccb h = Some (h_ccb h) ->
  vcbs s !! h_pvcb h = Some (h_vcb h) ->
  ccb_IsKeepaliveActive (h_ccb h) = true ->
  IsKeepaliveActive (h_vcb h) = true ->
  keepalive_activated s h =
  after [DokanFCBLockRW (h_pfcb h); Store_ccb_IsKeepaliveActive (h_pccb h);
         Store_vcb_IsKeepaliveActive (h_pvcb h); DokanFCBUnlock (h_pfcb h)] s.
Proof.
  intros Lc Lv Ac Av. unfold keepalive_activated, after, set_trace.
  assert (Ec : ccb_activated (h_ccb h) = h_ccb h).
  { unfold ccb_activated. destruct (h_ccb h). simpl in Ac. now rewrite Ac. }
  assert (Ev : vcb_activated (h_vcb h) = h_vcb h).
  { unfold vcb_activated. destruct (h_vcb h). simpl in Av. now rewrite Av. }
  rewrite Ec, Ev, (insert_id _ _ _ Lc), (insert_id _ _ _ Lv). reflexivity.
Qed.

End KeepaliveInvariant.

Section KeepaliveTheorem.
Context {ext : Externals}.

(** X27.  FSCTL_ACTIVATE_KEEPALIVE on a handle whose chain resolves,
    the call running alone: when the volume's IsKeepaliveActive is set
    and the handle's own is not, the call returns
    STATUS_INVALID_PARAMETER and store and trace are as before; when
    both are set, and the file is the keepalive file, the call returns
    STATUS_SUCCESS and the store is as before, the trace showing the
    two stores between the exclusive lock of the Fcb and its release; a
    call that returns STATUS_SUCCESS leaves both flags set, written
    under that lock.  As long as control requests run one after the
    other, each returning before the next starts, from a store without
    keepalive holders, two handles that hold keepalive on the same
    volume are the same handle. *)
Theorem keepalive_activation_in_turn :
  (forall DeviceObject s irp h,
     FsControlCode (IoGetCurrentIrpStackLocation irp) = FSCTL_ACTIVATE_KEEPALIVE ->
     KeepaliveChain s irp h ->
     (IsKeepaliveActive (h_vcb h) = true ->
      ccb_IsKeepaliveActive (h_ccb h) = false ->
      DokanUserFsRequest DeviceObject irp s =
        Some ((STATUS_INVALID_PARAMETER, Some irp), s)) /\
     (IsKeepalive (h_fcb h) = true ->
      IsKeepaliveActive (h_vcb h) = true ->
      ccb_IsKeepaliveActive (h_ccb h) = true ->
      DokanUserFsRequest DeviceObject irp s =
        Some ((STATUS_SUCCESS, Some irp),
              after [DokanFCBLockRW (h_pfcb h);
                     Store_ccb_IsKeepaliveActive (h_pccb h);
                     Store_vcb_IsKeepaliveActive (h_pvcb h);
                     DokanFCBUnlock (h_pfcb h)] s)) /\
     (forall p s',
      DokanUserFsRequest DeviceObject irp s = Some ((STATUS_SUCCESS, p), s') ->
      s' = keepalive_activated s h /\
      ccbs s' !! h_pccb h = Some (ccb_activated (h_ccb h)) /\
      vcbs s' !! h_pvcb h = Some (vcb_activated (h_vcb h)))) /\
  (forall s, reachable_in_turn s -> one_keepalive_per_volume s).
Proof.
  split; [|intros s R; now apply reachable_in_turn_invariant].
  intros dev s irp h Ecode Hh. unfold DokanUserFsRequest. rewrite Ecode.
  rewrite (ActivateKeepalive_run _ _ _ Hh). split; [|split].
  - intros Av Ac. rewrite Av, Ac. now destruct (IsKeepalive (h_fcb h)).
  - intros Ek Av Ac. rewrite Ek, Av, Ac. cbn [negb andb].
    destruct Hh as (_ & _ & Hccb & _ & _ & _ & _ & _ & Hvcb).
    now rewrite keepalive_activated_same.
  - intros p s' K.
    destruct (negb (IsKeepalive (h_fcb h))); [discriminate K|].
    destruct (IsKeepaliveActive (h_vcb h) && negb (ccb_IsKeepaliveActive (h_ccb h)));
      [discriminate K|].
    injection K as <- <-. split; [reflexivity|].
    unfold keepalive_activated. cbn [ccbs vcbs].
    now rewrite !lookup_insert_eq.
Qed.

End KeepaliveTheorem.

(** A second handle asks for keepalive on the volume handle 5 holds. *)
Lemma keepalive_activation_in_turn_witness :
  let irp := Sample.request FSCTL_ACTIVATE_KEEPALIVE 15 None 0 0 in
  DokanUserFsRequest (ext := Sample.externals) 11 irp SampleKeepalive.kept =
  Some ((STATUS_INVALID_PARAMETER, Some irp), SampleKeepalive.kept).
Proof.
  cbv zeta.
  exact (proj1 (proj1 (keepalive_activation_in_turn (ext := Sample.externals))
                      11 SampleKeepalive.kept
                      (Sample.request FSCTL_ACTIVATE_KEEPALIVE 15 None 0 0)
                      SampleKeepalive.second
                      ltac:(reflexivity) ltac:(by_computation))
               ltac:(reflexivity) ltac:(reflexivity)).
Defined.

(** ** Keepalive activations that overlap *)

Lemma bind_ext {A B : Type} (m : M A) (k k' : A -> M B) s :
  (forall a s1, m s = Some (a, s1) -> k a s1 = k' a s1) ->
  bind m k s = bind m k' s.
Proof. intros E. unfold bind. destruct (m s) as [[a s1]|]; auto. Qed.

(** The two parts, one after the other, are the case as
    [DokanUserFsRequest] runs it. *)
Lemma ActivateKeepalive_parts irp s :
  ActivateKeepalive irp s =
  (let* g := KeepaliveGuard irp in
   match g with
   | inl status => ret (status, Some irp)
   | inr (pccb, pfcb, pvcb) =>
       let* status := KeepaliveLocked pccb pfcb pvcb in
       ret (status, Some irp)
   end) s.
Proof.
  unfold ActivateKeepalive, KeepaliveGuard.
  destruct (FileObject (IoGetCurrentIrpStackLocation irp)) as [fo|];
    [|reflexivity].
  rewrite bind_assoc. apply bind_ext. intros [[pccb ccb]|] s1 _; [|reflexivity].
  rewrite bind_assoc. apply bind_ext. intros [[pfcb fcb]|] s2 _; [|reflexivity].
  destruct (IsKeepalive fcb); [|reflexivity]. cbn [negb].
  rewrite bind_assoc. apply bind_ext. intros pvcb s3 _.
  rewrite bind_assoc. apply bind_ext. intros vcb s4 _.
  destruct (IsKeepaliveActive vcb && negb (ccb_IsKeepaliveActive ccb));
    [reflexivity|].
  rewrite bind_ret. unfold KeepaliveLocked. rewrite !bind_assoc.
  repeat (apply bind_ext; intros ? ? _; rewrite ?bind_assoc).
  reflexivity.
Qed.

(** A thread that is not interrupted runs the case as a whole. *)
Lemma bind_None {A B : Type} (m : M A) (k : A -> M B) s :
  m s = None -> bind m k s = None.
Proof. intros E. unfold bind. now rewrite E. Qed.

Lemma run_schedule_alone irp s :
  run_schedule [0; 0]%nat [Entered irp] s =
  match ActivateKeepalive irp s with
  | Some ((status, _), s') => Some ([Returned irp status], s')
  | None => None
  end.
Proof.
  rewrite ActivateKeepalive_parts. cbn [run_schedule].
  change ([Entered irp] !! 0%nat) with (Some (Entered irp)).
  cbn [activation_step]. rewrite bind_assoc.
  destruct (KeepaliveGuard irp s) as [[[status|[[pccb pfcb] pvcb]] s1]|] eqn:G.
  - rewrite (bind_Some _ _ _ _ _ G). rewrite (bind_Some _ _ _ _ _ G).
    reflexivity.
  - rewrite (bind_Some _ _ _ _ _ G). rewrite (bind_Some _ _ _ _ _ G).
    rewrite bind_ret.
    change (<[0%nat:=BeforeLock irp pccb pfcb pvcb]> [Entered irp] !! 0%nat)
      with (Some (BeforeLock irp pccb pfcb pvcb)).
    cbn [activation_step]. rewrite bind_assoc.
    destruct (KeepaliveLocked pccb pfcb pvcb s1) as [[status s2]|] eqn:L.
    + rewrite (bind_Some _ _ _ _ _ L). rewrite (bind_Some _ _ _ _ _ L).
      reflexivity.
    + rewrite (bind_None _ _ _ L). rewrite (bind_None _ _ _ L). reflexivity.
  - rewrite (bind_None _ _ _ G). rewrite (bind_None _ _ _ G). reflexivity.
Qed.

(** C6.  Two activations that overlap.  In the sample store no handle
    holds keepalive, and handles 5 and 15 are both open on the
    keepalive file of volume 1.  When each of the two requests has
    passed the test of line 336 before the other takes the lock of line
    346, both return STATUS_SUCCESS: the two locked parts follow one
    another in the trace, and afterwards handle 5 and handle 15 both
    hold keepalive on volume 1, two holders on one volume.  Run one
    after the other, the same requests end in STATUS_SUCCESS and
    STATUS_INVALID_PARAMETER. *)
Theorem keepalive_overlapping_activations :
  let threads :=
    [Entered SampleKeepalive.request5; Entered SampleKeepalive.request15] in
  let s' := keepalive_activated SampleKeepalive.kept SampleKeepalive.second in
  (forall p, ~ holds_keepalive Sample.state p) /\
  run_schedule [0; 1; 0; 1]%nat threads
    Sample.state =
    Some ([Returned SampleKeepalive.request5 STATUS_SUCCESS;
           Returned SampleKeepalive.request15 STATUS_SUCCESS], s') /\
  trace s' =
    [DokanFCBLockRW 5; Store_ccb_IsKeepaliveActive 5;
     Store_vcb_IsKeepaliveActive 1; DokanFCBUnlock 5;
     DokanFCBLockRW 5; Store_ccb_IsKeepaliveActive 15;
     Store_vcb_IsKeepaliveActive 1; DokanFCBUnlock 5] /\
  holds_keepalive s' 5 /\ holds_keepalive s' 15 /\
  volume_of s' 5 = Some 1 /\ volume_of s' 15 = Some 1 /\
  ~ one_keepalive_per_volume s' /\
  run_schedule [0; 0; 1; 1]%nat threads
    Sample.state =
    Some ([Returned SampleKeepalive.request5 STATUS_SUCCESS;
           Returned SampleKeepalive.request15 STATUS_INVALID_PARAMETER],
          SampleKeepalive.kept).
Proof.
  cbv zeta.
  assert (H5 : holds_keepalive
                 (keepalive_activated SampleKeepalive.kept
                    SampleKeepalive.second) 5)
    by (eexists; split; vm_compute; reflexivity).
  assert (H15 : holds_keepalive
                  (keepalive_activated SampleKeepalive.kept
                     SampleKeepalive.second) 15)
    by (eexists; split; vm_compute; reflexivity).
  assert (V5 : volume_of (keepalive_activated SampleKeepalive.kept
                            SampleKeepalive.second) 5 = Some 1)
    by (vm_compute; reflexivity).
  assert (V15 : volume_of (keepalive_activated SampleKeepalive.kept
                             SampleKeepalive.second) 15 = Some 1)
    by (vm_compute; reflexivity).
  split.
  { intros p (ccb & L & A). unfold Sample.state in L. cbn [ccbs] in L.
    repeat (apply lookup_insert_Some in L as [[_ <-]|[_ L]];
            [discriminate A|]).
    apply lookup_singleton_Some in L as [_ <-]. discriminate A. }
  split; [vm_compute; reflexivity|].
  split; [vm_compute; reflexivity|].
  split; [exact H5|]. split; [exact H15|].
  split; [exact V5|]. split; [exact V15|].
  split; [|vm_compute; reflexivity].
  intros One. specialize (One 5 15 1 H5 H15 V5 V15). discriminate One.
Qed.

(** ** Mounting *)

Section KeepsRules.
Context {B : Type} (f : State -> B).

Lemma Keeps_ret {A : Type} (a : A) : Keeps f (ret a).
Proof. now intros s b s' [= <- <-]. Qed.

Lemma Keeps_fault {A : Type} : Keeps f (@fault A).
Proof. intros s a s' K. discriminate K. Qed.

Lemma Keeps_bind {A C : Type} (m : M A) (k : A -> M C) :
  Keeps f m -> (forall a, Keeps f (k a)) -> Keeps f (bind m k).
Proof.
  intros Hm Hk s b s' K. apply bind_inv in K as (a & s1 & E1 & E2).
  apply Hm in E1. apply Hk in E2. congruence.
Qed.

Lemma Keeps_emit e : (forall s, f (after [e] s) = f s) -> Keeps f (emit e).
Proof. intros Hf s a s' [= <- <-]. apply Hf. Qed.

Lemma Keeps_modify g : (forall s, f (g s) = f s) -> Keeps f (modify g).
Proof. intros Hf s a s' [= <- <-]. apply Hf. Qed.

Lemma Keeps_gets {A : Type} (g : State -> A) : Keeps f (gets g).
Proof. now intros s a s' [= <- <-]. Qed.

Lemma Keeps_load {A : Type} (tbl : State -> gmap Z A) a : Keeps f (load tbl a).
Proof. intros s x s' K. now apply load_inv in K as [_ ->]. Qed.

Lemma Keeps_deref {A : Type} (p : option A) : Keeps f (deref p).
Proof. destruct p; [apply Keeps_ret | apply Keeps_fault]. Qed.

Lemma Keeps_when b m : Keeps f m -> Keeps f (when_ b m).
Proof. destruct b; [easy|]. intros _. apply Keeps_ret. Qed.

End KeepsRules.

Ltac keeps_step :=
  match goal with
  | |- Keeps _ (bind _ _) => apply Keeps_bind; [|intros ?]
  | |- Keeps _ (ret _) => apply Keeps_ret
  | |- Keeps _ (emit _) => apply Keeps_emit; intros ?; reflexivity
  | |- Keeps _ (modify _) => apply Keeps_modify; intros ?; reflexivity
  | |- Keeps _ (when_ _ _) => apply Keeps_when
  | |- Keeps _ (gets _) => apply Keeps_gets
  | |- Keeps _ (load _ _) => apply Keeps_load
  | |- Keeps _ (deref _) => apply Keeps_deref
  | |- Keeps _ fault => apply Keeps_fault
  | |- Keeps _ (match ?x with _ => _ end) => destruct x
  end.

Section MountFacts.
Context {ext : Externals}.

Lemma DokanMountVolume_chain s DiskDevice irp m :
  MountChain s DiskDevice irp m ->
  DokanMountVolume DiskDevice irp s =
  if IsDeletePending (m_deviceObject m)
  then Some (STATUS_DEVICE_REMOVED, s)
  else MountCreate (DriverObject (m_diskDevice m)) irp (m_pdcb m) (m_dcb m) s.
Proof.
  intros (Hdisk & Hpdev & Hdev & Hext & Hdcb & Tdcb & Hpdo & Hdo).
  unfold DokanMountVolume.
  rewrite (bind_load_Some devices _ _ _ _ Hdisk), Hpdev. cbn [deref].
  rewrite bind_ret, (bind_load_Some devices _ _ _ _ Hdev), Hext.
  rewrite (bind_load_Some dcbs _ _ _ _ Hdcb). unfold GetIdentifierType.
  rewrite Tdcb, bool_decide_true by reflexivity.
  cbn [negb]. rewrite Hpdo. cbn [deref].
  rewrite bind_ret, (bind_load_Some devices _ _ _ _ Hdo).
  now destruct (IsDeletePending (m_deviceObject m)).
Qed.

Lemma DokanMountVolume_inv s DiskDevice irp st s' :
  DokanMountVolume DiskDevice irp s = Some (st, s') ->
  (st = STATUS_UNRECOGNIZED_VOLUME /\ s' = s) \/
  exists m, MountChain s DiskDevice irp m.
Proof.
  unfold DokanMountVolume. intros K.
  apply bind_inv in K as (disk & s1 & L1 & K). apply load_inv in L1 as [Hdisk ->].
  apply bind_inv in K as (pdev & s2 & D & K).
  destruct (MountVolume_DeviceObject (IoGetCurrentIrpStackLocation irp))
    as [pdev'|] eqn:Hpdev; [|discriminate]. injection D as <- <-.
  apply bind_inv in K as (dev & s3 & L2 & K). apply load_inv in L2 as [Hdev ->].
  destruct (DeviceExtension dev) as [pdcb|] eqn:Hext;
    [|injection K as <- <-; now left].
  apply bind_inv in K as (dcb & s4 & L3 & K). apply load_inv in L3 as [Hdcb ->].
  unfold GetIdentifierType in K.
  destruct (bool_decide (dcb_Identifier dcb = DCB)) eqn:Tdcb;
    [|injection K as <- <-; now left].
  apply bool_decide_eq_true in Tdcb. cbn [negb] in K.
  apply bind_inv in K as (pdo & s5 & D & K).
  destruct (dcb_DeviceObject dcb) as [pdo'|] eqn:Hpdo; [|discriminate].
  injection D as <- <-.
  apply bind_inv in K as (dobj & s6 & L4 & K). apply load_inv in L4 as [Hdo ->].
  right. exists (mkMountTarget disk pdev' dev pdcb dcb pdo' dobj).
  now repeat split.
Qed.

Lemma MountPublish_status pdcb dcb net :
  Emits any (fun st => st = STATUS_SUCCESS) (MountPublish pdcb dcb net).
Proof. unfold MountPublish. repeat emits_step; try exact I; reflexivity. Qed.

Lemma MountInitVolume_keeps irp pvol dev pdcb dcb :
  Keeps MountEntryList (MountInitVolume irp pvol dev pdcb dcb).
Proof.
  unfold MountInitVolume, init_vcb, store_dcb_Vcb, DokanInitVpb,
    update_dev_Flags, update_vcb_Flags.
  repeat keeps_step.
Qed.

End MountFacts.

Section MountRuns.
Context {ext : Externals}.

Lemma MountInitVolume_run s irp pvol dev pdcb dcb pvcb :
  DeviceExtension dev = Some pvcb ->
  dcbs s !! pdcb = Some dcb ->
  vpb_resolves s irp ->
  exists s1,
    MountInitVolume irp pvol dev pdcb dcb s = Some (pvcb, s1) /\
    vcbs s1 !! pvcb = Some (mounted_vcb pvol pdcb) /\
    devices s1 !! pvol = Some (mounted_device dev) /\
    (exists d, dcbs s1 !! pdcb = Some d /\ dcb_Vcb d = Some pvcb) /\
    MountEntryList s1 = MountEntryList s /\
    trace s1 = trace s ++
      (if negb (FcbGarbageCollectionIntervalMs dcb =? 0)
       then [Call_DokanStartFcbGarbageCollector pvcb] else []) ++
      [Call_ObReferenceObject pvol].
Proof.
  intros Hext Hdcb Hvpb. unfold MountInitVolume.
  rewrite bind_modify, Hext. cbn [deref]. rewrite bind_ret.
  unfold init_vcb. rewrite bind_modify.
  unfold store_dcb_Vcb. rewrite bind_assoc.
  rewrite (bind_load_Some dcbs _ dcb) by exact Hdcb.
  rewrite bind_modify.
  set (gc := negb (FcbGarbageCollectionIntervalMs dcb =? 0)).
  set (s0 := set_dcbs _ _).
  assert (Gc : exists s2,
    (forall (k : unit -> M Z),
       bind (when_ gc (emit (Call_DokanStartFcbGarbageCollector pvcb))) k s0 =
       k tt s2) /\
    s2 = after (if gc then [Call_DokanStartFcbGarbageCollector pvcb] else []) s0).
  { destruct gc; eexists; (split; [intros k; reflexivity|]);
      [reflexivity | now rewrite after_nil]. }
  destruct Gc as (s2 & -> & Es2).
  assert (Vp : exists s3,
    (forall (k : unit -> M Z),
       bind (DokanInitVpb (MountVolume_Vpb (IoGetCurrentIrpStackLocation irp))
                          (Some pvol)) k s2 = k tt s3) /\
    devices s3 = devices s2 /\ dcbs s3 = dcbs s2 /\ vcbs s3 = vcbs s2 /\
    MountEntryList s3 = MountEntryList s2 /\ trace s3 = trace s2).
  { unfold vpb_resolves in Hvpb. unfold DokanInitVpb.
    destruct (MountVolume_Vpb (IoGetCurrentIrpStackLocation irp)) as [p|].
    - destruct Hvpb as [v Hv]. eexists. split.
      + intros k. rewrite bind_assoc.
        rewrite (bind_load_Some vpbs _ v) by (subst s2; exact Hv).
        rewrite bind_modify. reflexivity.
      + now repeat split.
    - exists s2. split; [intros k; reflexivity|]. now repeat split. }
  destruct Vp as (s3 & -> & Ed3 & Ec3 & Ev3 & Em3 & Et3).
  unfold update_dev_Flags, update_vcb_Flags. rewrite !bind_assoc.
  assert (Ld : devices s3 !! pvol = Some dev).
  { rewrite Ed3, Es2. apply lookup_insert_eq. }
  rewrite (bind_load_Some devices _ dev) by exact Ld.
  rewrite bind_modify, bind_assoc.
  erewrite (bind_load_Some devices) by (cbn [devices set_devices]; apply lookup_insert_eq).
  rewrite bind_modify, bind_assoc.
  assert (Lv : vcbs s3 !! pvcb =
               Some (mkVCB VCB sizeof_DokanVCB (Some pvol) (Some pdcb) 0
                           0xffffffffffffffff false)).
  { rewrite Ev3, Es2. apply lookup_insert_eq. }
  erewrite (bind_load_Some vcbs) by (cbn [vcbs set_devices]; exact Lv).
  rewrite bind_modify, bind_emit, ret_run.
  eexists. split; [reflexivity|].
  cbn [vcbs devices dcbs MountEntryList trace after set_trace set_vcbs
       set_devices vcb_Identifier vcb_Size vcb_DeviceObject vcb_Dcb vcb_Flags
       ValidFcbMask IsKeepaliveActive DriverObject dev_Flags DeviceExtension].
  split; [apply lookup_insert_eq|]. split; [apply lookup_insert_eq|].
  split; [|split].
  - rewrite Ec3, Es2. eexists. split; [apply lookup_insert_eq|reflexivity].
  - now rewrite Em3, Es2.
  - rewrite Et3, Es2. cbn [trace after set_trace]. subst s0.
    cbn [trace set_dcbs set_vcbs set_devices]. now rewrite <- app_assoc.
Qed.

End MountRuns.

Section MountTheorem.
Context {ext : Externals}.

Lemma MountAttach_run pvol pdcb dcb net s :
  (FindMountEntry (MountEntryList s) (mount_key dcb) = None ->
   MountAttach pvol pdcb dcb net s =
   Some (STATUS_DEVICE_REMOVED,
         after [ExAcquireResourceExclusiveLite_dcb pdcb;
                ExReleaseResourceLite_dcb pdcb] s)) /\
  (forall i st s',
   FindMountEntry (MountEntryList s) (mount_key dcb) = Some i ->
   MountAttach pvol pdcb dcb net s = Some (st, s') -> st = STATUS_SUCCESS).
Proof.
  unfold MountAttach. rewrite bind_emit, bind_gets.
  cbn [MountEntryList after set_trace]. fold (mount_key dcb). split.
  - intros ->. rewrite bind_emit, ret_run, after_after. reflexivity.
  - intros i st s' -> K.
    apply bind_inv in K as (u1 & s1 & _ & K).
    apply bind_inv in K as (u2 & s2 & _ & K).
    now apply MountPublish_status in K as [-> _].
Qed.

(** What a call of [MountCreate] that returns has done. *)
Lemma MountCreate_inv driver irp pdcb dcb s st s' :
  MountCreate driver irp pdcb dcb s = Some (st, s') ->
  let net := VolumeDeviceType dcb =? FILE_DEVICE_NETWORK_FILE_SYSTEM in
  let created := IoCreateDevice s net driver dcb in
  (NT_SUCCESS (fst created) = false /\ st = fst created) \/
  (NT_SUCCESS (fst created) = true /\
   FindMountEntry (MountEntryList s) (mount_key dcb) = None /\
   st = STATUS_DEVICE_REMOVED) \/
  (NT_SUCCESS (fst created) = true /\
   is_Some (FindMountEntry (MountEntryList s) (mount_key dcb)) /\
   st = STATUS_SUCCESS).
Proof.
  intros K net created. unfold MountCreate in K. fold net in K.
  rewrite bind_gets in K. fold created in K.
  destruct created as [status [pvol dev]]. cbn [fst].
  rewrite bind_emit in K.
  destruct (NT_SUCCESS status); cbn [negb] in K.
  2:{ injection K as <- _. now left. }
  right. apply bind_inv in K as (pvcb & s1 & I1 & K).
  apply MountInitVolume_keeps in I1. cbn [MountEntryList after set_trace] in I1.
  destruct (MountAttach_run pvol pdcb dcb net s1) as [Hnone Hsome].
  rewrite I1 in Hnone, Hsome.
  destruct (FindMountEntry (MountEntryList s) (mount_key dcb)) as [i|] eqn:F.
  - right. split; [reflexivity|]. split; [now exists i|].
    now apply (Hsome i st s').
  - left. split; [reflexivity|]. split; [reflexivity|].
    rewrite (Hnone eq_refl) in K. now injection K as <- _.
Qed.

(** C7.  [DokanMountVolume] on a disk device whose Dcb resolves.
    (1) When the device object of the Dcb is marked for removal, the
    call returns STATUS_DEVICE_REMOVED with store and trace untouched:
    no device was created.  (2) When it is not, the device creation
    succeeds and [FindMountEntry] finds no entry for the key made of the
    device name and the session id, the call returns
    STATUS_DEVICE_REMOVED after releasing the resource of the Dcb; the
    new Vcb is in the store with VCB_MOUNTED set, the volume device is
    there, the Dcb points to the Vcb, and the mount entries are as they
    were.  (3) When the device is not marked for removal and the
    device creation fails, the call returns the status of the creation,
    whatever it is, with only the creation call added to the trace.
    (4) A call that returns STATUS_DEVICE_REMOVED is in situation (1),
    in situation (2), or in situation (3) with a creation that failed
    with STATUS_DEVICE_REMOVED itself. *)
Theorem mount_device_removed s DiskDevice irp :
  let net dcb := VolumeDeviceType dcb =? FILE_DEVICE_NETWORK_FILE_SYSTEM in
  let created m :=
    IoCreateDevice s (net (m_dcb m)) (DriverObject (m_diskDevice m)) (m_dcb m) in
  let no_entry m :=
    FindMountEntry (MountEntryList s) (mount_key (m_dcb m)) = None in
  (forall m,
     MountChain s DiskDevice irp m ->
     IsDeletePending (m_deviceObject m) = true ->
     DokanMountVolume DiskDevice irp s = Some (STATUS_DEVICE_REMOVED, s)) /\
  (forall m pvcb,
     MountChain s DiskDevice irp m ->
     IsDeletePending (m_deviceObject m) = false ->
     NT_SUCCESS (fst (created m)) = true ->
     DeviceExtension (snd (snd (created m))) = Some pvcb ->
     vpb_resolves s irp ->
     no_entry m ->
     exists s' t,
       DokanMountVolume DiskDevice irp s = Some (STATUS_DEVICE_REMOVED, s') /\
       trace s' = trace s ++ Call_IoCreateDevice (net (m_dcb m)) (fst (created m))
                    :: t ++ [ExAcquireResourceExclusiveLite_dcb (m_pdcb m);
                             ExReleaseResourceLite_dcb (m_pdcb m)] /\
       vcbs s' !! pvcb = Some (mounted_vcb (fst (snd (created m))) (m_pdcb m)) /\
       devices s' !! fst (snd (created m)) =
         Some (mounted_device (snd (snd (created m)))) /\
       (exists d, dcbs s' !! m_pdcb m = Some d /\ dcb_Vcb d = Some pvcb) /\
       MountEntryList s' = MountEntryList s) /\
  (forall m,
     MountChain s DiskDevice irp m ->
     IsDeletePending (m_deviceObject m) = false ->
     NT_SUCCESS (fst (created m)) = false ->
     DokanMountVolume DiskDevice irp s =
       Some (fst (created m),
             after [Call_IoCreateDevice (net (m_dcb m)) (fst (created m))]
                   s)) /\
  (forall s',
     DokanMountVolume DiskDevice irp s = Some (STATUS_DEVICE_REMOVED, s') ->
     exists m, MountChain s DiskDevice irp m /\
       ((IsDeletePending (m_deviceObject m) = true /\ s' = s) \/
        (IsDeletePending (m_deviceObject m) = false /\
         NT_SUCCESS (fst (created m)) = true /\ no_entry m) \/
        (IsDeletePending (m_deviceObject m) = false /\
         NT_SUCCESS (fst (created m)) = false /\
         fst (created m) = STATUS_DEVICE_REMOVED))).
Proof.
  intros net created no_entry. split; [|split; [|split]].
  - intros m Hm Del. rewrite (DokanMountVolume_chain _ _ _ _ Hm). now rewrite Del.
  - intros m pvcb Hm Del Ok Hext Hvpb Hnone.
    rewrite (DokanMountVolume_chain _ _ _ _ Hm), Del.
    unfold MountCreate. rewrite bind_gets.
    fold (net (m_dcb m)). fold (created m).
    destruct (created m) as [status [pvol dev]] eqn:Ecr. cbn [fst snd] in *.
    rewrite bind_emit, Ok. cbn [negb].
    destruct Hm as (_ & _ & _ & _ & Hdcb & _).
    destruct (MountInitVolume_run
                (after [Call_IoCreateDevice (net (m_dcb m)) status] s)
                irp pvol dev (m_pdcb m) (m_dcb m) pvcb Hext Hdcb Hvpb)
      as (s1 & Run & Lv & Ld & Lc & Lm & Lt).
    rewrite (bind_Some _ _ _ _ _ Run).
    destruct (MountAttach_run pvol (m_pdcb m) (m_dcb m) (net (m_dcb m)) s1)
      as [Hrun _].
    rewrite Hrun by (rewrite Lm; exact Hnone).
    eexists _, ((if negb (FcbGarbageCollectionIntervalMs (m_dcb m) =? 0)
                 then [Call_DokanStartFcbGarbageCollector pvcb] else []) ++
                [Call_ObReferenceObject pvol]).
    split; [reflexivity|].
    cbn [trace vcbs devices dcbs MountEntryList after set_trace].
    split; [|now repeat split].
    rewrite Lt. cbn [trace after set_trace]. now rewrite <- !app_assoc.
  - intros m Hm Del Bad.
    rewrite (DokanMountVolume_chain _ _ _ _ Hm), Del.
    unfold MountCreate. rewrite bind_gets.
    fold (net (m_dcb m)). fold (created m).
    destruct (created m) as [status [pvol dev]]. cbn [fst] in *.
    rewrite bind_emit, Bad. reflexivity.
  - intros s' K.
    pose proof K as K0.
    apply DokanMountVolume_inv in K as [[E _]|(m & Hm)]; [discriminate E|].
    exists m. split; [exact Hm|].
    rewrite (DokanMountVolume_chain _ _ _ _ Hm) in K0.
    destruct (IsDeletePending (m_deviceObject m)).
    + left. split; [reflexivity|]. now injection K0.
    + right. apply MountCreate_inv in K0 as [[Bad E]|[(Ok & N & _)|(_ & _ & E)]].
      * right. now repeat split.
      * left. now repeat split.
      * discriminate E.
Qed.

End MountTheorem.

(** Scenario D on the sample store: the device is created, no mount
    entry is found, the call fails and the volume stays unpublished. *)
Lemma mount_device_removed_witness :
  exists s',
    DokanMountVolume (ext := Sample.externals) 3 (SampleMount.mount_request 3)
      Sample.state = Some (STATUS_DEVICE_REMOVED, s') /\
    vcbs s' !! 200 = Some (mounted_vcb (ext := Sample.externals) 100 3) /\
    MountEntryList s' = MountEntryList Sample.state.
Proof.
  destruct (proj1 (proj2 (mount_device_removed (ext := Sample.externals)
                            Sample.state 3 (SampleMount.mount_request 3)))
                  SampleMount.target3 200
                  ltac:(by_computation) ltac:(by_computation)
                  ltac:(by_computation) ltac:(by_computation)
                  ltac:(vm_compute; eexists; reflexivity)
                  ltac:(by_computation))
    as (s' & t & Run & _ & Lv & _ & _ & Lm).
  exists s'. split; [exact Run|]. split; [exact Lv | exact Lm].
Defined.

(** A third situation: device 1 is not marked for removal and has its
    mount entry, at index 0, and the creation of the volume device fails
    with STATUS_DEVICE_REMOVED.  The call returns that status, with
    nothing but the creation call recorded. *)
Lemma mount_device_removed_counterexample :
  let routines := SampleMount.creation_fails STATUS_DEVICE_REMOVED in
  let irp := SampleMount.mount_request 1 in
  let m := SampleRequests.target1 in
  MountChain Sample.state 1 irp m /\
  IsDeletePending (Externals := routines) (m_deviceObject m) = false /\
  FindMountEntry (Externals := routines) (MountEntryList Sample.state)
    (mount_key (m_dcb m)) = Some 0%nat /\
  DokanMountVolume (ext := routines) 1 irp Sample.state =
    Some (STATUS_DEVICE_REMOVED,
          after [Call_IoCreateDevice false STATUS_DEVICE_REMOVED]
                Sample.state).
Proof. cbv zeta. repeat split; vm_compute; reflexivity. Qed.

(** * Further properties *)

(** ** Reparse point requests *)

Lemma length_le_bytes n v : length (le_bytes n v) = n.
Proof.
  revert v. induction n as [|n IH]; intros v; [reflexivity|].
  cbn [le_bytes length]. now rewrite IH.
Qed.

Lemma le_value_le_bytes n v :
  0 <= v < 256 ^ Z.of_nat n -> le_value (le_bytes n v) = v.
Proof.
  revert v. induction n as [|n IH]; intros v Hv.
  - cbn in *. lia.
  - cbn [le_bytes le_value]. rewrite IH.
    + pose proof (Z.div_mod v 256). lia.
    + rewrite Nat2Z.inj_succ, Z.pow_succ_r in Hv by lia.
      split; [apply Z.div_pos; lia|]. apply Z.div_lt_upper_bound; lia.
Qed.

Lemma length_WCHAR_bytes ws : length (WCHAR_bytes ws) = (2 * length ws)%nat.
Proof.
  unfold WCHAR_bytes. induction ws as [|w ws IH]; [reflexivity|].
  cbn [map concat]. rewrite length_app, IH. cbn [le_bytes length]. lia.
Qed.

Lemma poke_length off bytes mem m :
  poke off bytes mem = Some m -> length m = length mem.
Proof.
  unfold poke. destruct (_ && _) eqn:E; [|discriminate]. intros [= <-].
  apply andb_prop in E as [E1 E2]. apply Z.leb_le in E1, E2.
  rewrite !length_app, length_take, length_drop. lia.
Qed.

Lemma poke_outside off bytes mem :
  Z.of_nat (length mem) < off + Z.of_nat (length bytes) ->
  poke off bytes mem = None.
Proof.
  intros H. unfold poke.
  replace (off + Z.of_nat (length bytes) <=? Z.of_nat (length mem)) with false
    by (symmetry; apply Z.leb_gt; lia).
  now rewrite andb_false_r.
Qed.

Lemma peek_length off n mem x : peek off n mem = Some x -> length x = n.
Proof.
  unfold peek. destruct (_ && _) eqn:E; [|discriminate]. intros [= <-].
  apply andb_prop in E as [E1 E2]. apply Z.leb_le in E1, E2.
  rewrite length_take, length_drop. lia.
Qed.

(** A write that replaces [old], found after [a], by [new]. *)
Lemma poke_at off a old new c mem :
  off = Z.of_nat (length a) -> length old = length new ->
  mem = a ++ old ++ c ->
  poke off new mem = Some (a ++ new ++ c).
Proof.
  intros -> Hlen ->. unfold poke.
  replace (0 <=? Z.of_nat (length a)) with true
    by (symmetry; apply Z.leb_le; lia).
  rewrite !length_app.
  replace (Z.of_nat (length a) + Z.of_nat (length new) <=?
           Z.of_nat (length a + (length old + length c))%nat)
    with true by (symmetry; apply Z.leb_le; lia).
  cbn [andb]. rewrite Nat2Z.id, take_app_length. f_equal. f_equal. f_equal.
  rewrite drop_app_ge by lia. rewrite <- Hlen.
  replace (length a + length old - length a)%nat with (length old) by lia.
  now rewrite drop_app_length.
Qed.

Lemma peek_at off n a x c mem :
  off = Z.of_nat (length a) -> n = length x ->
  mem = a ++ x ++ c ->
  peek off n mem = Some x.
Proof.
  intros -> -> ->. unfold peek.
  replace (0 <=? Z.of_nat (length a)) with true
    by (symmetry; apply Z.leb_le; lia).
  rewrite !length_app.
  replace (Z.of_nat (length a) + Z.of_nat (length x) <=?
           Z.of_nat (length a + (length x + length c))%nat)
    with true by (symmetry; apply Z.leb_le; lia).
  cbn [andb]. rewrite Nat2Z.id, drop_app_length. now rewrite take_app_length.
Qed.

Lemma opt_bind_Some {A B : Type} (x : A) (f : A -> option B) :
  (Some x ≫= f) = f x.
Proof. reflexivity. Qed.

Lemma opt_bind_inv {A B : Type} (m : option A) (f : A -> option B) b :
  (m ≫= f) = Some b -> exists a, m = Some a /\ f a = Some b.
Proof. destruct m as [a|]; [|discriminate]. intros E. now exists a. Qed.

Section ReparseProperties.
Variable DokanAllocZero : Z -> option (list Z).

Lemma CreateSetReparsePointRequest_bytes (name : UNICODE_STRING) :
  let L := us_Length name in
  0 <= L <= 65521 ->
  Z.even L = true ->
  L <= 2 * Z.of_nat (length (us_Buffer name)) ->
  DokanAllocZero (L + 22) = Some (zero_block (L + 22)) ->
  CreateSetReparsePointRequest DokanAllocZero name =
  Some (Some (le_bytes 4 IO_REPARSE_TAG_MOUNT_POINT ++
              le_bytes 2 (L + 14) ++ [0; 0] ++
              le_bytes 2 0 ++ le_bytes 2 (L + 2) ++
              le_bytes 2 (L + 4) ++ le_bytes 2 0 ++
              take (Z.to_nat L) (WCHAR_bytes (us_Buffer name)) ++
              [0x5C; 0] ++ [0; 0; 0; 0]),
        L + 22).
Proof.
  intros L HL Hev Hsrc Halloc. unfold CreateSetReparsePointRequest. fold L.
  unfold sizeof_WCHAR, offsetof_PathBuffer, REPARSE_DATA_BUFFER_HEADER_SIZE.
  assert (E1 : (L + 2) mod 2 ^ 16 = L + 2) by (apply Z.mod_small; lia).
  rewrite E1.
  assert (E2 : (16 + (L + 2) + 2 + 2) mod 2 ^ 32 = L + 22)
    by (rewrite Z.mod_small; lia).
  rewrite E2, Halloc.
  assert (E3 : ((L + 22) mod 2 ^ 16 - 8) mod 2 ^ 16 = L + 14).
  { rewrite Zminus_mod_idemp_l. rewrite Z.mod_small; lia. }
  rewrite E3.
  assert (E5 : 2 * (L / 2) = L).
  { apply Zeven_bool_iff in Hev. apply Zeven_div2 in Hev.
    rewrite Z.div2_div in Hev. lia. }
  assert (E4 : ((L + 2) / 2 - 1) mod 2 ^ 64 = L / 2).
  { replace (L + 2) with (L + 1 * 2) by lia. rewrite Z.div_add by lia.
    rewrite Z.mod_small; lia. }
  rewrite E4.
  replace (16 + 2 * (L / 2)) with (16 + L) by lia.
  unfold zero_block.
  replace (Z.to_nat (L + 22)) with (16 + (Z.to_nat L + 6))%nat by lia.
  rewrite !replicate_add.
  set (src := WCHAR_bytes (us_Buffer name)).
  set (tag := le_bytes 4 IO_REPARSE_TAG_MOUNT_POINT).
  set (z := replicate (Z.to_nat L) 0).
  set (tail := replicate 6 0).
  unfold offsetof_ReparseTag, offsetof_ReparseDataLength,
    offsetof_SubstituteNameOffset, offsetof_SubstituteNameLength,
    offsetof_PrintNameOffset, offsetof_PrintNameLength.
  rewrite (poke_at 0 [] [0; 0; 0; 0] tag
             ([0; 0] ++ [0; 0] ++ [0; 0] ++ [0; 0] ++ [0; 0] ++ [0; 0] ++
              z ++ tail)) by reflexivity.
  rewrite opt_bind_Some.
  rewrite (poke_at 4 tag [0; 0] (le_bytes 2 (L + 14))
             ([0; 0] ++ [0; 0] ++ [0; 0] ++ [0; 0] ++ [0; 0] ++ z ++ tail))
    by reflexivity.
  rewrite opt_bind_Some.
  set (h8 := tag ++ le_bytes 2 (L + 14) ++ [0; 0]).
  rewrite (poke_at 8 h8 [0; 0] (le_bytes 2 0)
             ([0; 0] ++ [0; 0] ++ [0; 0] ++ z ++ tail))
    by reflexivity.
  rewrite opt_bind_Some.
  rewrite (poke_at 10 (h8 ++ le_bytes 2 0) [0; 0] (le_bytes 2 (L + 2))
             ([0; 0] ++ [0; 0] ++ z ++ tail))
    by (try reflexivity; now rewrite <- !app_assoc).
  rewrite opt_bind_Some.
  rewrite (peek_at 10 2 (h8 ++ le_bytes 2 0) (le_bytes 2 (L + 2))
             ([0; 0] ++ [0; 0] ++ z ++ tail)) by reflexivity.
  rewrite opt_bind_Some.
  rewrite le_value_le_bytes by (change (256 ^ Z.of_nat 2) with 65536; lia).
  replace ((L + 2 + 2) mod 2 ^ 16) with (L + 4) by (rewrite Z.mod_small; lia).
  rewrite (poke_at 12 ((h8 ++ le_bytes 2 0) ++ le_bytes 2 (L + 2)) [0; 0]
             (le_bytes 2 (L + 4)) ([0; 0] ++ z ++ tail))
    by (try reflexivity; now rewrite <- !app_assoc).
  rewrite opt_bind_Some.
  set (h14 := ((h8 ++ le_bytes 2 0) ++ le_bytes 2 (L + 2)) ++
              le_bytes 2 (L + 4)).
  rewrite (poke_at 14 h14 [0; 0] (le_bytes 2 0) (z ++ tail))
    by (try reflexivity; now rewrite <- !app_assoc).
  rewrite opt_bind_Some.
  assert (Hlen : length src = (2 * length (us_Buffer name))%nat)
    by apply length_WCHAR_bytes.
  rewrite (peek_at 0 (Z.to_nat L) [] (take (Z.to_nat L) src)
             (drop (Z.to_nat L) src));
    [|reflexivity|rewrite length_take; lia|cbn [app]; now rewrite take_drop].
  rewrite opt_bind_Some.
  rewrite (poke_at 16 (h14 ++ le_bytes 2 0) z (take (Z.to_nat L) src) tail);
    [|reflexivity
     |unfold z; rewrite length_replicate, length_take; lia
     |now rewrite <- !app_assoc].
  rewrite opt_bind_Some.
  rewrite (poke_at (16 + L) ((h14 ++ le_bytes 2 0) ++ take (Z.to_nat L) src)
             [0; 0] (le_bytes 2 92) [0; 0; 0; 0]);
    [|rewrite length_app, length_take;
      change (length (h14 ++ le_bytes 2 0)) with 16%nat; lia
     |reflexivity
     |now rewrite <- !app_assoc].
  rewrite opt_bind_Some. unfold h14, h8. rewrite <- !app_assoc. reflexivity.
Qed.

(** X1.  The block [CreateSetReparsePointRequest] builds, byte for byte.
    For a name of even length [L] of at most 65521 bytes whose buffer
    holds these bytes, and an allocation that succeeds with zero bytes:
    the call returns a block of [L + 22] bytes and that length.  The
    block holds the mount point tag, ReparseDataLength [L + 14], a zero
    Reserved field, SubstituteNameOffset 0, SubstituteNameLength
    [L + 2], PrintNameOffset [L + 4], PrintNameLength 0, then the [L]
    bytes of the name, a backslash, and two zero characters. *)
Theorem set_reparse_request_layout (name : UNICODE_STRING) :
  let L := us_Length name in
  0 <= L <= 65521 ->
  Z.even L = true ->
  L <= 2 * Z.of_nat (length (us_Buffer name)) ->
  DokanAllocZero (L + 22) = Some (zero_block (L + 22)) ->
  CreateSetReparsePointRequest DokanAllocZero name =
  Some (Some (le_bytes 4 IO_REPARSE_TAG_MOUNT_POINT ++
              le_bytes 2 (L + 14) ++ [0; 0] ++
              le_bytes 2 0 ++ le_bytes 2 (L + 2) ++
              le_bytes 2 (L + 4) ++ le_bytes 2 0 ++
              take (Z.to_nat L) (WCHAR_bytes (us_Buffer name)) ++
              [0x5C; 0] ++ [0; 0; 0; 0]),
        L + 22).
Proof. exact (CreateSetReparsePointRequest_bytes name). Qed.

(** X2.  Read back through its own header, the block is consistent.  Under
    the same conditions: ReparseDataLength is the length of the block
    less the 8 bytes of the header; the substitute name, found through
    its offset and length fields, is the name followed by a backslash;
    the print name is empty and starts two bytes after the substitute
    name; a zero character follows each of the two names inside the
    block. *)
Theorem set_reparse_request_read_back (name : UNICODE_STRING) :
  let L := us_Length name in
  0 <= L <= 65521 ->
  Z.even L = true ->
  L <= 2 * Z.of_nat (length (us_Buffer name)) ->
  DokanAllocZero (L + 22) = Some (zero_block (L + 22)) ->
  exists buf,
    CreateSetReparsePointRequest DokanAllocZero name =
      Some (Some buf, Z.of_nat (length buf)) /\
    reparse_field offsetof_ReparseDataLength buf =
      Some (Z.of_nat (length buf) - REPARSE_DATA_BUFFER_HEADER_SIZE) /\
    SubstituteName buf =
      Some (take (Z.to_nat L) (WCHAR_bytes (us_Buffer name)) ++
            le_bytes 2 0x5C) /\
    reparse_field offsetof_PrintNameOffset buf = Some (L + 4) /\
    PrintName buf = Some [] /\
    peek (offsetof_PathBuffer + L + 2) 2 buf = Some [0; 0] /\
    peek (offsetof_PathBuffer + L + 4) 2 buf = Some [0; 0].
Proof.
  intros L HL Hev Hsrc Halloc.
  pose proof (CreateSetReparsePointRequest_bytes name HL Hev Hsrc Halloc) as Run.
  fold L in Run.
  set (src := take (Z.to_nat L) (WCHAR_bytes (us_Buffer name))) in *.
  assert (Hsrclen : length src = Z.to_nat L).
  { unfold src. rewrite length_take, length_WCHAR_bytes. lia. }
  set (tag := le_bytes 4 IO_REPARSE_TAG_MOUNT_POINT) in *.
  assert (V : forall v, 0 <= v < 65536 -> le_value (le_bytes 2 v) = v).
  { intros v Hv. apply le_value_le_bytes. change (256 ^ Z.of_nat 2) with 65536.
    lia. }
  set (h16 := tag ++ le_bytes 2 (L + 14) ++ [0; 0] ++ le_bytes 2 0 ++
              le_bytes 2 (L + 2) ++ le_bytes 2 (L + 4) ++ le_bytes 2 0).
  set (buf := h16 ++ src ++ [92; 0] ++ [0; 0] ++ [0; 0]).
  assert (Ebuf : tag ++ le_bytes 2 (L + 14) ++ [0; 0] ++ le_bytes 2 0 ++
                 le_bytes 2 (L + 2) ++ le_bytes 2 (L + 4) ++ le_bytes 2 0 ++
                 src ++ [92; 0] ++ [0; 0; 0; 0] = buf).
  { unfold buf, h16. now rewrite <- !app_assoc. }
  rewrite Ebuf in Run.
  assert (Lh : length h16 = 16%nat) by reflexivity.
  assert (Lbuf : Z.of_nat (length buf) = L + 22).
  { unfold buf. rewrite !length_app, Lh, Hsrclen. cbn [length]. lia. }
  assert (F4 : peek 4 2 buf = Some (le_bytes 2 (L + 14))).
  { apply (peek_at 4 2 tag _
             ([0; 0] ++ le_bytes 2 0 ++ le_bytes 2 (L + 2) ++
              le_bytes 2 (L + 4) ++ le_bytes 2 0 ++ src ++ [92; 0] ++
              [0; 0] ++ [0; 0])); [reflexivity|reflexivity|].
    unfold buf, h16. now rewrite <- !app_assoc. }
  assert (F8 : peek 8 2 buf = Some (le_bytes 2 0)).
  { apply (peek_at 8 2 (tag ++ le_bytes 2 (L + 14) ++ [0; 0]) _
             (le_bytes 2 (L + 2) ++ le_bytes 2 (L + 4) ++ le_bytes 2 0 ++
              src ++ [92; 0] ++ [0; 0] ++ [0; 0])); [reflexivity|reflexivity|].
    unfold buf, h16. now rewrite <- !app_assoc. }
  assert (F10 : peek 10 2 buf = Some (le_bytes 2 (L + 2))).
  { apply (peek_at 10 2 (tag ++ le_bytes 2 (L + 14) ++ [0; 0] ++ le_bytes 2 0) _
             (le_bytes 2 (L + 4) ++ le_bytes 2 0 ++ src ++ [92; 0] ++
              [0; 0] ++ [0; 0])); [reflexivity|reflexivity|].
    unfold buf, h16. now rewrite <- !app_assoc. }
  assert (F12 : peek 12 2 buf = Some (le_bytes 2 (L + 4))).
  { apply (peek_at 12 2 (tag ++ le_bytes 2 (L + 14) ++ [0; 0] ++ le_bytes 2 0 ++
                         le_bytes 2 (L + 2)) _
             (le_bytes 2 0 ++ src ++ [92; 0] ++ [0; 0] ++ [0; 0]));
      [reflexivity|reflexivity|].
    unfold buf, h16. now rewrite <- !app_assoc. }
  assert (F14 : peek 14 2 buf = Some (le_bytes 2 0)).
  { apply (peek_at 14 2 (tag ++ le_bytes 2 (L + 14) ++ [0; 0] ++ le_bytes 2 0 ++
                         le_bytes 2 (L + 2) ++ le_bytes 2 (L + 4)) _
             (src ++ [92; 0] ++ [0; 0] ++ [0; 0]));
      [reflexivity|reflexivity|].
    unfold buf, h16. now rewrite <- !app_assoc. }
  exists buf. rewrite Lbuf. split; [exact Run|].
  unfold reparse_field, SubstituteName, PrintName, reparse_field,
    REPARSE_DATA_BUFFER_HEADER_SIZE, offsetof_ReparseDataLength,
    offsetof_SubstituteNameOffset, offsetof_SubstituteNameLength,
    offsetof_PrintNameOffset, offsetof_PrintNameLength, offsetof_PathBuffer.
  rewrite F4, F8, F10, F12, F14.
  cbn [fmap option_fmap option_map mbind option_bind].
  rewrite !V by lia. change (Z.to_nat 0) with 0%nat.
  split; [f_equal; lia|]. split.
  { apply (peek_at _ _ h16 (src ++ [92; 0]) ([0; 0] ++ [0; 0])).
    - now rewrite Lh.
    - rewrite length_app, Hsrclen. cbn [length]. lia.
    - unfold buf. now rewrite <- !app_assoc. }
  split; [reflexivity|]. split.
  { apply (peek_at _ 0 (h16 ++ src ++ [92; 0] ++ [0; 0]) [] [0; 0]).
    - rewrite !length_app, Lh, Hsrclen. cbn [length]. lia.
    - reflexivity.
    - unfold buf. now rewrite <- !app_assoc. }
  split.
  - apply (peek_at _ 2 (h16 ++ src ++ [92; 0]) [0; 0] [0; 0]).
    + rewrite !length_app, Lh, Hsrclen. cbn [length]. lia.
    + reflexivity.
    + unfold buf. now rewrite <- !app_assoc.
  - apply (peek_at _ 2 (h16 ++ src ++ [92; 0] ++ [0; 0]) [0; 0] []).
    + rewrite !length_app, Lh, Hsrclen. cbn [length]. lia.
    + reflexivity.
    + unfold buf. rewrite <- !app_assoc. now rewrite app_nil_r.
Qed.

(** X3.  Whatever the name, a call of [CreateSetReparsePointRequest] that
    returns gives either NULL and length 0 or a block and its length in
    bytes, at least 20 and at most 65555, provided the allocator hands
    out blocks of the size asked for: the length is 0 exactly when the
    pointer is NULL. *)
Theorem set_reparse_request_length (name : UNICODE_STRING) r len :
  sized DokanAllocZero ->
  CreateSetReparsePointRequest DokanAllocZero name = Some (r, len) ->
  (r = None /\ len = 0) \/
  (exists buf, r = Some buf /\ Z.of_nat (length buf) = len /\
               20 <= len <= 65555).
Proof.
  intros Hsized. unfold CreateSetReparsePointRequest.
  set (mpl := (us_Length name + sizeof_WCHAR) mod 2 ^ 16).
  assert (Hmpl : 0 <= mpl < 65536) by (apply Z.mod_pos_bound; lia).
  replace ((offsetof_PathBuffer + mpl + sizeof_WCHAR + sizeof_WCHAR) mod 2 ^ 32)
    with (20 + mpl)
    by (unfold offsetof_PathBuffer, sizeof_WCHAR; rewrite Z.mod_small; lia).
  destruct (DokanAllocZero (20 + mpl)) as [mem|] eqn:Ea.
  2:{ intros [= <- <-]. now left. }
  apply Hsized in Ea. intros K. right.
  apply opt_bind_inv in K as (m1 & P1 & K). apply poke_length in P1.
  apply opt_bind_inv in K as (m2 & P2 & K). apply poke_length in P2.
  apply opt_bind_inv in K as (m3 & P3 & K). apply poke_length in P3.
  apply opt_bind_inv in K as (m4 & P4 & K). apply poke_length in P4.
  apply opt_bind_inv in K as (x & _ & K).
  apply opt_bind_inv in K as (m5 & P5 & K). apply poke_length in P5.
  apply opt_bind_inv in K as (m6 & P6 & K). apply poke_length in P6.
  apply opt_bind_inv in K as (y & _ & K).
  apply opt_bind_inv in K as (m7 & P7 & K). apply poke_length in P7.
  apply opt_bind_inv in K as (m8 & P8 & K). apply poke_length in P8.
  injection K as <- <-. exists m8. split; [reflexivity|]. split; lia.
Qed.

(** X4.  The longest names overrun the block.  For a name of 65534 or 65535
    bytes the sum in [mountPointReparsePathLength] wraps, the block
    asked for is 20 or 21 bytes long, and the copy of the name does not
    fit: when the allocation succeeds the call has no result. *)
Theorem set_reparse_request_overrun (name : UNICODE_STRING) mem :
  sized DokanAllocZero ->
  65534 <= us_Length name <= 65535 ->
  DokanAllocZero (us_Length name - 65514) = Some mem ->
  CreateSetReparsePointRequest DokanAllocZero name = None.
Proof.
  intros Hsized HL Ea. unfold CreateSetReparsePointRequest.
  replace ((us_Length name + sizeof_WCHAR) mod 2 ^ 16)
    with (us_Length name - 65534).
  2:{ unfold sizeof_WCHAR.
      replace (us_Length name + 2) with (us_Length name - 65534 + 1 * 2 ^ 16)
        by lia.
      rewrite Z.mod_add by lia. rewrite Z.mod_small; lia. }
  replace ((offsetof_PathBuffer + (us_Length name - 65534) + sizeof_WCHAR +
            sizeof_WCHAR) mod 2 ^ 32) with (us_Length name - 65514)
    by (unfold offsetof_PathBuffer, sizeof_WCHAR; rewrite Z.mod_small; lia).
  rewrite Ea. apply Hsized in Ea.
  destruct (poke _ _ mem) as [m1|] eqn:P1; [|reflexivity].
  apply poke_length in P1. rewrite opt_bind_Some.
  destruct (poke _ _ m1) as [m2|] eqn:P2; [|reflexivity].
  apply poke_length in P2. rewrite opt_bind_Some.
  destruct (poke _ _ m2) as [m3|] eqn:P3; [|reflexivity].
  apply poke_length in P3. rewrite opt_bind_Some.
  destruct (poke _ _ m3) as [m4|] eqn:P4; [|reflexivity].
  apply poke_length in P4. rewrite opt_bind_Some.
  destruct (peek _ _ m4) as [x|]; [|reflexivity]. rewrite opt_bind_Some.
  destruct (poke _ _ m4) as [m5|] eqn:P5; [|reflexivity].
  apply poke_length in P5. rewrite opt_bind_Some.
  destruct (poke _ _ m5) as [m6|] eqn:P6; [|reflexivity].
  apply poke_length in P6. rewrite opt_bind_Some.
  destruct (peek _ _ (WCHAR_bytes _)) as [src|] eqn:Ps; [|reflexivity].
  apply peek_length in Ps. rewrite opt_bind_Some.
  rewrite (poke_outside _ src m6); [reflexivity|].
  unfold offsetof_PathBuffer. lia.
Qed.

(** X5.  [CreateRemoveReparsePointRequest] returns NULL and length 0 when
    the allocation fails; otherwise, the allocation giving zero bytes,
    it returns a block of 24 bytes that holds the mount point tag and
    zeros, and the length 24, the length of the block. *)
Theorem remove_reparse_request_header :
  (forall mem, DokanAllocZero sizeof_REPARSE_DATA_BUFFER = Some mem ->
               mem = zero_block sizeof_REPARSE_DATA_BUFFER) ->
  CreateRemoveReparsePointRequest DokanAllocZero =
  Some (match DokanAllocZero sizeof_REPARSE_DATA_BUFFER with
        | None => (None, 0)
        | Some _ =>
            (Some (le_bytes 4 IO_REPARSE_TAG_MOUNT_POINT ++ zero_block 20),
             Z.of_nat (length (le_bytes 4 IO_REPARSE_TAG_MOUNT_POINT ++
                               zero_block 20)))
        end) /\
  Z.of_nat (length (le_bytes 4 IO_REPARSE_TAG_MOUNT_POINT ++ zero_block 20)) =
    REPARSE_GUID_DATA_BUFFER_HEADER_SIZE.
Proof.
  intros Hz. split; [|reflexivity]. unfold CreateRemoveReparsePointRequest.
  destruct (DokanAllocZero sizeof_REPARSE_DATA_BUFFER) as [mem|] eqn:Ea;
    [|reflexivity].
  rewrite (Hz mem eq_refl). reflexivity.
Qed.

End ReparseProperties.

(** The name "\??\V": a block of 32 bytes. *)
Lemma set_reparse_request_layout_witness :
  CreateSetReparsePointRequest SampleReparse.alloc SampleReparse.link =
  Some (Some [3; 0; 0; 160;  24; 0;  0; 0;  0; 0;  12; 0;  14; 0;  0; 0;
              92; 0; 63; 0; 63; 0; 92; 0; 86; 0;  92; 0;  0; 0;  0; 0],
        32).
Proof.
  exact (set_reparse_request_layout SampleReparse.alloc SampleReparse.link
           ltac:(cbn; lia) ltac:(reflexivity) ltac:(cbn; lia)
           ltac:(reflexivity)).
Defined.

Lemma set_reparse_request_read_back_witness :
  exists buf,
    CreateSetReparsePointRequest SampleReparse.alloc SampleReparse.link =
      Some (Some buf, Z.of_nat (length buf)) /\
    reparse_field offsetof_ReparseDataLength buf =
      Some (Z.of_nat (length buf) - REPARSE_DATA_BUFFER_HEADER_SIZE) /\
    SubstituteName buf = Some [92; 0; 63; 0; 63; 0; 92; 0; 86; 0; 92; 0] /\
    reparse_field offsetof_PrintNameOffset buf = Some 14 /\
    PrintName buf = Some [] /\
    peek (offsetof_PathBuffer + 10 + 2) 2 buf = Some [0; 0] /\
    peek (offsetof_PathBuffer + 10 + 4) 2 buf = Some [0; 0].
Proof.
  exact (set_reparse_request_read_back SampleReparse.alloc SampleReparse.link
           ltac:(cbn; lia) ltac:(reflexivity) ltac:(cbn; lia)
           ltac:(reflexivity)).
Defined.

Lemma set_reparse_request_length_witness :
  let block := [3; 0; 0; 160;  24; 0;  0; 0;  0; 0;  12; 0;  14; 0;  0; 0;
                92; 0; 63; 0; 63; 0; 92; 0; 86; 0;  92; 0;  0; 0;  0; 0] in
  (Some block = None /\ 32 = 0) \/
  (exists buf, Some block = Some buf /\
               Z.of_nat (length buf) = 32 /\ 20 <= 32 <= 65555).
Proof.
  cbv zeta.
  apply (set_reparse_request_length SampleReparse.alloc SampleReparse.link).
  - intros n mem [= <-]. apply length_replicate.
  - vm_compute. reflexivity.
Defined.

(** A name of 65534 bytes: the block asked for has 20 bytes. *)
Lemma set_reparse_request_overrun_witness :
  CreateSetReparsePointRequest SampleReparse.alloc SampleReparse.longest = None.
Proof.
  apply (set_reparse_request_overrun SampleReparse.alloc SampleReparse.longest
           (zero_block 20)).
  - intros n mem [= <-]. apply length_replicate.
  - cbn. lia.
  - reflexivity.
Defined.

Lemma remove_reparse_request_header_witness :
  CreateRemoveReparsePointRequest SampleReparse.alloc =
  Some (Some [3; 0; 0; 160; 0; 0; 0; 0; 0; 0; 0; 0; 0; 0; 0; 0; 0; 0; 0; 0;
              0; 0; 0; 0], 24).
Proof.
  exact (proj1 (remove_reparse_request_header SampleReparse.alloc
                  ltac:(intros mem [= <-]; reflexivity))).
Defined.

(** ** SendDirectoryFsctl *)

Lemma remove_first_head {A : Type} `{EqDecision A} (x : A) l :
  remove_first x (x :: l) = l.
Proof. cbn. now rewrite decide_True. Qed.

Lemma bool_decide_head {A : Type} `{EqDecision A} (x : A) l :
  bool_decide (x ∈ x :: l) = true.
Proof. apply bool_decide_eq_true. apply list_elem_of_here. Qed.

Section DirectoryProperties.
Variable ChangePrefix : UNICODE_STRING -> option UNICODE_STRING.
Variable ZwOpenFile : UNICODE_STRING -> NTSTATUS * Z.
Variable ZwFsControlFile : Z -> Z -> option (list Z) -> Z -> NTSTATUS.

(** The calls of a run in which the prefix was changed. *)
Lemma SendDirectoryFsctl_trace Path Code Input InputLength str :
  ChangePrefix Path = Some str ->
  snd (SendDirectoryFsctl ChangePrefix ZwOpenFile ZwFsControlFile
         Path Code Input InputLength) =
  [Call_ChangePrefix Path (Some str);
   Call_ZwOpenFile str (fst (ZwOpenFile str)) (snd (ZwOpenFile str))] ++
  (if NT_SUCCESS (fst (ZwOpenFile str)) then
     [Call_ZwFsControlFile (snd (ZwOpenFile str)) Code Input InputLength
        (ZwFsControlFile (snd (ZwOpenFile str)) Code Input InputLength)]
   else []) ++
  [Call_DokanFreeUnicodeString str] ++
  (if negb (snd (ZwOpenFile str) =? 0)
   then [Call_ZwClose (snd (ZwOpenFile str))] else []).
Proof.
  intros Ec. unfold SendDirectoryFsctl, SendDirectoryTry, SendDirectoryFinally.
  rewrite Ec. destruct (ZwOpenFile str) as [r1 h]. cbn [fst snd].
  destruct (NT_SUCCESS r1); cbn [negb]; [|reflexivity].
  destruct (NT_SUCCESS (ZwFsControlFile h Code Input InputLength));
    reflexivity.
Qed.

(** X6.  The control call and the status of [SendDirectoryFsctl].
    When the prefix was changed and the directory opened, the trace
    holds one control call, on the handle opened and with the code, the
    buffer and the length given; when the prefix could not be changed or
    the open failed, it holds none.  The status returned is
    STATUS_SUCCESS exactly when, moreover, the control call reported
    success, whatever success status the two calls gave (STATUS_PENDING
    too comes back as STATUS_SUCCESS); a status with the success bit is
    never anything else.  A failed change of prefix gives
    STATUS_INVALID_PARAMETER, a failed open or control call its own
    status. *)
Theorem send_directory_fsctl_status Path Code Input InputLength :
  let run :=
    SendDirectoryFsctl ChangePrefix ZwOpenFile ZwFsControlFile
      Path Code Input InputLength in
  let st := fst run in
  let opened str := ZwOpenFile str in
  let controlled str :=
    ZwFsControlFile (snd (opened str)) Code Input InputLength in
  (forall str, ChangePrefix Path = Some str ->
     NT_SUCCESS (fst (opened str)) = true ->
     control_calls (snd run) =
       [(snd (opened str), Code, Input, InputLength, controlled str)]) /\
  (forall str, ChangePrefix Path = Some str ->
     NT_SUCCESS (fst (opened str)) = false -> control_calls (snd run) = []) /\
  (ChangePrefix Path = None -> control_calls (snd run) = []) /\
  (st = STATUS_SUCCESS <->
   exists str, ChangePrefix Path = Some str /\
     NT_SUCCESS (fst (opened str)) = true /\
     NT_SUCCESS (controlled str) = true) /\
  (NT_SUCCESS st = true -> st = STATUS_SUCCESS) /\
  (ChangePrefix Path = None -> st = STATUS_INVALID_PARAMETER) /\
  (forall str, ChangePrefix Path = Some str ->
     NT_SUCCESS (fst (opened str)) = false -> st = fst (opened str)) /\
  (forall str, ChangePrefix Path = Some str ->
     NT_SUCCESS (fst (opened str)) = true ->
     NT_SUCCESS (controlled str) = false -> st = controlled str).
Proof.
  intros run st opened controlled. subst st run.
  assert (Calls :
    control_calls
      (snd (SendDirectoryFsctl ChangePrefix ZwOpenFile ZwFsControlFile
              Path Code Input InputLength)) =
    match ChangePrefix Path with
    | Some str =>
        if NT_SUCCESS (fst (ZwOpenFile str)) then
          [(snd (ZwOpenFile str), Code, Input, InputLength,
            ZwFsControlFile (snd (ZwOpenFile str)) Code Input InputLength)]
        else []
    | None => []
    end).
  { unfold SendDirectoryFsctl, SendDirectoryTry, SendDirectoryFinally.
    destruct (ChangePrefix Path) as [str|]; [|reflexivity].
    destruct (ZwOpenFile str) as [r1 h]. cbn [fst snd].
    destruct (NT_SUCCESS r1); cbn [negb].
    - destruct (NT_SUCCESS (ZwFsControlFile h Code Input InputLength));
        cbn [negb snd directoryStr handle]; destruct (negb (h =? 0));
        reflexivity.
    - cbn [snd directoryStr handle]. destruct (negb (h =? 0)); reflexivity. }
  split; [|split; [|split]].
  { intros str Ec Ok. rewrite Calls, Ec. subst opened. cbn beta in Ok.
    now rewrite Ok. }
  { intros str Ec Bad. rewrite Calls, Ec. subst opened. cbn beta in Bad.
    now rewrite Bad. }
  { intros Ec. now rewrite Calls, Ec. }
  unfold SendDirectoryFsctl, SendDirectoryTry, DokanLogError.
  destruct (ChangePrefix Path) as [str|] eqn:Ec.
  2:{ cbn. repeat split; try discriminate; try easy.
      intros (str & E & _). discriminate E. }
  subst opened controlled. cbn beta.
  destruct (ZwOpenFile str) as [r1 h] eqn:Eo. cbn [fst snd].
  destruct (NT_SUCCESS r1) eqn:S1; cbn [negb].
  - destruct (NT_SUCCESS (ZwFsControlFile h Code Input InputLength)) eqn:S2;
      cbn [negb fst returned].
    + repeat split; try easy.
      * intros _. exists str. rewrite Eo. now repeat split.
      * intros s' [= <-]. rewrite Eo. cbn. congruence.
      * intros s' [= <-]. rewrite Eo. cbn. congruence.
    + repeat split.
      * intros E. rewrite E in S2. discriminate S2.
      * intros (s' & [= <-] & _ & S). rewrite Eo in S. cbn in S. congruence.
      * intros S. congruence.
      * discriminate.
      * intros s' [= <-]. rewrite Eo. cbn. congruence.
      * intros s' [= <-]. now rewrite Eo.
  - cbn [fst returned]. repeat split.
    + intros E. rewrite E in S1. discriminate S1.
    + intros (s' & [= <-] & S & _). rewrite Eo in S. cbn in S. congruence.
    + intros S. congruence.
    + discriminate.
    + intros s' [= <-]. now rewrite Eo.
    + intros s' [= <-]. rewrite Eo. cbn. congruence.
Qed.

(** X7.  Strings and handles of [SendDirectoryFsctl] on every path.
    The [finally] block closes whatever [ZwOpenFile] left in [handle]
    when that is not 0, and nothing else, whether the open succeeded or
    not.  So, provided [ZwOpenFile] leaves a value other than 0 exactly
    when it succeeds: the string [ChangePrefix] allocated is freed once,
    after its last use; the handle opened is closed once, after the
    control call; [ZwFsControlFile] is only called on an open handle;
    nothing is freed or closed that was not obtained, and nothing
    obtained is left behind.  After an open that fails and yet leaves a
    value, that value is closed although no handle was obtained; after
    an open that succeeds with 0, nothing is closed. *)
Theorem send_directory_fsctl_releases Path Code Input InputLength :
  let t :=
    snd (SendDirectoryFsctl ChangePrefix ZwOpenFile ZwFsControlFile
           Path Code Input InputLength) in
  let nothing := mkDirectoryResources [] [] in
  ((forall str, NT_SUCCESS (fst (ZwOpenFile str)) = true <->
                snd (ZwOpenFile str) <> 0) ->
   directory_resources nothing t = Some nothing) /\
  (forall str, ChangePrefix Path = Some str -> snd (ZwOpenFile str) <> 0 ->
     closed_handles t = [snd (ZwOpenFile str)]) /\
  (forall str, ChangePrefix Path = Some str -> snd (ZwOpenFile str) = 0 ->
     closed_handles t = []) /\
  (ChangePrefix Path = None -> closed_handles t = []) /\
  (forall str, ChangePrefix Path = Some str ->
     NT_SUCCESS (fst (ZwOpenFile str)) = false -> snd (ZwOpenFile str) <> 0 ->
     directory_resources nothing t = None) /\
  (forall str, ChangePrefix Path = Some str ->
     NT_SUCCESS (fst (ZwOpenFile str)) = true -> snd (ZwOpenFile str) = 0 ->
     directory_resources nothing t = Some (mkDirectoryResources [] [0])).
Proof.
  intros t nothing. subst t nothing.
  destruct (ChangePrefix Path) as [str|] eqn:Ec.
  2:{ unfold SendDirectoryFsctl, SendDirectoryTry. rewrite Ec. cbn.
      repeat split; intros; try reflexivity; discriminate. }
  rewrite (SendDirectoryFsctl_trace _ _ _ _ _ Ec).
  assert (Same : forall str', Some str = Some str' -> str' = str)
    by (intros str' [= <-]; reflexivity).
  destruct (ZwOpenFile str) as [r1 h] eqn:Eo. cbn [fst snd].
  assert (Walk :
    directory_resources (mkDirectoryResources [] [])
      ([Call_ChangePrefix Path (Some str); Call_ZwOpenFile str r1 h] ++
       (if NT_SUCCESS r1
        then [Call_ZwFsControlFile h Code Input InputLength
                (ZwFsControlFile h Code Input InputLength)]
        else []) ++
       [Call_DokanFreeUnicodeString str] ++
       (if negb (h =? 0) then [Call_ZwClose h] else [])) =
    if NT_SUCCESS r1 then
      Some (mkDirectoryResources [] (if negb (h =? 0) then [] else [h]))
    else if negb (h =? 0) then None else Some (mkDirectoryResources [] [])).
  { cbn [app directory_resources live_strings open_handles].
    rewrite bool_decide_head.
    destruct (NT_SUCCESS r1), (negb (h =? 0));
      cbn [app directory_resources live_strings open_handles];
      rewrite ?bool_decide_head, ?remove_first_head;
      cbn [directory_resources live_strings open_handles];
      rewrite ?bool_decide_head, ?remove_first_head;
      cbn [directory_resources live_strings open_handles];
      rewrite ?bool_decide_head, ?remove_first_head; reflexivity. }
  assert (Closed :
    closed_handles
      ([Call_ChangePrefix Path (Some str); Call_ZwOpenFile str r1 h] ++
       (if NT_SUCCESS r1
        then [Call_ZwFsControlFile h Code Input InputLength
                (ZwFsControlFile h Code Input InputLength)]
        else []) ++
       [Call_DokanFreeUnicodeString str] ++
       (if negb (h =? 0) then [Call_ZwClose h] else [])) =
    if negb (h =? 0) then [h] else []).
  { destruct (NT_SUCCESS r1), (negb (h =? 0)); reflexivity. }
  rewrite Walk, Closed.
  split; [|split; [|split; [|split; [|split]]]].
  - intros Hopen. specialize (Hopen str). rewrite Eo in Hopen.
    cbn [fst snd] in Hopen.
    destruct (NT_SUCCESS r1) eqn:S1.
    + assert (Hh : h <> 0) by now apply Hopen.
      apply Z.eqb_neq in Hh. now rewrite Hh.
    + destruct (h =? 0) eqn:E0; [reflexivity|].
      apply Z.eqb_neq in E0. apply Hopen in E0. discriminate E0.
  - intros str' E Hh. rewrite (Same str' E), Eo in *. cbn [snd] in *.
    apply Z.eqb_neq in Hh. now rewrite Hh.
  - intros str' E Hh. rewrite (Same str' E), Eo in *. cbn [snd] in *.
    now subst h.
  - discriminate.
  - intros str' E Bad Hh. rewrite (Same str' E), Eo in *. cbn [fst snd] in *.
    rewrite Bad. apply Z.eqb_neq in Hh. now rewrite Hh.
  - intros str' E Ok Hh. rewrite (Same str' E), Eo in *. cbn [fst snd] in *.
    subst h. now rewrite Ok.
Qed.

End DirectoryProperties.

(** The directory opens under handle 0x40: the control call is made on
    it, and its STATUS_PENDING comes back as STATUS_SUCCESS. *)
Lemma send_directory_fsctl_status_witness :
  control_calls
    (snd (SendDirectoryFsctl SampleDirectory.change_prefix
            SampleDirectory.open_file SampleDirectory.fs_control
            SampleDirectory.dos_path 0x900A4 None 0)) =
    [(0x40, 0x900A4, None, 0, Sample.STATUS_PENDING)] /\
  fst (SendDirectoryFsctl SampleDirectory.change_prefix
         SampleDirectory.open_file SampleDirectory.fs_control
         SampleDirectory.dos_path 0x900A4 None 0) = STATUS_SUCCESS.
Proof.
  destruct (send_directory_fsctl_status SampleDirectory.change_prefix
              SampleDirectory.open_file SampleDirectory.fs_control
              SampleDirectory.dos_path 0x900A4 None 0)
    as (Calls & _ & _ & Status & _).
  split.
  - apply (Calls SampleDirectory.nt_path); reflexivity.
  - apply Status. exists SampleDirectory.nt_path. by_computation.
Defined.

(** The same call: string and handle are given back.  After an open
    that fails and leaves 0x40 in [handle], 0x40 is closed all the
    same. *)
Lemma send_directory_fsctl_releases_witness :
  directory_resources (mkDirectoryResources [] [])
    [Call_ChangePrefix SampleDirectory.dos_path (Some SampleDirectory.nt_path);
     Call_ZwOpenFile SampleDirectory.nt_path STATUS_SUCCESS 0x40;
     Call_ZwFsControlFile 0x40 0x900A4 None 0 Sample.STATUS_PENDING;
     Call_DokanFreeUnicodeString SampleDirectory.nt_path;
     Call_ZwClose 0x40] =
    Some (mkDirectoryResources [] []) /\
  closed_handles
    (snd (SendDirectoryFsctl SampleDirectory.change_prefix
            SampleDirectory.open_file_leaving SampleDirectory.fs_control
            SampleDirectory.dos_path 0x900A4 None 0)) = [0x40] /\
  directory_resources (mkDirectoryResources [] [])
    [Call_ChangePrefix SampleDirectory.dos_path (Some SampleDirectory.nt_path);
     Call_ZwOpenFile SampleDirectory.nt_path STATUS_OBJECT_NAME_INVALID 0x40;
     Call_DokanFreeUnicodeString SampleDirectory.nt_path;
     Call_ZwClose 0x40] = None.
Proof.
  split; [|split].
  - apply (proj1 (send_directory_fsctl_releases SampleDirectory.change_prefix
                    SampleDirectory.open_file SampleDirectory.fs_control
                    SampleDirectory.dos_path 0x900A4 None 0)).
    intros str. unfold SampleDirectory.open_file.
    destruct (bool_decide (str = SampleDirectory.nt_path)); cbn [fst snd].
    + split; [discriminate | reflexivity].
    + split; [discriminate | intros N; now destruct N].
  - destruct (send_directory_fsctl_releases SampleDirectory.change_prefix
                SampleDirectory.open_file_leaving SampleDirectory.fs_control
                SampleDirectory.dos_path 0x900A4 None 0)
      as (_ & Closed & _).
    apply (Closed SampleDirectory.nt_path); [reflexivity | discriminate].
  - destruct (send_directory_fsctl_releases SampleDirectory.change_prefix
                SampleDirectory.open_file_leaving SampleDirectory.fs_control
                SampleDirectory.dos_path 0x900A4 None 0)
      as (_ & _ & _ & _ & Stray & _).
    apply (Stray SampleDirectory.nt_path);
      [reflexivity | reflexivity | discriminate].
Defined.

(** ** Validation of the objects behind a request *)

Lemma checked_rejected {A : Type} (tbl : State -> gmap Z A) tag T p s :
  rejected (tbl s) tag T p -> checked tbl tag T p s = Some (None, s).
Proof.
  intros [->|(a & x & -> & E & N)]; [reflexivity|].
  unfold checked. rewrite (bind_load_Some tbl _ x) by exact E.
  now rewrite bool_decide_false.
Qed.

Lemma checked_resolves {A : Type} (tbl : State -> gmap Z A) tag T p a x s :
  resolves (tbl s) tag T p a x ->
  checked tbl tag T p s = Some (Some (a, x), s).
Proof. intros (-> & E & Et). now apply checked_Some. Qed.

Section ValidationProperties.
Context {ext : Externals}.

(** X8.  [DokanOplockRequest] on a request whose chain of objects is broken.
    When the CCB, the FCB, the VCB or the DCB is missing (a NULL
    pointer) or carries the tag of another kind of object, the links
    before it being in order, the call returns
    STATUS_INVALID_PARAMETER; store and trace are as before and the
    caller keeps the request. *)
Theorem oplock_broken_chain_refused s irp fileObject :
  FileObject (IoGetCurrentIrpStackLocation irp) = Some fileObject ->
  BrokenChain s fileObject ->
  DokanOplockRequest irp s = Some ((STATUS_INVALID_PARAMETER, Some irp), s).
Proof.
  intros Hfo B. unfold DokanOplockRequest. rewrite Hfo. cbn [deref].
  rewrite bind_ret.
  destruct B as [[R|pccb ccb C R]|pccb ccb pfcb fcb [C F] R
                 |pccb ccb pfcb fcb pvcb vcb [C F] V R].
  - now rewrite (bind_Some _ _ _ _ _ (checked_rejected ccbs _ _ _ _ R)).
  - rewrite (bind_Some _ _ _ _ _ (checked_resolves ccbs _ _ _ _ _ _ C)).
    now rewrite (bind_Some _ _ _ _ _ (checked_rejected fcbs _ _ _ _ R)).
  - rewrite (bind_Some _ _ _ _ _ (checked_resolves ccbs _ _ _ _ _ _ C)).
    rewrite (bind_Some _ _ _ _ _ (checked_resolves fcbs _ _ _ _ _ _ F)).
    now rewrite (bind_Some _ _ _ _ _ (checked_rejected vcbs _ _ _ _ R)).
  - rewrite (bind_Some _ _ _ _ _ (checked_resolves ccbs _ _ _ _ _ _ C)).
    rewrite (bind_Some _ _ _ _ _ (checked_resolves fcbs _ _ _ _ _ _ F)).
    rewrite (bind_Some _ _ _ _ _ (checked_resolves vcbs _ _ _ _ _ _ V)).
    now rewrite (bind_Some _ _ _ _ _ (checked_rejected dcbs _ _ _ _ R)).
Qed.

(** X9.  A request that carries no file object.  The keepalive and the
    notify case of [DokanUserFsRequest] test the pointer and return
    STATUS_INVALID_PARAMETER, leaving store and trace as they were;
    [DokanOplockRequest] reads [fileObject->FsContext2] without a test,
    so for the nine oplock codes the call has no result. *)
Theorem missing_file_object DeviceObject s irp :
  FileObject (IoGetCurrentIrpStackLocation irp) = None ->
  let code := FsControlCode (IoGetCurrentIrpStackLocation irp) in
  (code = FSCTL_ACTIVATE_KEEPALIVE ->
   DokanUserFsRequest DeviceObject irp s =
     Some ((STATUS_INVALID_PARAMETER, Some irp), s)) /\
  (forall path,
   code = FSCTL_NOTIFY_PATH ->
   GET_IRP_NOTIFY_PATH_INTERMEDIATE_OR_RETURN irp = inr path ->
   DokanUserFsRequest DeviceObject irp s =
     Some ((STATUS_INVALID_PARAMETER, Some irp), s)) /\
  (oplock_code code = true -> DokanUserFsRequest DeviceObject irp s = None) /\
  DokanOplockRequest irp s = None.
Proof.
  intros Hfo code.
  assert (O : DokanOplockRequest irp s = None)
    by (unfold DokanOplockRequest; now rewrite Hfo).
  unfold DokanUserFsRequest. fold code. repeat split.
  - intros ->. unfold ActivateKeepalive. now rewrite Hfo.
  - intros path -> G. unfold NotifyPath. now rewrite G, Hfo.
  - destruct code; try discriminate; intros _; exact O.
  - exact O.
Qed.

(** X10.  FSCTL_ACTIVATE_KEEPALIVE is refused with STATUS_INVALID_PARAMETER,
    store and trace untouched, when the CCB or the FCB behind the file
    object fails its test, and when the file is not the keepalive file
    of the volume, whatever the keepalive flags are.  A call that
    returns gives STATUS_SUCCESS or STATUS_INVALID_PARAMETER, the
    latter always without a change; the caller keeps the request. *)
Theorem keepalive_refused_unchanged DeviceObject s irp :
  FsControlCode (IoGetCurrentIrpStackLocation irp) = FSCTL_ACTIVATE_KEEPALIVE ->
  let refused :=
    DokanUserFsRequest DeviceObject irp s =
      Some ((STATUS_INVALID_PARAMETER, Some irp), s) in
  (forall fo,
     FileObject (IoGetCurrentIrpStackLocation irp) = Some fo ->
     BrokenHandle s fo -> refused) /\
  (forall fo pccb ccb pfcb fcb,
     FileObject (IoGetCurrentIrpStackLocation irp) = Some fo ->
     HandleResolves s fo pccb ccb pfcb fcb ->
     IsKeepalive fcb = false -> refused) /\
  (forall r s',
     DokanUserFsRequest DeviceObject irp s = Some (r, s') ->
     r = (STATUS_SUCCESS, Some irp) \/
     (r = (STATUS_INVALID_PARAMETER, Some irp) /\ s' = s)).
Proof.
  intros Ecode refused. subst refused. unfold DokanUserFsRequest.
  rewrite Ecode. split; [|split].
  - intros fo Hfo B. unfold ActivateKeepalive. rewrite Hfo.
    destruct B as [R|pccb ccb C R].
    + now rewrite (bind_Some _ _ _ _ _ (checked_rejected ccbs _ _ _ _ R)).
    + rewrite (bind_Some _ _ _ _ _ (checked_resolves ccbs _ _ _ _ _ _ C)).
      now rewrite (bind_Some _ _ _ _ _ (checked_rejected fcbs _ _ _ _ R)).
  - intros fo pccb ccb pfcb fcb Hfo [C F] K. unfold ActivateKeepalive.
    rewrite Hfo.
    rewrite (bind_Some _ _ _ _ _ (checked_resolves ccbs _ _ _ _ _ _ C)).
    rewrite (bind_Some _ _ _ _ _ (checked_resolves fcbs _ _ _ _ _ _ F)).
    now rewrite K.
  - intros r s' K.
    apply ActivateKeepalive_inv in K as [[-> ->]|(h & _ & _ & _ & -> & _)];
      [now right | now left].
Qed.

(** What a call of [NotifyPath] that returns has done: nothing, or the
    report under the shared lock of the Fcb. *)
Lemma NotifyPath_inv s irp r s' :
  NotifyPath irp s = Some (r, s') ->
  (snd r = Some irp /\ s' = s) \/
  exists path fo pccb ccb pfcb fcb,
    GET_IRP_NOTIFY_PATH_INTERMEDIATE_OR_RETURN irp = inr path /\
    FileObject (IoGetCurrentIrpStackLocation irp) = Some fo /\
    HandleResolves s fo pccb ccb pfcb fcb /\
    let name := mkUnicodeString (Length path) (Length path) (Buffer path) in
    let st := DokanNotifyReportChange0 fcb name (CompletionFilter path)
                                       (Action path) in
    r = (st, Some irp) /\
    s' = after ([DokanFCBLockRO pfcb;
                 Call_DokanNotifyReportChange0 pfcb name
                   (CompletionFilter path) (Action path);
                 DokanFCBUnlock pfcb] ++
                (if st =? STATUS_OBJECT_NAME_INVALID
                 then [Call_DokanCleanupAllChangeNotificationWaiters
                         (fcb_Vcb fcb)]
                 else [])) s.
Proof.
  unfold NotifyPath. intros K.
  destruct (GET_IRP_NOTIFY_PATH_INTERMEDIATE_OR_RETURN irp) as [st|path] eqn:G;
    [injection K as <- <-; now left|].
  destruct (FileObject (IoGetCurrentIrpStackLocation irp)) as [fo|] eqn:Hfo;
    [|injection K as <- <-; now left].
  apply bind_inv in K as (occb & s1 & C1 & K).
  apply checked_inv in C1 as [-> [->|(pccb & ccb & Hctx & Hccb & Tccb & ->)]];
    [injection K as <- <-; now left|].
  apply bind_inv in K as (ofcb & s2 & C2 & K).
  apply checked_inv in C2 as [-> [->|(pfcb & fcb & Hf & Hfcb & Tfcb & ->)]];
    [injection K as <- <-; now left|].
  right. exists path, fo, pccb, ccb, pfcb, fcb.
  split; [reflexivity|]. split; [reflexivity|].
  split; [now repeat split|]. cbv zeta.
  rewrite !bind_emit in K.
  destruct (_ =? STATUS_OBJECT_NAME_INVALID); cbn [when_] in K.
  - rewrite bind_emit, ret_run, !after_after in K. injection K as <- <-.
    now split.
  - rewrite bind_ret, ret_run, !after_after in K. injection K as <- <-.
    now split.
Qed.

(** X11.  FSCTL_NOTIFY_PATH on a handle whose CCB and FCB resolve, with a
    payload the buffer macro accepts: [DokanNotifyReportChange0] is
    called once, under the shared lock of the Fcb, with a string whose
    Length and MaximumLength are both the length of the payload; its
    status is the status returned.  The lock is released before
    anything else happens, and the waiters of the volume are cleaned up
    afterwards exactly when that status is STATUS_OBJECT_NAME_INVALID.
    Nothing but the trace changes and the caller keeps the request. *)
Theorem notify_path_reported DeviceObject s irp fo pccb ccb pfcb fcb path :
  FsControlCode (IoGetCurrentIrpStackLocation irp) = FSCTL_NOTIFY_PATH ->
  GET_IRP_NOTIFY_PATH_INTERMEDIATE_OR_RETURN irp = inr path ->
  FileObject (IoGetCurrentIrpStackLocation irp) = Some fo ->
  HandleResolves s fo pccb ccb pfcb fcb ->
  let name := mkUnicodeString (Length path) (Length path) (Buffer path) in
  let st := DokanNotifyReportChange0 fcb name (CompletionFilter path)
                                     (Action path) in
  DokanUserFsRequest DeviceObject irp s =
    Some ((st, Some irp),
          after ([DokanFCBLockRO pfcb;
                  Call_DokanNotifyReportChange0 pfcb name
                    (CompletionFilter path) (Action path);
                  DokanFCBUnlock pfcb] ++
                 (if st =? STATUS_OBJECT_NAME_INVALID
                  then [Call_DokanCleanupAllChangeNotificationWaiters
                          (fcb_Vcb fcb)]
                  else [])) s).
Proof.
  intros Ecode G Hfo [C F] name st. unfold DokanUserFsRequest. rewrite Ecode.
  unfold NotifyPath. rewrite G, Hfo.
  rewrite (bind_Some _ _ _ _ _ (checked_resolves ccbs _ _ _ _ _ _ C)).
  rewrite (bind_Some _ _ _ _ _ (checked_resolves fcbs _ _ _ _ _ _ F)).
  rewrite !bind_emit. fold name. fold st.
  destruct (st =? STATUS_OBJECT_NAME_INVALID); cbn [when_].
  - now rewrite bind_emit, ret_run, !after_after.
  - now rewrite bind_ret, ret_run, !after_after.
Qed.

(** X12.  FSCTL_NOTIFY_PATH that does not reach the report.  A payload the
    buffer macro rejects ends the call with the status of the macro,
    before the file object is looked at; a CCB or FCB that fails its
    test ends it with STATUS_INVALID_PARAMETER.  In both cases store and
    trace are as before: no lock was taken and nothing was reported.
    Every call that returns is one of these, a call without file
    object, or a report. *)
Theorem notify_path_refused DeviceObject s irp :
  FsControlCode (IoGetCurrentIrpStackLocation irp) = FSCTL_NOTIFY_PATH ->
  (forall st,
     GET_IRP_NOTIFY_PATH_INTERMEDIATE_OR_RETURN irp = inl st ->
     DokanUserFsRequest DeviceObject irp s = Some ((st, Some irp), s)) /\
  (forall path fo,
     GET_IRP_NOTIFY_PATH_INTERMEDIATE_OR_RETURN irp = inr path ->
     FileObject (IoGetCurrentIrpStackLocation irp) = Some fo ->
     BrokenHandle s fo ->
     DokanUserFsRequest DeviceObject irp s =
       Some ((STATUS_INVALID_PARAMETER, Some irp), s)) /\
  (forall r s',
     DokanUserFsRequest DeviceObject irp s = Some (r, s') ->
     (snd r = Some irp /\ s' = s) \/
     exists path fo pccb ccb pfcb fcb,
       GET_IRP_NOTIFY_PATH_INTERMEDIATE_OR_RETURN irp = inr path /\
       FileObject (IoGetCurrentIrpStackLocation irp) = Some fo /\
       HandleResolves s fo pccb ccb pfcb fcb /\
       In (Call_DokanNotifyReportChange0 pfcb
             (mkUnicodeString (Length path) (Length path) (Buffer path))
             (CompletionFilter path) (Action path))
          (drop (length (trace s)) (trace s'))).
Proof.
  intros Ecode. unfold DokanUserFsRequest. rewrite Ecode. split; [|split].
  - intros st G. unfold NotifyPath. now rewrite G.
  - intros path fo G Hfo B. unfold NotifyPath. rewrite G, Hfo.
    destruct B as [R|pccb ccb C R].
    + now rewrite (bind_Some _ _ _ _ _ (checked_rejected ccbs _ _ _ _ R)).
    + rewrite (bind_Some _ _ _ _ _ (checked_resolves ccbs _ _ _ _ _ _ C)).
      now rewrite (bind_Some _ _ _ _ _ (checked_rejected fcbs _ _ _ _ R)).
  - intros r s' K.
    apply NotifyPath_inv in K
      as [K|(path & fo & pccb & ccb & pfcb & fcb & G & Hfo & H & _ & ->)];
      [now left|].
    right. exists path, fo, pccb, ccb, pfcb, fcb.
    split; [exact G|]. split; [exact Hfo|]. split; [exact H|].
    rewrite trace_after, drop_app_length. cbn. tauto.
Qed.

End ValidationProperties.

(** A level 1 request through a file object without context. *)
Lemma oplock_broken_chain_refused_witness :
  let irp := SampleRequests.bare_request FSCTL_REQUEST_OPLOCK_LEVEL_1
               (Some (mkFileObject None)) in
  DokanOplockRequest (ext := Sample.externals) irp Sample.state =
  Some ((STATUS_INVALID_PARAMETER, Some irp), Sample.state).
Proof.
  cbv zeta.
  apply (oplock_broken_chain_refused (ext := Sample.externals) Sample.state _
           (mkFileObject None)).
  - reflexivity.
  - apply Broken_handle, Broken_ccb. now left.
Defined.

(** A batch request that carries no file object. *)
Lemma missing_file_object_witness :
  DokanOplockRequest (ext := Sample.externals)
    (SampleRequests.bare_request FSCTL_REQUEST_BATCH_OPLOCK None) Sample.state =
  None.
Proof.
  exact (proj2 (proj2 (proj2
    (missing_file_object (ext := Sample.externals) 11 Sample.state
       (SampleRequests.bare_request FSCTL_REQUEST_BATCH_OPLOCK None)
       ltac:(reflexivity))))).
Defined.

(** Handle 1 of the sample store is on an ordinary file. *)
Lemma keepalive_refused_unchanged_witness :
  let irp := Sample.request FSCTL_ACTIVATE_KEEPALIVE 1 None 0 0 in
  DokanUserFsRequest (ext := Sample.externals) 11 irp Sample.state =
  Some ((STATUS_INVALID_PARAMETER, Some irp), Sample.state).
Proof.
  cbv zeta.
  apply (proj1 (proj2 (keepalive_refused_unchanged (ext := Sample.externals) 11
                         Sample.state
                         (Sample.request FSCTL_ACTIVATE_KEEPALIVE 1 None 0 0)
                         ltac:(reflexivity)))
               (mkFileObject (Some 1)) 1 (Sample.handle 1) 1 Sample.fcb_file).
  - reflexivity.
  - by_computation.
  - reflexivity.
Defined.

(** A change of "a" reported through handle 1. *)
Lemma notify_path_reported_witness :
  let irp := SampleRequests.notify_request 1 in
  DokanUserFsRequest (ext := Sample.externals) 11 irp Sample.state =
  Some ((STATUS_SUCCESS, Some irp),
        after [DokanFCBLockRO 1;
               Call_DokanNotifyReportChange0 1 (mkUnicodeString 2 2 [97]) 1 3;
               DokanFCBUnlock 1] Sample.state).
Proof.
  cbv zeta.
  exact (notify_path_reported (ext := Sample.externals) 11 Sample.state
           (SampleRequests.notify_request 1) (mkFileObject (Some 1))
           1 (Sample.handle 1) 1 Sample.fcb_file SampleRequests.notify_payload
           ltac:(reflexivity) ltac:(reflexivity) ltac:(reflexivity)
           ltac:(by_computation)).
Defined.

(** A notify request without payload. *)
Lemma notify_path_refused_witness :
  let irp := Sample.request FSCTL_NOTIFY_PATH 1 None 0 0 in
  DokanUserFsRequest (ext := Sample.externals) 11 irp Sample.state =
  Some ((STATUS_BUFFER_TOO_SMALL, Some irp), Sample.state).
Proof.
  cbv zeta.
  exact (proj1 (notify_path_refused (ext := Sample.externals) 11 Sample.state
                  (Sample.request FSCTL_NOTIFY_PATH 1 None 0 0)
                  ltac:(reflexivity))
               STATUS_BUFFER_TOO_SMALL ltac:(reflexivity)).
Defined.

(** ** Control requests as a whole *)

Section ControlRequestProperties.
Context {ext : Externals}.

(** X13.  No control request returns holding a lock.  Every call of
    [DokanUserFsRequest] that returns has added to the trace a sequence
    in which each Vcb or Fcb lock taken is released, last taken first,
    whatever the control code and whatever the routines called under
    the lock reported; and unless the code is FSCTL_ACTIVATE_KEEPALIVE
    the trace is all that changed. *)
Theorem control_requests_release_locks DeviceObject s irp r s' :
  DokanUserFsRequest DeviceObject irp s = Some (r, s') ->
  exists delta,
    trace s' = trace s ++ delta /\
    lock_stack [] delta = Some [] /\
    (FsControlCode (IoGetCurrentIrpStackLocation irp) <>
       FSCTL_ACTIVATE_KEEPALIVE -> s' = after delta s).
Proof.
  assert (ViaOplock : DokanOplockRequest irp s = Some (r, s') ->
    exists delta, trace s' = trace s ++ delta /\
      lock_stack [] delta = Some [] /\ s' = after delta s).
  { intros K. apply DokanOplockRequest_outcome in K as (delta & -> & O).
    exists delta. split; [reflexivity|]. split; [|reflexivity].
    eapply OplockOutcome_locks; eauto. }
  assert (Plain : forall x : NTSTATUS * option IRP,
    ret x s = Some (r, s') ->
    exists delta, trace s' = trace s ++ delta /\
      lock_stack [] delta = Some [] /\ s' = after delta s).
  { intros x [= <- <-]. exists []. rewrite app_nil_r, after_nil. now repeat split. }
  unfold DokanUserFsRequest.
  destruct (FsControlCode (IoGetCurrentIrpStackLocation irp)) eqn:Ecode;
    intros K;
    try (destruct (ViaOplock K) as (delta & T & L & E); exists delta;
         split; [exact T|]; split; [exact L|]; intros _; exact E);
    try (destruct (Plain _ K) as (delta & T & L & E); exists delta;
         split; [exact T|]; split; [exact L|]; intros _; exact E).
  - apply ActivateKeepalive_inv in K as [[_ ->]|(h & _ & _ & _ & _ & ->)].
    + exists []. rewrite app_nil_r. split; [reflexivity|].
      split; [reflexivity|]. intros N. now contradiction N.
    + eexists. split; [reflexivity|]. split.
      * cbn. now rewrite Z.eqb_refl.
      * intros N. now contradiction N.
  - apply NotifyPath_inv in K
      as [[_ ->]|(path & fo & pccb & ccb & pfcb & fcb & _ & _ & _ & _ & ->)].
    + exists []. rewrite app_nil_r, after_nil. now repeat split.
    + eexists. split; [apply trace_after|]. split; [|reflexivity].
      destruct (_ =? STATUS_OBJECT_NAME_INVALID); cbn; now rewrite Z.eqb_refl.
Qed.

(** X14.  What control requests leave alone.  A call of
    [DokanUserFsRequest] that returns has changed no device, Dcb, Fcb,
    Vpb or mount entry.  Every CCB and every VCB is still there with its
    tag and its pointers, and a keepalive flag that was set is still
    set: no control request removes an object or clears a keepalive
    flag. *)
Theorem control_requests_keep_objects DeviceObject s irp r s' :
  DokanUserFsRequest DeviceObject irp s = Some (r, s') ->
  devices s' = devices s /\ dcbs s' = dcbs s /\ fcbs s' = fcbs s /\
  vpbs s' = vpbs s /\ MountEntryList s' = MountEntryList s /\
  (forall p ccb, ccbs s !! p = Some ccb ->
     exists ccb', ccbs s' !! p = Some ccb' /\
       ccb_Identifier ccb' = ccb_Identifier ccb /\
       ccb_Fcb ccb' = ccb_Fcb ccb /\
       (ccb_IsKeepaliveActive ccb = true ->
        ccb_IsKeepaliveActive ccb' = true)) /\
  (forall p vcb, vcbs s !! p = Some vcb ->
     exists vcb', vcbs s' !! p = Some vcb' /\
       vcb_Identifier vcb' = vcb_Identifier vcb /\
       vcb_DeviceObject vcb' = vcb_DeviceObject vcb /\
       vcb_Dcb vcb' = vcb_Dcb vcb /\
       vcb_Flags vcb' = vcb_Flags vcb /\
       (IsKeepaliveActive vcb = true -> IsKeepaliveActive vcb' = true)).
Proof.
  intros K. apply DokanUserFsRequest_step in K as [[delta ->]|(h & Hh & _ & ->)].
  { repeat split; try reflexivity.
    - intros p ccb E. exists ccb. now repeat split.
    - intros p vcb E. exists vcb. now repeat split. }
  destruct Hh as (_ & _ & Hccb & _ & _ & _ & _ & _ & Hvcb).
  unfold keepalive_activated. cbn [devices dcbs fcbs vpbs MountEntryList ccbs vcbs].
  repeat split; try reflexivity.
  - intros p ccb E. destruct (decide (p = h_pccb h)) as [->|N].
    + rewrite lookup_insert_eq. rewrite Hccb in E. injection E as <-.
      eexists. split; [reflexivity|]. now repeat split.
    + rewrite lookup_insert_ne by congruence. exists ccb. now repeat split.
  - intros p vcb E. destruct (decide (p = h_pvcb h)) as [->|N].
    + rewrite lookup_insert_eq. rewrite Hvcb in E. injection E as <-.
      eexists. split; [reflexivity|]. now repeat split.
    + rewrite lookup_insert_ne by congruence. exists vcb. now repeat split.
Qed.

Lemma OplockOutcome_not_completion s irp r delta :
  OplockOutcome s irp r delta -> Forall not_completion delta.
Proof. intros O. destruct O; repeat constructor. Qed.

Lemma DokanUserFsRequest_not_completion dev irp s r s' :
  DokanUserFsRequest dev irp s = Some (r, s') ->
  exists delta, trace s' = trace s ++ delta /\ Forall not_completion delta.
Proof.
  assert (ViaOplock : DokanOplockRequest irp s = Some (r, s') ->
    exists delta, trace s' = trace s ++ delta /\ Forall not_completion delta).
  { intros K. apply DokanOplockRequest_outcome in K as (delta & -> & O).
    exists delta. split; [reflexivity|].
    eapply OplockOutcome_not_completion; eauto. }
  assert (Other : forall m : M (NTSTATUS * option IRP),
    Emits not_completion any m -> m s = Some (r, s') ->
    exists delta, trace s' = trace s ++ delta /\ Forall not_completion delta).
  { intros m Hm K. now apply Hm in K as (_ & delta & T & F); exists delta. }
  unfold DokanUserFsRequest.
  destruct (FsControlCode (IoGetCurrentIrpStackLocation irp));
    try exact ViaOplock; apply Other.
  - unfold ActivateKeepalive, store_ccb_IsKeepaliveActive,
      store_vcb_IsKeepaliveActive.
    repeat emits_step; try exact I; reflexivity.
  - unfold NotifyPath. repeat emits_step; try exact I; reflexivity.
  - now apply Emits_ret.
  - now apply Emits_ret.
  - now apply Emits_ret.
  - now apply Emits_ret.
  - now apply Emits_ret.
Qed.

Lemma DokanMountVolume_not_completion dev irp :
  Emits not_completion any (DokanMountVolume dev irp).
Proof.
  unfold DokanMountVolume, MountCreate, MountAttach, MountInitVolume,
    MountPublish, DokanInitVpb, update_dev_Flags, update_vcb_Flags,
    store_dcb_Vcb, init_vcb, attach_mount_entry.
  repeat emits_step; try exact I; reflexivity.
Qed.

(** X15.  [DokanDispatchFileSystemControl] completes the request once.  A
    dispatch that returns has called [DokanCompleteIrpRequest] exactly
    once, as its last step and with the status it returns; nothing
    before that step completes the request.  For IRP_MN_MOUNT_VOLUME the
    request itself is what it completes.  A request whose minor
    function is neither IRP_MN_MOUNT_VOLUME nor IRP_MN_USER_FS_REQUEST
    is completed with STATUS_INVALID_DEVICE_REQUEST and touches nothing
    else. *)
Theorem dispatch_completes_once DeviceObject s irp st s' :
  DokanDispatchFileSystemControl DeviceObject irp s = Some (st, s') ->
  let minor := MinorFunction (IoGetCurrentIrpStackLocation irp) in
  exists delta p,
    trace s' = trace s ++ delta ++ [Call_DokanCompleteIrpRequest p st] /\
    Forall not_completion delta /\
    (minor = IRP_MN_MOUNT_VOLUME -> p = Some irp) /\
    (minor <> IRP_MN_MOUNT_VOLUME -> minor <> IRP_MN_USER_FS_REQUEST ->
     st = STATUS_INVALID_DEVICE_REQUEST /\
     s' = after [Call_DokanCompleteIrpRequest (Some irp) st] s).
Proof.
  intros K minor. unfold DokanDispatchFileSystemControl in K. fold minor in K.
  apply bind_inv in K as ([st1 p] & s1 & K1 & K2).
  rewrite bind_emit, ret_run in K2. cbn [fst snd] in K2. injection K2 as <- <-.
  destruct (minor =? IRP_MN_MOUNT_VOLUME) eqn:E1.
  { apply bind_inv in K1 as (st2 & s2 & M1 & M2). injection M2 as <- <- <-.
    apply DokanMountVolume_not_completion in M1 as (_ & delta & T & F).
    exists delta, (Some irp). split; [|split; [exact F|split]].
    - rewrite trace_after, T. now rewrite app_assoc.
    - reflexivity.
    - intros N. apply Z.eqb_eq in E1. now contradiction N. }
  destruct (minor =? IRP_MN_USER_FS_REQUEST) eqn:E2.
  { apply DokanUserFsRequest_not_completion in K1 as (delta & T & F).
    exists delta, p. split; [|split; [exact F|split]].
    - rewrite trace_after, T. now rewrite app_assoc.
    - intros N. apply Z.eqb_neq in E1. now contradiction E1.
    - intros _ N. apply Z.eqb_eq in E2. now contradiction N. }
  injection K1 as <- <- <-. exists [], (Some irp).
  split; [reflexivity|]. split; [constructor|]. split; [reflexivity|].
  now intros _ _.
Qed.

End ControlRequestProperties.

(** The change notification of handle 1: the shared lock of the Fcb is
    taken and released. *)
Lemma control_requests_release_locks_witness :
  exists delta,
    trace (after [DokanFCBLockRO 1;
                  Call_DokanNotifyReportChange0 1 (mkUnicodeString 2 2 [97]) 1 3;
                  DokanFCBUnlock 1] Sample.state) =
      trace Sample.state ++ delta /\
    lock_stack [] delta = Some [].
Proof.
  destruct (control_requests_release_locks (ext := Sample.externals) 11
              Sample.state (SampleRequests.notify_request 1)
              (STATUS_SUCCESS, Some (SampleRequests.notify_request 1))
              (after [DokanFCBLockRO 1;
                      Call_DokanNotifyReportChange0 1
                        (mkUnicodeString 2 2 [97]) 1 3;
                      DokanFCBUnlock 1] Sample.state)
              ltac:(vm_compute; reflexivity))
    as (delta & T & L & _).
  exists delta. split; [exact T | exact L].
Defined.

(** The activation of keepalive through handle 5: handle 1 is as it
    was. *)
Lemma control_requests_keep_objects_witness :
  exists ccb',
    ccbs (keepalive_activated Sample.state SampleKeepalive.first) !! 1 =
      Some ccb' /\
    ccb_Fcb ccb' = Some 1.
Proof.
  destruct (proj1 (proj2 (proj2 (proj2 (proj2 (proj2
              (control_requests_keep_objects (ext := Sample.externals) 11
                 Sample.state
                 (Sample.request FSCTL_ACTIVATE_KEEPALIVE 5 None 0 0)
                 (STATUS_SUCCESS,
                  Some (Sample.request FSCTL_ACTIVATE_KEEPALIVE 5 None 0 0))
                 (keepalive_activated Sample.state SampleKeepalive.first)
                 ltac:(vm_compute; reflexivity)))))))
              1 (Sample.handle 1) ltac:(reflexivity))
    as (ccb' & L & _ & F & _).
  exists ccb'. split; [exact L | exact F].
Defined.

(** A request with minor function 2. *)
Lemma dispatch_completes_once_witness :
  exists delta p,
    trace (after [Call_DokanCompleteIrpRequest (Some SampleRequests.odd_minor)
                    STATUS_INVALID_DEVICE_REQUEST] Sample.state) =
      trace Sample.state ++ delta ++
        [Call_DokanCompleteIrpRequest p STATUS_INVALID_DEVICE_REQUEST] /\
    Forall not_completion delta.
Proof.
  destruct (dispatch_completes_once (ext := Sample.externals) 11 Sample.state
              SampleRequests.odd_minor STATUS_INVALID_DEVICE_REQUEST
              (after [Call_DokanCompleteIrpRequest
                        (Some SampleRequests.odd_minor)
                        STATUS_INVALID_DEVICE_REQUEST] Sample.state)
              ltac:(vm_compute; reflexivity))
    as (delta & p & T & F & _).
  exists delta, p. split; [exact T | exact F].
Defined.

(** ** Requests the oplock package always sees *)

Section DelegationProperties.
Context {ext : Externals}.

Lemma directory_mismatch_file irp fcb :
  DokanFCBFlagsIsSet fcb DOKAN_FILE_DIRECTORY = false ->
  directory_mismatch irp fcb = false.
Proof. intros H. unfold directory_mismatch. now rewrite H. Qed.

(** X16.  The four break acknowledgements.  On a node that is not a
    directory, FSCTL_OPLOCK_BREAK_ACKNOWLEDGE,
    FSCTL_OPBATCH_ACK_CLOSE_PENDING, FSCTL_OPLOCK_BREAK_NOTIFY and
    FSCTL_OPLOCK_BREAK_ACK_NO_2 always reach the oplock package: the
    Fcb is locked shared, the Vcb not at all, the count handed over is
    0 whatever the open handles, the byte-range locks and the mount
    options are, and a node marked for delete is no obstacle.  The
    status of the package is returned and the request is no longer the
    caller's. *)
Theorem break_acknowledgement_delegated s irp c :
  IdentityChain s irp c ->
  break_acknowledgement (FsControlCode (IoGetCurrentIrpStackLocation irp)) =
    true ->
  DokanFCBFlagsIsSet (c_fcb c) DOKAN_FILE_DIRECTORY = false ->
  let oplock := DokanGetFcbOplock (c_fcb c) in
  DokanOplockRequest irp s =
    Some ((FsRtlOplockFsctrl oplock irp 0, None),
          after [DokanFCBLockRO (c_pfcb c);
                 Call_FsRtlOplockFsctrl oplock irp 0;
                 DokanFCBUnlock (c_pfcb c)] s).
Proof.
  intros Hc Hack Hfile oplock. rewrite (DokanOplockRequest_chain _ _ _ Hc).
  assert (N : FsControlCode (IoGetCurrentIrpStackLocation irp) <>
              FSCTL_REQUEST_OPLOCK) by (intros E; now rewrite E in Hack).
  rewrite (OplockChecked_acknowledge _ _ _ _ _ None _
             (OplockBuffers_other _ N) (directory_mismatch_file _ _ Hfile)).
  - unfold fails_delete_pending.
    destruct (FsControlCode (IoGetCurrentIrpStackLocation irp));
      try discriminate Hack; reflexivity.
  - destruct (FsControlCode (IoGetCurrentIrpStackLocation irp));
      try discriminate Hack; reflexivity.
  - destruct (FsControlCode (IoGetCurrentIrpStackLocation irp));
      try discriminate Hack; reflexivity.
Qed.

(** X17.  Requests the delete-pending test lets through.  On a node that is
    not a directory, a level 1 or a level 2 request is handed to the
    oplock package whether or not the node is marked for delete, and so
    is a generic request with its request flag set that does not ask
    for handle caching, once its buffers passed the size checks: both
    locks are taken, the package is called with the count of lines
    193-217, and the locks are released. *)
Theorem delete_pending_spares_requests s irp c :
  IdentityChain s irp c ->
  let code := FsControlCode (IoGetCurrentIrpStackLocation irp) in
  let oplock := DokanGetFcbOplock (c_fcb c) in
  let n := OplockCount irp (c_dcb c) (c_fcb c) in
  let delegated :=
    DokanOplockRequest irp s =
      Some ((FsRtlOplockFsctrl oplock irp n, None),
            after [DokanVCBLockRO (c_pvcb c); DokanFCBLockRW (c_pfcb c);
                   Call_FsRtlOplockFsctrl oplock irp n;
                   DokanFCBUnlock (c_pfcb c); DokanVCBUnlock (c_pvcb c)] s) in
  (code = FSCTL_REQUEST_OPLOCK_LEVEL_1 \/ code = FSCTL_REQUEST_OPLOCK_LEVEL_2 ->
   DokanFCBFlagsIsSet (c_fcb c) DOKAN_FILE_DIRECTORY = false ->
   delegated) /\
  (forall b,
   code = FSCTL_REQUEST_OPLOCK ->
   OplockBuffers irp = inr (Some b) ->
   directory_mismatch irp (c_fcb c) = false ->
   FlagOn (Flags b) REQUEST_OPLOCK_INPUT_FLAG_REQUEST = true ->
   FlagOn (RequestedOplockLevel b) OPLOCK_LEVEL_CACHE_HANDLE = false ->
   delegated).
Proof.
  intros Hc code oplock n delegated. subst delegated.
  rewrite (DokanOplockRequest_chain _ _ _ Hc). split.
  - intros Hcode Hfile.
    assert (N : code <> FSCTL_REQUEST_OPLOCK)
      by (intros E; destruct Hcode as [H|H]; rewrite E in H; discriminate H).
    rewrite (OplockChecked_request _ _ _ _ _ None _
               (OplockBuffers_other _ N) (directory_mismatch_file _ _ Hfile)).
    + fold code. unfold fails_delete_pending.
      destruct Hcode as [->| ->]; reflexivity.
    + fold code. destruct Hcode as [->| ->]; reflexivity.
  - intros b Ecode B D Rq Lv.
    rewrite (OplockChecked_request _ _ _ _ _ (Some b) _ B D).
    + fold code. unfold fails_delete_pending. rewrite Ecode. cbn [ib_Level from_option].
      rewrite Lv. reflexivity.
    + fold code. rewrite Ecode. unfold is_request_class. cbn [ib_Flags from_option].
      rewrite Rq. reflexivity.
Qed.

(** X18.  The codes [DokanOplockRequest] is written for.  [DokanUserFsRequest]
    hands exactly nine codes to it; each of them other than
    FSCTL_REQUEST_OPLOCK is an oplock request or a break
    acknowledgement, so the last branch of lines 234-237 is not reached
    from the dispatcher.  Called with any other code on a request whose
    chain resolves, [DokanOplockRequest] returns
    STATUS_INVALID_PARAMETER and leaves store and trace as they were. *)
Theorem oplock_codes_classified DeviceObject s irp :
  let code := FsControlCode (IoGetCurrentIrpStackLocation irp) in
  (oplock_code code = true ->
   DokanUserFsRequest DeviceObject irp s = DokanOplockRequest irp s) /\
  (oplock_code code = true -> code <> FSCTL_REQUEST_OPLOCK ->
   forall inputBuffer,
     is_request_class code inputBuffer ||
     is_acknowledge_class code inputBuffer = true) /\
  (oplock_code code = false ->
   forall c, IdentityChain s irp c ->
     DokanOplockRequest irp s =
       Some ((STATUS_INVALID_PARAMETER, Some irp), s)).
Proof.
  intros code. split; [|split].
  - intros H. unfold DokanUserFsRequest. fold code.
    destruct code; try discriminate H; reflexivity.
  - intros H N ib. destruct code; try discriminate H; try reflexivity.
    now contradiction N.
  - intros H c Hc. rewrite (DokanOplockRequest_chain _ _ _ Hc).
    assert (N : code <> FSCTL_REQUEST_OPLOCK)
      by (intros E; rewrite E in H; discriminate H).
    pose proof (OplockBuffers_other _ N) as B.
    destruct (directory_mismatch irp (c_fcb c)) eqn:D.
    + now apply (OplockChecked_directory _ _ _ _ _ None).
    + apply (OplockChecked_malformed _ _ _ _ _ None _ B D); fold code;
        destruct code; try discriminate H; reflexivity.
Qed.

(** X19.  The statuses of a refusal.  When [DokanOplockRequest] returns and
    the request is still the caller's, the status is
    STATUS_INVALID_PARAMETER, STATUS_DELETE_PENDING,
    STATUS_BUFFER_TOO_SMALL, or the status the buffer macro gave for
    FSCTL_REQUEST_OPLOCK: the STATUS_SUCCESS that [status] starts with
    is never what such a call returns by itself. *)
Theorem oplock_refusal_statuses s irp st s' :
  DokanOplockRequest irp s = Some ((st, Some irp), s') ->
  st = STATUS_INVALID_PARAMETER \/ st = STATUS_DELETE_PENDING \/
  st = STATUS_BUFFER_TOO_SMALL \/
  (FsControlCode (IoGetCurrentIrpStackLocation irp) = FSCTL_REQUEST_OPLOCK /\
   GET_IRP_BUFFER_OR_RETURN irp = inl st).
Proof.
  intros K. apply DokanOplockRequest_inv in K as [[[= ->] _]|(c & Hc & K)];
    [now left|].
  destruct (OplockBuffers irp) as [st0|ib] eqn:B.
  { rewrite (OplockChecked_buffers _ _ _ _ _ _ _ B) in K. injection K as <- _.
    unfold OplockBuffers, code_is in B.
    destruct (bool_decide _) eqn:D; [|discriminate B].
    apply bool_decide_eq_true in D.
    destruct (GET_IRP_BUFFER_OR_RETURN irp) as [st1|b0].
    - injection B as <-. right. right. right. now split.
    - destruct (_ <? _); [|discriminate B]. injection B as <-. tauto. }
  destruct (directory_mismatch irp (c_fcb c)) eqn:D.
  { rewrite (OplockChecked_directory _ _ _ _ _ _ _ B D) in K.
    injection K as <- _. now left. }
  destruct (is_request_class (FsControlCode (IoGetCurrentIrpStackLocation irp)) ib)
    eqn:R.
  { rewrite (OplockChecked_request _ _ _ _ _ _ _ B D R) in K.
    destruct (fails_delete_pending _ _ _); [|discriminate K].
    injection K as <- _. tauto. }
  destruct (is_acknowledge_class
              (FsControlCode (IoGetCurrentIrpStackLocation irp)) ib) eqn:A.
  { rewrite (OplockChecked_acknowledge _ _ _ _ _ _ _ B D R A) in K.
    destruct (fails_delete_pending _ _ _); [|discriminate K].
    injection K as <- _. tauto. }
  rewrite (OplockChecked_malformed _ _ _ _ _ _ _ B D R A) in K.
  injection K as <- _. now left.
Qed.

End DelegationProperties.

(** A break acknowledgement on the file marked for delete. *)
Lemma break_acknowledgement_delegated_witness :
  let irp := Sample.request FSCTL_OPLOCK_BREAK_ACKNOWLEDGE 3 None 0 0 in
  DokanOplockRequest (ext := Sample.externals) irp Sample.state =
  Some ((Sample.STATUS_PENDING, None),
        after [DokanFCBLockRO 3;
               Call_FsRtlOplockFsctrl (OplockHandle 0) irp 0;
               DokanFCBUnlock 3] Sample.state).
Proof.
  cbv zeta.
  exact (break_acknowledgement_delegated (ext := Sample.externals) Sample.state
           (Sample.request FSCTL_OPLOCK_BREAK_ACKNOWLEDGE 3 None 0 0)
           (Sample.chain 3 Sample.fcb_doomed)
           ltac:(by_computation) ltac:(reflexivity) ltac:(reflexivity)).
Defined.

(** A level 2 request on the file marked for delete. *)
Lemma delete_pending_spares_requests_witness :
  let irp := Sample.request FSCTL_REQUEST_OPLOCK_LEVEL_2 3 None 0 0 in
  DokanOplockRequest (ext := Sample.externals) irp Sample.state =
  Some ((Sample.STATUS_PENDING, None),
        after [DokanVCBLockRO 1; DokanFCBLockRW 3;
               Call_FsRtlOplockFsctrl (OplockHandle 0) irp 0;
               DokanFCBUnlock 3; DokanVCBUnlock 1] Sample.state).
Proof.
  cbv zeta.
  exact (proj1 (delete_pending_spares_requests (ext := Sample.externals)
                  Sample.state
                  (Sample.request FSCTL_REQUEST_OPLOCK_LEVEL_2 3 None 0 0)
                  (Sample.chain 3 Sample.fcb_doomed) ltac:(by_computation))
               ltac:(right; reflexivity) ltac:(reflexivity)).
Defined.

(** The generic request for handle caching on the file marked for
    delete. *)
Lemma oplock_refusal_statuses_witness :
  STATUS_DELETE_PENDING = STATUS_INVALID_PARAMETER \/
  STATUS_DELETE_PENDING = STATUS_DELETE_PENDING \/
  STATUS_DELETE_PENDING = STATUS_BUFFER_TOO_SMALL \/
  (FSCTL_REQUEST_OPLOCK = FSCTL_REQUEST_OPLOCK /\
   GET_IRP_BUFFER_OR_RETURN (Externals := Sample.externals)
     (Sample.generic 3 OPLOCK_LEVEL_CACHE_HANDLE
        REQUEST_OPLOCK_INPUT_FLAG_REQUEST 24) = inl STATUS_DELETE_PENDING).
Proof.
  exact (oplock_refusal_statuses (ext := Sample.externals) Sample.state
           (Sample.generic 3 OPLOCK_LEVEL_CACHE_HANDLE
              REQUEST_OPLOCK_INPUT_FLAG_REQUEST 24)
           STATUS_DELETE_PENDING
           (after [DokanVCBLockRO 1; DokanFCBLockRW 3;
                   DokanFCBUnlock 3; DokanVCBUnlock 1] Sample.state)
           ltac:(vm_compute; reflexivity)).
Defined.

(** The keepalive code, handed to [DokanOplockRequest] directly. *)
Lemma oplock_codes_classified_witness :
  let irp := Sample.request FSCTL_ACTIVATE_KEEPALIVE 1 None 0 0 in
  DokanOplockRequest (ext := Sample.externals) irp Sample.state =
  Some ((STATUS_INVALID_PARAMETER, Some irp), Sample.state).
Proof.
  cbv zeta.
  exact (proj2 (proj2 (oplock_codes_classified (ext := Sample.externals) 11
                         Sample.state
                         (Sample.request FSCTL_ACTIVATE_KEEPALIVE 1 None 0 0)))
               ltac:(reflexivity) (Sample.chain 1 Sample.fcb_file)
               ltac:(by_computation)).
Defined.

(** ** Mounting, step by step *)

Lemma resource_stack_app held t1 t2 :
  resource_stack held (t1 ++ t2) =
  resource_stack held t1 ≫= fun held' => resource_stack held' t2.
Proof.
  revert held. induction t1 as [|e t1 IH]; intros held; [reflexivity|].
  destruct e; cbn [app resource_stack]; try apply IH.
  - destruct held as [|[d'|] held']; try reflexivity.
    destruct (dcb =? d'); [apply IH | reflexivity].
  - destruct held as [|[d'|] held']; try reflexivity. apply IH.
Qed.

Lemma automount_calls_app t1 t2 :
  automount_calls (t1 ++ t2) = automount_calls t1 ++ automount_calls t2.
Proof. apply omap_app. Qed.

Lemma mount_setup_events held t :
  Forall mount_setup_event t ->
  resource_stack held t = Some held /\ automount_calls t = [].
Proof.
  induction 1 as [|e t He _ [IH1 IH2]]; [now split|].
  destruct e; try contradiction He; now split.
Qed.

Section MountSteps.
Context {ext : Externals}.

Lemma MountInitVolume_setup irp pvol dev pdcb dcb :
  Emits mount_setup_event any (MountInitVolume irp pvol dev pdcb dcb).
Proof.
  unfold MountInitVolume, init_vcb, store_dcb_Vcb, DokanInitVpb,
    update_dev_Flags, update_vcb_Flags.
  repeat emits_step; exact I.
Qed.

(** The Vpb of the request after [MountInitVolume]. *)
Lemma MountInitVolume_vpbs irp pvol dev pdcb dcb s pvcb s1 :
  MountInitVolume irp pvol dev pdcb dcb s = Some (pvcb, s1) ->
  forall p, MountVolume_Vpb (IoGetCurrentIrpStackLocation irp) = Some p ->
    vpbs s1 !! p = Some (initialised_vpb (Some pvol)).
Proof.
  intros K p Hp. unfold MountInitVolume in K. rewrite Hp in K.
  rewrite bind_modify in K.
  apply bind_inv in K as (pvcb' & s2 & _ & K).
  apply bind_inv in K as (u1 & s3 & _ & K).
  apply bind_inv in K as (u2 & s4 & _ & K).
  apply bind_inv in K as (u3 & s5 & _ & K).
  apply bind_inv in K as (u4 & s6 & V & K).
  assert (E6 : vpbs s6 !! p = Some (initialised_vpb (Some pvol))).
  { unfold DokanInitVpb in V. apply bind_inv in V as (v & s7 & L & V).
    apply load_inv in L as [_ ->]. injection V as _ <-.
    cbn [vpbs set_vpbs]. apply lookup_insert_eq. }
  assert (Kp : Keeps vpbs
    (update_dev_Flags pvol (fun f => SetLongFlag f DO_DIRECT_IO) >>
     update_dev_Flags pvol (fun f => ClearLongFlag f DO_DEVICE_INITIALIZING) >>
     update_vcb_Flags pvcb' (fun f => SetLongFlag f VCB_MOUNTED) >>
     emit (Call_ObReferenceObject pvol) >> ret pvcb')).
  { unfold update_dev_Flags, update_vcb_Flags. repeat keeps_step. }
  apply Kp in K. now rewrite K.
Qed.

(** [MountPublish] always returns STATUS_SUCCESS, adds only to the
    trace, gives back what it acquires and restores auto-mount; whom it
    calls depends on the configuration of the Dcb. *)
Lemma MountPublish_trace pdcb dcb net :
  let drive := IsMountPointDriveLetter (MountPoint dcb) in
  let manager := UseMountManager dcb in
  exists delta,
    (forall s, MountPublish pdcb dcb net s =
               Some (STATUS_SUCCESS, after delta s)) /\
    (forall held, resource_stack held delta = Some held) /\
    (automount_calls delta = [] \/ automount_calls delta = [false; true]) /\
    In (Call_DokanStartCheckThread pdcb) delta /\
    (In (Call_DokanSendVolumeArrivalNotification (DiskDeviceName dcb)) delta
     <-> manager = true) /\
    (In (Call_DokanCreateMountPoint pdcb) delta <-> drive = true) /\
    (In (Call_DokanRegisterUncProvider pdcb) delta <-> net = true) /\
    (In (Call_DokanSendAutoMount false) delta <->
     manager = true /\ drive = false /\ DokanQueryAutoMount true = true) /\
    (forall secure status, ~ In (Call_IoCreateDevice secure status) delta).
Proof.
  cbv zeta. unfold MountPublish.
  destruct (UseMountManager dcb), (IsMountPointDriveLetter (MountPoint dcb)),
    (DokanQueryAutoMount true), net; cbn [negb];
    (eexists; split; [intros s; run; reflexivity|];
     split; [intros held; cbn; rewrite ?Z.eqb_refl; reflexivity|];
     cbn; intuition (discriminate || congruence)).
Qed.

Lemma attach_mount_entry_run i pvol options s e :
  MountEntryList s !! i = Some e ->
  attach_mount_entry i pvol options s =
  Some (tt, set_MountEntryList
              (<[i := mkMountEntry
                        (mkControl (ctl_DeviceName (MountControl e))
                                   (ctl_UNCName (MountControl e))
                                   (ctl_SessionId (MountControl e))
                                   (Some pvol) options)]> (MountEntryList s))
              s).
Proof.
  intros E. unfold attach_mount_entry. rewrite bind_gets, E. reflexivity.
Qed.

Lemma attach_mount_entry_trace i pvol options s u s' :
  attach_mount_entry i pvol options s = Some (u, s') -> trace s' = trace s.
Proof.
  unfold attach_mount_entry. rewrite bind_gets. intros K.
  apply bind_inv in K as (e & s1 & D & K).
  destruct (MountEntryList s !! i); [|discriminate D]. injection D as _ <-.
  now injection K as _ <-.
Qed.

(** X20.  A mount that finds its entry.  On a disk device whose Dcb resolves
    and is not marked for removal, when the volume device is created,
    the Vpb of the request is NULL or there, and [FindMountEntry]
    points to an entry of the list: the call returns STATUS_SUCCESS,
    whatever [DokanSendVolumeArrivalNotification] reported.  Afterwards
    the Vcb is in the store, tagged and marked mounted, with its
    pointers to the volume device and to the Dcb; the Dcb points back to
    it; the volume device has left initialisation; the entry found holds
    the volume device and the mount options of the Dcb, its name and
    session as before, the other entries untouched; and the Vpb, if
    any, names the volume device. *)
Theorem mount_publishes_volume s DiskDevice irp m pvcb i e :
  MountChain s DiskDevice irp m ->
  IsDeletePending (m_deviceObject m) = false ->
  let net := VolumeDeviceType (m_dcb m) =? FILE_DEVICE_NETWORK_FILE_SYSTEM in
  let created :=
    IoCreateDevice s net (DriverObject (m_diskDevice m)) (m_dcb m) in
  let pvol := fst (snd created) in
  NT_SUCCESS (fst created) = true ->
  DeviceExtension (snd (snd created)) = Some pvcb ->
  vpb_resolves s irp ->
  FindMountEntry (MountEntryList s) (mount_key (m_dcb m)) = Some i ->
  MountEntryList s !! i = Some e ->
  exists s',
    DokanMountVolume DiskDevice irp s = Some (STATUS_SUCCESS, s') /\
    vcbs s' !! pvcb = Some (mounted_vcb pvol (m_pdcb m)) /\
    devices s' !! pvol = Some (mounted_device (snd (snd created))) /\
    (exists d, dcbs s' !! m_pdcb m = Some d /\ dcb_Vcb d = Some pvcb) /\
    MountEntryList s' =
      <[i := attached_entry e pvol (m_dcb m)]> (MountEntryList s) /\
    (forall p, MountVolume_Vpb (IoGetCurrentIrpStackLocation irp) = Some p ->
               vpbs s' !! p = Some (initialised_vpb (Some pvol))).
Proof.
  intros Hm Del net created pvol Ok Hext Hvpb Hfind He.
  rewrite (DokanMountVolume_chain _ _ _ _ Hm), Del.
  unfold MountCreate. rewrite bind_gets. fold net. fold created.
  subst pvol. destruct created as [status [pvol dev]] eqn:Ecr.
  cbn [fst snd] in *. rewrite bind_emit, Ok. cbn [negb].
  destruct Hm as (_ & _ & _ & _ & Hdcb & _).
  destruct (MountInitVolume_run
              (after [Call_IoCreateDevice net status] s)
              irp pvol dev (m_pdcb m) (m_dcb m) pvcb Hext Hdcb Hvpb)
    as (s1 & Run & Lv & Ld & Lc & Lm & Lt).
  rewrite (bind_Some _ _ _ _ _ Run).
  pose proof (MountInitVolume_vpbs _ _ _ _ _ _ _ _ Run) as Lp.
  cbn [MountEntryList after set_trace] in Lm.
  unfold MountAttach. rewrite bind_emit, bind_gets.
  cbn [MountEntryList after set_trace]. fold (mount_key (m_dcb m)).
  rewrite Lm, Hfind.
  assert (He1 : MountEntryList
                  (after [ExAcquireResourceExclusiveLite_dcb (m_pdcb m)] s1)
                !! i = Some e)
    by (cbn [MountEntryList after set_trace]; now rewrite Lm).
  rewrite (bind_Some _ _ _ _ _
             (attach_mount_entry_run i pvol (MountOptions (m_dcb m)) _ e He1)).
  rewrite bind_emit.
  destruct (MountPublish_trace (m_pdcb m) (m_dcb m) net) as (dp & Rp & _).
  rewrite Rp. eexists. split; [reflexivity|].
  cbn [vcbs devices dcbs vpbs MountEntryList after set_trace set_MountEntryList].
  rewrite Lm. now repeat split.
Qed.

(** X21.  What a mount attempt can return.  A call of [DokanMountVolume] that
    returns gives STATUS_UNRECOGNIZED_VOLUME with nothing changed (no
    device extension, or not a Dcb), or found its Dcb and then:
    STATUS_DEVICE_REMOVED with nothing changed when the device is
    marked for removal; the status of the failed device creation, with
    that call as the only addition to the trace; STATUS_DEVICE_REMOVED
    when no mount entry was found; STATUS_SUCCESS when one was found.
    A status with the success bit is STATUS_SUCCESS. *)
Theorem mount_status_cases s DiskDevice irp st s' :
  DokanMountVolume DiskDevice irp s = Some (st, s') ->
  ((st = STATUS_UNRECOGNIZED_VOLUME /\ s' = s) \/
   exists m, MountChain s DiskDevice irp m /\
     let net :=
       VolumeDeviceType (m_dcb m) =? FILE_DEVICE_NETWORK_FILE_SYSTEM in
     let created :=
       IoCreateDevice s net (DriverObject (m_diskDevice m)) (m_dcb m) in
     let entry := FindMountEntry (MountEntryList s) (mount_key (m_dcb m)) in
     ((IsDeletePending (m_deviceObject m) = true /\
       st = STATUS_DEVICE_REMOVED /\ s' = s) \/
      (IsDeletePending (m_deviceObject m) = false /\
       NT_SUCCESS (fst created) = false /\ st = fst created /\
       s' = after [Call_IoCreateDevice net st] s) \/
      (IsDeletePending (m_deviceObject m) = false /\
       NT_SUCCESS (fst created) = true /\ entry = None /\
       st = STATUS_DEVICE_REMOVED) \/
      (IsDeletePending (m_deviceObject m) = false /\
       NT_SUCCESS (fst created) = true /\ is_Some entry /\
       st = STATUS_SUCCESS))) /\
  (NT_SUCCESS st = true -> st = STATUS_SUCCESS).
Proof.
  intros K.
  assert (Cases :
    (st = STATUS_UNRECOGNIZED_VOLUME /\ s' = s) \/
    exists m, MountChain s DiskDevice irp m /\
      let net :=
        VolumeDeviceType (m_dcb m) =? FILE_DEVICE_NETWORK_FILE_SYSTEM in
      let created :=
        IoCreateDevice s net (DriverObject (m_diskDevice m)) (m_dcb m) in
      let entry := FindMountEntry (MountEntryList s) (mount_key (m_dcb m)) in
      ((IsDeletePending (m_deviceObject m) = true /\
        st = STATUS_DEVICE_REMOVED /\ s' = s) \/
       (IsDeletePending (m_deviceObject m) = false /\
        NT_SUCCESS (fst created) = false /\ st = fst created /\
        s' = after [Call_IoCreateDevice net st] s) \/
       (IsDeletePending (m_deviceObject m) = false /\
        NT_SUCCESS (fst created) = true /\ entry = None /\
        st = STATUS_DEVICE_REMOVED) \/
       (IsDeletePending (m_deviceObject m) = false /\
        NT_SUCCESS (fst created) = true /\ is_Some entry /\
        st = STATUS_SUCCESS))).
  { pose proof K as K0.
    apply DokanMountVolume_inv in K as [E|(m & Hm)]; [now left|].
    right. exists m. split; [exact Hm|]. cbv zeta.
    rewrite (DokanMountVolume_chain _ _ _ _ Hm) in K0.
    destruct (IsDeletePending (m_deviceObject m));
      [injection K0 as <- <-; now left|].
    right. pose proof K0 as K1.
    apply MountCreate_inv in K0 as [[Bad E]|[(Ok & N & E)|(Ok & N & E)]].
    - left. split; [reflexivity|]. split; [exact Bad|]. split; [exact E|].
      unfold MountCreate in K1. rewrite bind_gets in K1.
      destruct (IoCreateDevice _ _ _ _) as [status [pvol dev]].
      cbn [fst] in *. rewrite bind_emit, Bad in K1. cbn [negb] in K1.
      unfold DokanLogError in K1. now injection K1 as <- <-.
    - right. left. now repeat split.
    - right. right. now repeat split. }
  split; [exact Cases|]. intros S.
  destruct Cases as [[-> _]|(m & _ & [(_ & -> & _)|[(_ & Bad & -> & _)
                     |[(_ & _ & _ & ->)|(_ & _ & _ & E)]]])];
    try discriminate S; [congruence | exact E].
Qed.

(** X22.  Resources and auto-mount on every path of a mount.  A call of
    [DokanMountVolume] that returns, with whatever status, has released
    the resource of the Dcb and the mount manager lock as often as it
    acquired them, last acquired first; and it has either left
    auto-mount alone or switched it off and then on again. *)
Theorem mount_releases_resources s DiskDevice irp st s' :
  DokanMountVolume DiskDevice irp s = Some (st, s') ->
  exists delta,
    trace s' = trace s ++ delta /\
    resource_stack [] delta = Some [] /\
    (automount_calls delta = [] \/ automount_calls delta = [false; true]).
Proof.
  intros K. pose proof K as K0.
  apply DokanMountVolume_inv in K as [[_ ->]|(m & Hm)].
  { exists []. rewrite app_nil_r. split; [reflexivity|]. split; [reflexivity|].
    now left. }
  rewrite (DokanMountVolume_chain _ _ _ _ Hm) in K0.
  destruct (IsDeletePending (m_deviceObject m)).
  { injection K0 as _ <-. exists []. rewrite app_nil_r.
    split; [reflexivity|]. split; [reflexivity|]. now left. }
  unfold MountCreate in K0. rewrite bind_gets in K0.
  destruct (IoCreateDevice _ _ _ _) as [status [pvol dev]].
  rewrite bind_emit in K0. destruct (NT_SUCCESS status); cbn [negb] in K0.
  2:{ injection K0 as _ <-. eexists. split; [apply trace_after|].
      split; [reflexivity|]. now left. }
  apply bind_inv in K0 as (pvcb & s1 & I1 & K0).
  apply MountInitVolume_setup in I1 as (_ & d1 & T1 & F1).
  rewrite trace_after in T1.
  unfold MountAttach in K0. rewrite bind_emit, bind_gets in K0.
  destruct (FindMountEntry _ _) as [i|].
  - apply bind_inv in K0 as (u & s2 & A & K0).
    apply attach_mount_entry_trace in A. rewrite trace_after in A.
    rewrite bind_emit in K0.
    destruct (MountPublish_trace (m_pdcb m) (m_dcb m)
                (VolumeDeviceType (m_dcb m) =? FILE_DEVICE_NETWORK_FILE_SYSTEM))
      as (dp & Rp & Sp & Ap & _).
    rewrite Rp in K0. injection K0 as _ <-.
    exists ([Call_IoCreateDevice
               (VolumeDeviceType (m_dcb m) =? FILE_DEVICE_NETWORK_FILE_SYSTEM)
               status] ++ d1 ++
            [ExAcquireResourceExclusiveLite_dcb (m_pdcb m)] ++
            [ExReleaseResourceLite_dcb (m_pdcb m)] ++ dp).
    split; [|split].
    + rewrite !trace_after, A, T1. now rewrite <- !app_assoc.
    + destruct (mount_setup_events [] d1 F1) as [S1 _].
      cbn [app resource_stack]. rewrite resource_stack_app, S1.
      cbn. rewrite Z.eqb_refl. apply Sp.
    + destruct (mount_setup_events [] d1 F1) as [_ A1].
      rewrite !automount_calls_app, A1. exact Ap.
  - rewrite bind_emit, ret_run in K0. injection K0 as _ <-.
    exists ([Call_IoCreateDevice
               (VolumeDeviceType (m_dcb m) =? FILE_DEVICE_NETWORK_FILE_SYSTEM)
               status] ++ d1 ++
            [ExAcquireResourceExclusiveLite_dcb (m_pdcb m)] ++
            [ExReleaseResourceLite_dcb (m_pdcb m)]).
    split; [|split].
    + rewrite !trace_after, T1. now rewrite <- !app_assoc.
    + destruct (mount_setup_events [] d1 F1) as [S1 _].
      cbn [app resource_stack]. rewrite resource_stack_app, S1.
      cbn. now rewrite Z.eqb_refl.
    + destruct (mount_setup_events [] d1 F1) as [_ A1].
      rewrite !automount_calls_app, A1. now left.
Qed.

(** X23.  Whom a successful mount calls.  When [DokanMountVolume] returns
    STATUS_SUCCESS it has started the check thread of the Dcb; it has
    sent the volume arrival notification exactly when the Dcb uses the
    mount manager; it has created the mount point itself exactly when
    the mount point is a drive letter, and registered the UNC provider
    exactly when the volume is a network file system; it has switched
    auto-mount off exactly for a mount point that is no drive letter,
    under the mount manager, with auto-mount reported on; and the one
    device it created was created with the secure call exactly for a
    network file system. *)
Theorem mount_calls_by_configuration s DiskDevice irp s' :
  DokanMountVolume DiskDevice irp s = Some (STATUS_SUCCESS, s') ->
  exists m delta,
    MountChain s DiskDevice irp m /\
    trace s' = trace s ++ delta /\
    let dcb := m_dcb m in
    let drive := IsMountPointDriveLetter (MountPoint dcb) in
    let net := VolumeDeviceType dcb =? FILE_DEVICE_NETWORK_FILE_SYSTEM in
    let manager := UseMountManager dcb in
    In (Call_DokanStartCheckThread (m_pdcb m)) delta /\
    (In (Call_DokanSendVolumeArrivalNotification (DiskDeviceName dcb)) delta
     <-> manager = true) /\
    (In (Call_DokanCreateMountPoint (m_pdcb m)) delta <-> drive = true) /\
    (In (Call_DokanRegisterUncProvider (m_pdcb m)) delta <-> net = true) /\
    (In (Call_DokanSendAutoMount false) delta <->
     manager = true /\ drive = false /\ DokanQueryAutoMount true = true) /\
    (exists status, In (Call_IoCreateDevice net status) delta) /\
    (forall secure status,
       In (Call_IoCreateDevice secure status) delta -> secure = net).
Proof.
  intros K. pose proof K as K0.
  apply DokanMountVolume_inv in K as [[E _]|(m & Hm)]; [discriminate E|].
  exists m. rewrite (DokanMountVolume_chain _ _ _ _ Hm) in K0.
  destruct (IsDeletePending (m_deviceObject m)); [discriminate K0|].
  unfold MountCreate in K0. rewrite bind_gets in K0.
  set (net := VolumeDeviceType (m_dcb m) =? FILE_DEVICE_NETWORK_FILE_SYSTEM)
    in *.
  destruct (IoCreateDevice _ _ _ _) as [status [pvol dev]].
  rewrite bind_emit in K0. destruct (NT_SUCCESS status) eqn:Ok;
    cbn [negb] in K0.
  2:{ unfold DokanLogError in K0. injection K0 as -> _. discriminate Ok. }
  apply bind_inv in K0 as (pvcb & s1 & I1 & K0).
  apply MountInitVolume_setup in I1 as (_ & d1 & T1 & F1).
  rewrite trace_after in T1.
  unfold MountAttach in K0. rewrite bind_emit, bind_gets in K0.
  destruct (FindMountEntry _ _) as [i|].
  2:{ rewrite bind_emit, ret_run in K0. discriminate K0. }
  apply bind_inv in K0 as (u & s2 & A & K0).
  apply attach_mount_entry_trace in A. rewrite trace_after in A.
  rewrite bind_emit in K0.
  destruct (MountPublish_trace (m_pdcb m) (m_dcb m) net)
    as (dp & Rp & _ & _ & P1 & P2 & P3 & P4 & P5 & P6).
  rewrite Rp in K0. injection K0 as <-.
  exists ([Call_IoCreateDevice net status] ++ d1 ++
          [ExAcquireResourceExclusiveLite_dcb (m_pdcb m)] ++
          [ExReleaseResourceLite_dcb (m_pdcb m)] ++ dp).
  split; [exact Hm|]. split.
  { rewrite !trace_after, A, T1. now rewrite <- !app_assoc. }
  assert (Pre : forall e,
    match e with
    | Call_IoCreateDevice _ _ | Call_DokanStartFcbGarbageCollector _
    | Call_ObReferenceObject _ | ExAcquireResourceExclusiveLite_dcb _
    | ExReleaseResourceLite_dcb _ => False
    | _ => True
    end ->
    (In e ([Call_IoCreateDevice net status] ++ d1 ++
           [ExAcquireResourceExclusiveLite_dcb (m_pdcb m)] ++
           [ExReleaseResourceLite_dcb (m_pdcb m)] ++ dp) <-> In e dp)).
  { intros e He. rewrite !in_app_iff. split; [|tauto].
    intros [H|[H|[H|[H|H]]]]; [| |..]; try exact H.
    - destruct H as [<-|[]]. contradiction He.
    - rewrite Forall_forall in F1. apply list_elem_of_In, F1 in H.
      destruct e; contradiction.
    - destruct H as [<-|[]]. contradiction He.
    - destruct H as [<-|[]]. contradiction He. }
  cbv zeta. fold net.
  rewrite !Pre by exact I.
  split; [exact P1|]. split; [exact P2|]. split; [exact P3|].
  split; [exact P4|]. split; [exact P5|].
  split; [exists status; now left|].
  intros secure st'. rewrite !in_app_iff.
  intros [H|[H|[H|[H|H]]]].
  - destruct H as [[= <- _]|[]]. reflexivity.
  - rewrite Forall_forall in F1. apply list_elem_of_In, F1 in H. contradiction.
  - destruct H as [E|[]]. discriminate E.
  - destruct H as [E|[]]. discriminate E.
  - now apply P6 in H.
Qed.

End MountSteps.

(** The mount of device 1 of the sample store, whose entry is the
    first of the list. *)
Lemma mount_publishes_volume_witness :
  exists s',
    DokanMountVolume (ext := Sample.externals) 1 (SampleMount.mount_request 1)
      Sample.state = Some (STATUS_SUCCESS, s') /\
    vcbs s' !! 200 = Some (mounted_vcb (ext := Sample.externals) 100 1) /\
    MountEntryList s' =
      [mkMountEntry (mkControl [100; 49] [] 1 (Some 100) 0);
       mkMountEntry (mkControl [100; 50] [] 1 (Some 12) 32)] /\
    vpbs s' !! 1 = Some (mkVpb (Some 100) 10 [68; 79; 75; 65; 78] 0x19831116).
Proof.
  destruct (mount_publishes_volume (ext := Sample.externals) Sample.state 1
              (SampleMount.mount_request 1) SampleRequests.target1 200 0%nat
              (mkMountEntry (mkControl [100; 49] [] 1 (Some 11) 0))
              ltac:(by_computation) ltac:(by_computation)
              ltac:(by_computation) ltac:(by_computation)
              ltac:(vm_compute; eexists; reflexivity)
              ltac:(by_computation) ltac:(reflexivity))
    as (s' & Run & Lv & _ & _ & Lm & Lp).
  exists s'. split; [exact Run|]. split; [exact Lv|]. split; [exact Lm|].
  exact (Lp 1 eq_refl).
Defined.

(** Device 4 of the sample store is marked for removal: the call
    found its Dcb. *)
Lemma mount_status_cases_witness :
  exists m, MountChain Sample.state 4 (SampleMount.mount_request 4) m.
Proof.
  destruct (proj1 (mount_status_cases (ext := Sample.externals) Sample.state 4
                     (SampleMount.mount_request 4) STATUS_DEVICE_REMOVED
                     Sample.state ltac:(vm_compute; reflexivity)))
    as [[E _]|(m & Hm & _)].
  - discriminate E.
  - exists m. exact Hm.
Defined.

(** The mount of device 1 again: resources and auto-mount. *)
Lemma mount_releases_resources_witness :
  let s' := from_option snd Sample.state
              (DokanMountVolume (ext := Sample.externals) 1
                 (SampleMount.mount_request 1) Sample.state) in
  exists delta,
    trace s' = trace Sample.state ++ delta /\
    resource_stack [] delta = Some [] /\
    (automount_calls delta = [] \/ automount_calls delta = [false; true]).
Proof.
  cbv zeta.
  apply (mount_releases_resources (ext := Sample.externals) Sample.state 1
           (SampleMount.mount_request 1) STATUS_SUCCESS).
  vm_compute. reflexivity.
Defined.

(** The mount of device 1 once more: a drive letter under the mount
    manager. *)
Lemma mount_calls_by_configuration_witness :
  let s' := from_option snd Sample.state
              (DokanMountVolume (ext := Sample.externals) 1
                 (SampleMount.mount_request 1) Sample.state) in
  exists m delta,
    MountChain Sample.state 1 (SampleMount.mount_request 1) m /\
    trace s' = trace Sample.state ++ delta /\
    In (Call_DokanStartCheckThread (m_pdcb m)) delta.
Proof.
  cbv zeta.
  destruct (mount_calls_by_configuration (ext := Sample.externals)
              Sample.state 1 (SampleMount.mount_request 1)
              (from_option snd Sample.state
                 (DokanMountVolume (ext := Sample.externals) 1
                    (SampleMount.mount_request 1) Sample.state))
              ltac:(vm_compute; reflexivity))
    as (m & delta & Hm & T & P & _).
  exists m, delta. split; [exact Hm|]. split; [exact T | exact P].
Defined.

(** ** The guard of a mount and MatchDokanDCBType *)

Section MountGuard.
Context {ext : Externals}.

(** X24.  [MatchDokanDCBType] and the guard of [DokanMountVolume] agree.  On
    the device extension of the device a mount request names,
    [MatchDokanDCBType] changes nothing; it answers TRUE exactly when
    the extension is there and tagged as a Dcb; and when it answers
    FALSE, [DokanMountVolume] returns STATUS_UNRECOGNIZED_VOLUME and
    leaves store and trace as they were. *)
Theorem match_dcb_type_guards_mount s DiskDevice irp disk pdev dev :
  devices s !! DiskDevice = Some disk ->
  MountVolume_DeviceObject (IoGetCurrentIrpStackLocation irp) = Some pdev ->
  devices s !! pdev = Some dev ->
  forall LogFailures b s1,
    MatchDokanDCBType (DeviceExtension dev) LogFailures s = Some (b, s1) ->
    s1 = s /\
    (b = true <->
     exists pdcb dcb, DeviceExtension dev = Some pdcb /\
       dcbs s !! pdcb = Some dcb /\ dcb_Identifier dcb = DCB) /\
    (b = false ->
     DokanMountVolume DiskDevice irp s =
       Some (STATUS_UNRECOGNIZED_VOLUME, s)).
Proof.
  intros Hdisk Hpdev Hdev log b s1 K.
  unfold DokanMountVolume.
  rewrite (bind_load_Some devices _ _ _ _ Hdisk), Hpdev. cbn [deref].
  rewrite bind_ret, (bind_load_Some devices _ _ _ _ Hdev).
  unfold MatchDokanDCBType in K.
  destruct (DeviceExtension dev) as [pdcb|].
  2:{ injection K as <- <-. split; [reflexivity|]. split; [|reflexivity].
      split; [discriminate|]. intros (p & d & E & _). discriminate E. }
  apply bind_inv in K as (dcb & s2 & L & K). apply load_inv in L as [Hdcb ->].
  rewrite (bind_load_Some dcbs _ _ _ _ Hdcb).
  unfold GetIdentifierType in *.
  destruct (bool_decide (dcb_Identifier dcb = DCB)) eqn:T; cbn [negb] in *;
    injection K as <- <-; (split; [reflexivity|]).
  - apply bool_decide_eq_true in T. split; [|discriminate].
    split; [|reflexivity]. intros _. now exists pdcb, dcb.
  - apply bool_decide_eq_false in T. split; [|reflexivity].
    split; [discriminate|]. intros (p & d & [= <-] & E & Td). congruence.
Qed.

End MountGuard.

(** Device 1 of the sample store carries a Dcb. *)
Lemma match_dcb_type_guards_mount_witness :
  exists pdcb dcb,
    Some 1 = Some pdcb /\ dcbs Sample.state !! pdcb = Some dcb /\
    dcb_Identifier dcb = DCB.
Proof.
  apply (proj1 (proj2 (match_dcb_type_guards_mount (ext := Sample.externals)
                         Sample.state 1 (SampleMount.mount_request 1)
                         (mkDevice 7 0 (Some 1)) 1 (mkDevice 7 0 (Some 1))
                         ltac:(reflexivity) ltac:(reflexivity)
                         ltac:(reflexivity) false true Sample.state
                         ltac:(vm_compute; reflexivity)))).
  reflexivity.
Defined.

(** ** Flags of the volume device *)

Lemma testbit_DO_DIRECT_IO i :
  0 <= i -> Z.testbit DO_DIRECT_IO i = (i =? bit_DO_DIRECT_IO).
Proof.
  intros Hi. change DO_DIRECT_IO with (2 ^ 4).
  rewrite Z.pow2_bits_eqb by lia. unfold bit_DO_DIRECT_IO. apply Z.eqb_sym.
Qed.

Lemma testbit_DO_DEVICE_INITIALIZING i :
  0 <= i ->
  Z.testbit DO_DEVICE_INITIALIZING i = (i =? bit_DO_DEVICE_INITIALIZING).
Proof.
  intros Hi. change DO_DEVICE_INITIALIZING with (2 ^ 7).
  rewrite Z.pow2_bits_eqb by lia. unfold bit_DO_DEVICE_INITIALIZING.
  apply Z.eqb_sym.
Qed.

Lemma testbit_initialised f i :
  0 <= i ->
  Z.testbit (ClearLongFlag (SetLongFlag f DO_DIRECT_IO) DO_DEVICE_INITIALIZING)
            i =
  (Z.testbit f i || (i =? bit_DO_DIRECT_IO)) &&
  ((i <? 32) && negb (i =? bit_DO_DEVICE_INITIALIZING)).
Proof.
  intros Hi. unfold ClearLongFlag, SetLongFlag.
  rewrite Z.land_spec, Z.lor_spec, testbit_DO_DIRECT_IO by exact Hi.
  f_equal. destruct (i <? 32) eqn:E.
  - apply Z.ltb_lt in E. rewrite Z.mod_pow2_bits_low by lia.
    rewrite Z.lnot_spec by exact Hi.
    now rewrite testbit_DO_DEVICE_INITIALIZING.
  - apply Z.ltb_ge in E. now rewrite Z.mod_pow2_bits_high by lia.
Qed.

Lemma initialised_flags f :
  0 <= f < 2 ^ 32 ->
  let f' := ClearLongFlag (SetLongFlag f DO_DIRECT_IO) DO_DEVICE_INITIALIZING in
  FlagOn f' DO_DIRECT_IO = true /\
  FlagOn f' DO_DEVICE_INITIALIZING = false /\
  (forall i, i <> bit_DO_DIRECT_IO -> i <> bit_DO_DEVICE_INITIALIZING ->
             Z.testbit f' i = Z.testbit f i) /\
  0 <= f' < 2 ^ 32.
Proof.
  intros Hf f'. split; [|split; [|split]].
  - unfold FlagOn. apply negb_true_iff, Z.eqb_neq. intros E.
    assert (B : Z.testbit (Z.land f' DO_DIRECT_IO) 4 = false)
      by (rewrite E; apply Z.bits_0).
    rewrite Z.land_spec in B. unfold f' in B.
    rewrite testbit_initialised, testbit_DO_DIRECT_IO in B by lia.
    cbn in B. rewrite orb_true_r in B. discriminate B.
  - unfold FlagOn. apply negb_false_iff, Z.eqb_eq. apply Z.bits_inj'.
    intros i Hi. rewrite Z.land_spec, Z.bits_0. unfold f'.
    rewrite testbit_initialised, testbit_DO_DEVICE_INITIALIZING by exact Hi.
    destruct (i =? bit_DO_DEVICE_INITIALIZING); cbn;
      now rewrite ?andb_false_r.
  - intros i N4 N7. destruct (Z.neg_nonneg_cases i) as [Hi|Hi].
    + now rewrite !Z.testbit_neg_r.
    + unfold f'. rewrite testbit_initialised by exact Hi.
      apply Z.eqb_neq in N4, N7. rewrite N4, N7. cbn.
      rewrite orb_false_r, andb_true_r.
      destruct (i <? 32) eqn:E; [apply andb_true_r|].
      apply Z.ltb_ge in E. rewrite andb_false_r. symmetry.
      apply (Z.bits_above_log2 f i); [lia|].
      destruct (Z.eq_dec f 0) as [->|Nz]; [cbn; lia|].
      assert (Z.log2 f < 32) by (apply Z.log2_lt_pow2; lia). lia.
  - unfold f', ClearLongFlag. rewrite <- Z.land_ones by lia.
    rewrite Z.land_assoc, Z.land_ones by lia.
    apply Z.mod_pos_bound. lia.
Qed.

Section VolumeDevice.
Context {ext : Externals}.

(** X25.  The volume device after lines 645-682.  Whatever flags
    [IoCreateDevice] gave the new device, as long as they fit in 32
    bits: the device in the store keeps its driver object and its
    extension, has DO_DIRECT_IO set and DO_DEVICE_INITIALIZING cleared,
    and every other bit of its flags is as it was created. *)
Theorem volume_device_leaves_initialisation s irp pvol dev pdcb dcb pvcb :
  DeviceExtension dev = Some pvcb ->
  dcbs s !! pdcb = Some dcb ->
  vpb_resolves s irp ->
  0 <= dev_Flags dev < 2 ^ 32 ->
  exists s1 d,
    MountInitVolume irp pvol dev pdcb dcb s = Some (pvcb, s1) /\
    devices s1 !! pvol = Some d /\
    DriverObject d = DriverObject dev /\
    DeviceExtension d = Some pvcb /\
    FlagOn (dev_Flags d) DO_DIRECT_IO = true /\
    FlagOn (dev_Flags d) DO_DEVICE_INITIALIZING = false /\
    (forall i, i <> bit_DO_DIRECT_IO -> i <> bit_DO_DEVICE_INITIALIZING ->
               Z.testbit (dev_Flags d) i = Z.testbit (dev_Flags dev) i) /\
    0 <= dev_Flags d < 2 ^ 32.
Proof.
  intros Hext Hdcb Hvpb Hf.
  destruct (MountInitVolume_run s irp pvol dev pdcb dcb pvcb Hext Hdcb Hvpb)
    as (s1 & Run & _ & Ld & _).
  exists s1, (mounted_device dev). split; [exact Run|]. split; [exact Ld|].
  split; [reflexivity|]. split; [exact Hext|].
  exact (initialised_flags (dev_Flags dev) Hf).
Qed.

(** X26.  [DokanInitVpb].  With a NULL Vpb nothing happens.  Otherwise the
    Vpb gets the volume device, the serial number 0x19831116 and the
    label, and no other Vpb changes; a second call changes nothing.
    The length field counts the bytes of the label stored exactly when
    VOLUME_LABEL has at most 31 characters: a longer label is stored
    cut to 31 characters while the field still counts all of it. *)
Theorem init_vpb_effect s VolumeDevice :
  DokanInitVpb None VolumeDevice s = Some (tt, s) /\
  (forall p v, vpbs s !! p = Some v ->
     exists s',
       DokanInitVpb (Some p) VolumeDevice s = Some (tt, s') /\
       DokanInitVpb (Some p) VolumeDevice s' = Some (tt, s') /\
       (exists v', vpbs s' !! p = Some v' /\
          vpb_DeviceObject v' = VolumeDevice /\
          SerialNumber v' = 0x19831116 /\
          VolumeLabel v' = take 31 VOLUME_LABEL /\
          (Z.of_nat (length VOLUME_LABEL) < 2 ^ 15 ->
           (VolumeLabelLength v' = 2 * Z.of_nat (length (VolumeLabel v')) <->
            (length VOLUME_LABEL <= 31)%nat))) /\
       (forall q, q <> p -> vpbs s' !! q = vpbs s !! q) /\
       devices s' = devices s /\ dcbs s' = dcbs s /\ vcbs s' = vcbs s /\
       trace s' = trace s).
Proof.
  split; [reflexivity|]. intros p v Hv.
  exists (set_vpbs (<[p := initialised_vpb VolumeDevice]> (vpbs s)) s).
  unfold DokanInitVpb. rewrite (bind_load_Some vpbs _ v) by exact Hv.
  rewrite (bind_load_Some vpbs _ (initialised_vpb VolumeDevice))
    by (cbn [vpbs set_vpbs]; apply lookup_insert_eq).
  unfold modify. cbn [vpbs set_vpbs].
  split; [reflexivity|]. split.
  { do 2 f_equal. unfold set_vpbs. cbn. f_equal.
    now rewrite insert_insert_eq. }
  split.
  { exists (initialised_vpb VolumeDevice). split; [apply lookup_insert_eq|].
    split; [reflexivity|]. split; [reflexivity|]. split; [reflexivity|].
    intros Hlen. cbn [VolumeLabelLength VolumeLabel initialised_vpb].
    rewrite length_take.
    rewrite (Z.mod_small (Z.of_nat (length VOLUME_LABEL))) by lia.
    rewrite Z.mod_small by lia. lia. }
  split; [intros q N; now apply lookup_insert_ne|]. now repeat split.
Qed.

End VolumeDevice.

(** The device [IoCreateDevice] hands out in the sample system, still
    initialising. *)
Lemma volume_device_leaves_initialisation_witness :
  exists s1 d,
    MountInitVolume (ext := Sample.externals) (SampleMount.mount_request 1) 100
      (mkDevice 7 DO_DEVICE_INITIALIZING (Some 200)) 1 Sample.dcb1
      Sample.state = Some (200, s1) /\
    devices s1 !! 100 = Some d /\
    FlagOn (dev_Flags d) DO_DIRECT_IO = true /\
    FlagOn (dev_Flags d) DO_DEVICE_INITIALIZING = false.
Proof.
  destruct (volume_device_leaves_initialisation (ext := Sample.externals)
              Sample.state (SampleMount.mount_request 1) 100
              (mkDevice 7 DO_DEVICE_INITIALIZING (Some 200)) 1 Sample.dcb1 200
              ltac:(reflexivity) ltac:(reflexivity)
              ltac:(vm_compute; eexists; reflexivity)
              ltac:(unfold DO_DEVICE_INITIALIZING; cbn; lia))
    as (s1 & d & Run & Ld & _ & _ & F1 & F2 & _).
  exists s1, d. now repeat split.
Defined.

(** The Vpb of the sample store, initialised for device 100. *)
Lemma init_vpb_effect_witness :
  exists s',
    DokanInitVpb (ext := Sample.externals) (Some 1) (Some 100) Sample.state =
      Some (tt, s') /\
    DokanInitVpb (ext := Sample.externals) (Some 1) (Some 100) s' =
      Some (tt, s') /\
    exists v', vpbs s' !! 1 = Some v' /\ vpb_DeviceObject v' = Some 100 /\
               SerialNumber v' = 0x19831116 /\
               VolumeLabel v' = [68; 79; 75; 65; 78].
Proof.
  destruct (proj2 (init_vpb_effect (ext := Sample.externals) Sample.state
                     (Some 100)) 1 (mkVpb None 0 [] 0) ltac:(reflexivity))
    as (s' & Run & Again & (v' & Lv & Ed & Es & El & _) & _).
  exists s'. split; [exact Run|]. split; [exact Again|].
  exists v'. split; [exact Lv|]. split; [exact Ed|]. split; [exact Es|].
  exact El.
Defined.
